(** * A shallow embedding of the healthcare chatbot's dialogue engine

    The development follows [server.js] (the engine: text analysis, intent
    detection, triage, the medication-interaction checker, the appointment
    flow controller and the response composer) and [database.js] (the
    session store).

    Modelling conventions.
    - A JavaScript string is a [string] of 8-bit characters.  [toLowerCase],
      [trim] and the regular-expression classes [\w], [\d], [\s] act on the
      ASCII range; other bytes (the UTF-8 encoding of emoji in the reply
      texts, for instance) are carried unchanged.
    - A property that may be absent or [null] is an [option]; JavaScript
      truthiness of such a value is [truthy].
    - [Math.random], the clock and the generative service are inputs of a
      turn: the random draw is a natural number, time stamps are left out of
      the records, and the generative service is an oracle value.
    - Writes to the session store succeed.
    - A function that can throw returns an [option], with [None] for the
      exception ([checkMedicationInteractions]).
    - The context of a session is one JavaScript object, shared by the
      cache and the running turn and updated in place.  The model threads
      the context through the turn and writes it to the cache where the
      source calls [sessions.set]; every path of a turn ends with such a
      call, so the cache holds the final object either way
      (see [composeResponse_spec]). *)

From Stdlib Require Import Strings.String Strings.Ascii Lists.List Bool.Bool.
From Stdlib Require Import NArith.NArith ZArith.ZArith Arith.Arith micromega.Lia.
From Stdlib Require Import Numbers.DecimalString.
From stdpp Require Import base option list strings gmap.

Import ListNotations.
Local Open Scope string_scope.
Local Open Scope list_scope.

(** ** Strings *)

Module Text.

Definition code (c : ascii) : N := N_of_ascii c.

Definition isUpper (c : ascii) : bool := (65 <=? code c)%N && (code c <=? 90)%N.
Definition isLower (c : ascii) : bool := (97 <=? code c)%N && (code c <=? 122)%N.
Definition isDigit (c : ascii) : bool := (48 <=? code c)%N && (code c <=? 57)%N.

(** The class [\w] of a JavaScript regular expression. *)
Definition isWordChar (c : ascii) : bool :=
  isUpper c || isLower c || isDigit c || (code c =? 95)%N.

(** The class [\s], and the characters [trim] removes: tab, line feed,
    vertical tab, form feed, carriage return and space. *)
Definition isSpace (c : ascii) : bool :=
  ((9 <=? code c)%N && (code c <=? 13)%N) || (code c =? 32)%N.

Definition lowerChar (c : ascii) : ascii :=
  if isUpper c then ascii_of_N (code c + 32) else c.

(** [String.prototype.toLowerCase]. *)
Fixpoint toLowerCase (s : string) : string :=
  match s with
  | EmptyString => EmptyString
  | String c s' => String (lowerChar c) (toLowerCase s')
  end.

Fixpoint trimStart (s : string) : string :=
  match s with
  | EmptyString => EmptyString
  | String c s' => if isSpace c then trimStart s' else s
  end.

Fixpoint trimEnd (s : string) : string :=
  match s with
  | EmptyString => EmptyString
  | String c s' =>
      let t := trimEnd s' in
      if isSpace c && String.eqb t EmptyString then EmptyString else String c t
  end.

(** [String.prototype.trim]. *)
Definition trim (s : string) : string := trimEnd (trimStart s).

(** [s.includes(sub)]: [sub] occurs in [s] as a contiguous substring. *)
Fixpoint includes (s sub : string) : bool :=
  String.prefix sub s ||
  match s with
  | EmptyString => false
  | String _ s' => includes s' sub
  end.

(** [Array.prototype.includes] on an array of strings: exact membership. *)
Definition arrayIncludes (l : list string) (x : string) : bool :=
  existsb (String.eqb x) l.

(** [Array.prototype.join]. *)
Definition join (sep : string) (l : list string) : string := String.concat sep l.

Fixpoint takeWhile (p : ascii -> bool) (s : string) : string :=
  match s with
  | EmptyString => EmptyString
  | String c s' => if p c then String c (takeWhile p s') else EmptyString
  end.

Fixpoint dropWhile (p : ascii -> bool) (s : string) : string :=
  match s with
  | EmptyString => EmptyString
  | String c s' => if p c then dropWhile p s' else s
  end.

(** [parseInt] on a string of decimal digits. *)
Definition parseInt (digits : string) : N :=
  fold_left (fun n c => (10 * n + (code c - 48))%N) (list_ascii_of_string digits) 0%N.

(** Decimal rendering of a number, as template literals do. *)
Definition showNat (n : nat) : string := NilEmpty.string_of_uint (Nat.to_uint n).

(** JavaScript truthiness of a string that may be [null] or [undefined]. *)
Definition truthy (o : option string) : bool :=
  match o with
  | Some s => negb (String.eqb s EmptyString)
  | None => false
  end.

(** [a || b] on such strings. *)
Definition orElse (o : option string) (d : string) : string :=
  match o with
  | Some s => if String.eqb s EmptyString then d else s
  | None => d
  end.

(** *** Regular expressions of the shape [\b(a1|...|an)\b]

    [\b] holds between two positions when exactly one of the neighbouring
    characters is a word character; the ends of the string count as
    non-word.  With backtracking over the alternatives, the expression
    matches iff at some position some alternative is a prefix and both ends
    of it sit on a boundary. *)

Definition isWord (o : option ascii) : bool :=
  match o with Some c => isWordChar c | None => false end.

Definition boundary (before after : option ascii) : bool :=
  xorb (isWord before) (isWord after).

Definition firstChar (s : string) : option ascii := String.get 0 s.

Definition lastChar (s : string) : option ascii :=
  match String.length s with
  | O => None
  | S n => String.get n s
  end.

(** [alt] matches at the head of [s] and ends on a word boundary.  The
    alternatives used by the source are all non-empty, so the character
    before the end position is the last one of [alt]. *)
Definition altMatchesHere (s alt : string) : bool :=
  String.prefix alt s &&
  boundary (lastChar alt) (String.get (String.length alt) s).

Fixpoint wordSearch (alts : list string) (before : option ascii) (s : string) : bool :=
  (boundary before (firstChar s) && existsb (altMatchesHere s) alts) ||
  match s with
  | EmptyString => false
  | String c s' => wordSearch alts (Some c) s'
  end.

(** [/\b(a1|...|an)\b/.test(s)]. *)
Definition testWords (alts : list string) (s : string) : bool :=
  wordSearch alts None s.

(** The first alternative, in declared order, for which [ok] holds. *)
Definition firstAlt (ok : string -> bool) (alts : list string) : option string :=
  List.find ok alts.

End Text.

Import Text.

(** ** Text analyzer: sentiment *)

Inductive Sentiment := positive | negative | neutral.

Definition positiveWords : list string :=
  ["good"; "great"; "better"; "improving"; "fine"; "ok"; "okay"; "well";
   "thanks"; "thank you"].

Definition negativeWords : list string :=
  ["bad"; "worse"; "terrible"; "awful"; "pain"; "hurt"; "sick"; "worried";
   "concerned"; "scared"].

(** The two [forEach] loops update one running [score]. *)
Definition analyzeSentiment (message : string) : Sentiment :=
  let msg := toLowerCase message in
  let score := 0%Z in
  let score :=
    fold_left (fun score word => if includes msg word then (score + 1)%Z else score)
              positiveWords score in
  let score :=
    fold_left (fun score word => if includes msg word then (score - 1)%Z else score)
              negativeWords score in
  if (0 <? score)%Z then positive
  else if (score <? 0)%Z then negative
  else neutral.

(** Following the words of the specification: every occurrence of a lexicon
    word counts.  [occurrences s w] is the number of positions of [s] at
    which [w] starts. *)
Fixpoint occurrences (s w : string) : nat :=
  (if String.prefix w s then 1 else 0) +
  match s with
  | EmptyString => 0
  | String _ s' => occurrences s' w
  end.

Definition occurrenceScore (msg : string) : Z :=
  (Z.of_nat (list_sum (map (occurrences msg) positiveWords))
   - Z.of_nat (list_sum (map (occurrences msg) negativeWords)))%Z.

Definition sentimentOfScore (score : Z) : Sentiment :=
  if (0 <? score)%Z then positive
  else if (score <? 0)%Z then negative
  else neutral.

Definition analyzeSentiment_by_occurrences (message : string) : Sentiment :=
  sentimentOfScore (occurrenceScore (toLowerCase message)).

(** Number of lexicon words present in [msg], each counted once. *)
Definition presentCount (msg : string) (lexicon : list string) : nat :=
  List.length (List.filter (includes msg) lexicon).

(** ** Medical knowledge base *)

Record SymptomKnowledge := {
  description : string;
  severityHint : string;
  recommendations : list string
}.

(** [medicalKnowledge.commonSymptoms], in declaration order (the order of
    [Object.keys]). *)
Definition commonSymptoms : list (string * SymptomKnowledge) :=
  [("headache",
    {| description := "Headaches can be caused by tension, migraines, dehydration, or other factors.";
       severityHint := "moderate";
       recommendations := ["Stay hydrated"; "Rest in a quiet, dark room";
         "Consider over-the-counter pain relief if appropriate";
         "See a doctor if severe or persistent"] |});
   ("fever",
    {| description := "Fever is usually a sign of infection. Normal body temperature is around 98.6°F (37°C).";
       severityHint := "moderate";
       recommendations := ["Rest and stay hydrated"; "Monitor temperature regularly";
         "Use fever-reducing medication if appropriate";
         "Seek medical care if fever is high (>103°F) or persists"] |});
   ("cough",
    {| description := "Coughs can be dry or productive, and may indicate respiratory issues.";
       severityHint := "mild";
       recommendations := ["Stay hydrated"; "Use a humidifier"; "Avoid irritants like smoke";
         "See a doctor if persistent or accompanied by other symptoms"] |});
   ("nausea",
    {| description := "Nausea can be caused by various factors including infections, medications, or digestive issues.";
       severityHint := "moderate";
       recommendations := ["Stay hydrated with small sips"; "Avoid heavy or spicy foods"; "Rest";
         "Seek care if severe or persistent"] |})].

Definition specialties : list (string * string) :=
  [("cardiology", "Heart and cardiovascular system");
   ("dermatology", "Skin conditions");
   ("endocrinology", "Hormones and metabolism");
   ("gastroenterology", "Digestive system");
   ("neurology", "Nervous system and brain");
   ("orthopedics", "Bones, joints, and muscles");
   ("pediatrics", "Children's health");
   ("psychiatry", "Mental health")].

Definition wellnessTips : list (string * list string) :=
  [("nutrition", ["Eat a balanced diet with fruits and vegetables";
                  "Stay hydrated (8 glasses of water daily)";
                  "Limit processed foods"; "Control portion sizes"]);
   ("exercise", ["Aim for 150 minutes of moderate exercise per week";
                 "Include strength training 2x per week";
                 "Stay active throughout the day"; "Find activities you enjoy"]);
   ("sleep", ["Aim for 7-9 hours of sleep per night"; "Maintain a regular sleep schedule";
              "Create a relaxing bedtime routine"; "Avoid screens before bed"]);
   ("mental", ["Practice stress management techniques";
               "Stay connected with friends and family";
               "Take breaks when needed"; "Consider meditation or mindfulness"])].

Record MedInfo := {
  med_interactions : list string;
  med_warnings : string
}.

(** [medicalKnowledge.medicationInteractions]: the own keys of the object
    literal.  What a property read on the object finds besides them is given
    by [lookupMedication] below. *)
Definition medicationInteractions : gmap string MedInfo :=
  <["aspirin" := {| med_interactions := ["warfarin"; "ibuprofen"; "naproxen"];
                    med_warnings := "May increase bleeding risk when combined with blood thinners" |}]>
  (<["ibuprofen" := {| med_interactions := ["aspirin"; "warfarin"; "lithium"];
                       med_warnings := "Can increase risk of stomach bleeding and kidney problems" |}]>
  (<["warfarin" := {| med_interactions := ["aspirin"; "ibuprofen"; "vitamin k"];
                      med_warnings := "Many medications and foods can affect blood thinning levels" |}]>
   ∅)).

Record TriageConfig := {
  keywords : list string;
  cfg_priority : nat;
  cfg_action : string
}.

Module triageLevels.
Definition emergency : TriageConfig :=
  {| keywords := ["chest pain"; "can't breathe"; "unconscious"; "severe bleeding";
                  "heart attack"; "stroke"];
     cfg_priority := 1;
     cfg_action := "Call 911 immediately" |}.
Definition urgent : TriageConfig :=
  {| keywords := ["high fever"; "severe pain"; "difficulty breathing"; "persistent vomiting"];
     cfg_priority := 2;
     cfg_action := "Seek emergency care or urgent care within hours" |}.
Definition moderate : TriageConfig :=
  {| keywords := ["moderate pain"; "fever"; "persistent symptoms"];
     cfg_priority := 3;
     cfg_action := "Schedule appointment within 24-48 hours" |}.
Definition routine : TriageConfig :=
  {| keywords := ["mild symptoms"; "wellness"; "preventive"];
     cfg_priority := 4;
     cfg_action := "Schedule routine appointment" |}.
End triageLevels.

(** ** Process-wide analytics

    The counters of the [analytics] object; its histograms (intents,
    symptoms, hours of the day) are not modelled. *)

Record Analytics := {
  totalConversations : nat;
  totalMessages : nat;
  emergencyCount : nat
}.

Definition bumpEmergency (a : Analytics) : Analytics :=
  {| totalConversations := totalConversations a;
     totalMessages := totalMessages a;
     emergencyCount := S (emergencyCount a) |}.

Definition bumpMessages (a : Analytics) : Analytics :=
  {| totalConversations := totalConversations a;
     totalMessages := S (totalMessages a);
     emergencyCount := emergencyCount a |}.

(** ** Triage engine *)

Inductive TriageLevel := lvl_emergency | lvl_urgent | lvl_moderate | lvl_routine.

Inductive Urgency := CRITICAL | HIGH | MEDIUM | LOW.

Record TriageResult := {
  triageLevel : option TriageLevel;
  priority : nat;
  action : option string;
  urgency : Urgency
}.

Record SymptomInfo := {
  symptoms : list string;
  duration : option string;
  severity : option string
}.

(** [s.match(/(\d+)\s*(day|days|week|weeks|month|months)/i)]: the leftmost
    position at which a run of digits, optional white space and a unit
    follow one another.  Taking fewer digits or less white space than the
    greedy run never helps, since a unit starts with a letter.  The result
    is the digits and the first alternative that fits, lower-cased. *)
Definition durationUnits : list string :=
  ["day"; "days"; "week"; "weeks"; "month"; "months"].

Fixpoint matchDuration (s : string) : option (string * string) :=
  match s with
  | EmptyString => None
  | String c s' =>
      if isDigit c then
        let rest := dropWhile isSpace (dropWhile isDigit s) in
        match firstAlt (fun u => String.prefix u (toLowerCase rest)) durationUnits with
        | Some unit => Some (takeWhile isDigit s, unit)
        | None => matchDuration s'
        end
      else matchDuration s'
  end.

Definition performTriage (message : string) (symptomInfo : SymptomInfo)
    (analytics : Analytics) : TriageResult * Analytics :=
  let msg := toLowerCase message in
  let triageLevel := lvl_routine in
  let priority := 4 in
  let action := "Schedule routine appointment" in
  (* Check emergency keywords *)
  if existsb (fun keyword => includes msg keyword) (keywords triageLevels.emergency) then
    ({| triageLevel := Some lvl_emergency; priority := 1;
        action := Some (cfg_action triageLevels.emergency); urgency := CRITICAL |},
     bumpEmergency analytics)
  (* Check urgent keywords *)
  else if existsb (fun keyword => includes msg keyword) (keywords triageLevels.urgent) then
    ({| triageLevel := Some lvl_urgent; priority := 2;
        action := Some (cfg_action triageLevels.urgent); urgency := HIGH |}, analytics)
  (* Check severity indicators *)
  else if truthy (severity symptomInfo)
          && arrayIncludes ["severe"; "intense"; "extreme"]
                           (toLowerCase (orElse (severity symptomInfo) EmptyString)) then
    ({| triageLevel := Some lvl_urgent; priority := 2;
        action := Some (cfg_action triageLevels.urgent); urgency := HIGH |}, analytics)
  else if truthy (severity symptomInfo)
          && arrayIncludes ["moderate"] (toLowerCase (orElse (severity symptomInfo) EmptyString)) then
    ({| triageLevel := Some lvl_moderate; priority := 3;
        action := Some (cfg_action triageLevels.moderate); urgency := MEDIUM |}, analytics)
  (* Check duration *)
  else
    let routine :=
      ({| triageLevel := Some triageLevel; priority := priority;
          action := Some action; urgency := LOW |}, analytics) in
    if truthy (duration symptomInfo) then
      match matchDuration (orElse (duration symptomInfo) EmptyString) with
      | Some (digits, unit) =>
          let num := parseInt digits in
          if (includes unit "week" && (2 <=? num)%N) || includes unit "month" then
            ({| triageLevel := Some lvl_moderate; priority := 3;
                action := Some (cfg_action triageLevels.moderate); urgency := MEDIUM |},
             analytics)
          else routine
      | None => routine
      end
    else routine.

(** ** Interaction checker *)

Record Interaction := {
  medication1 : string;
  medication2 : string;
  warning : string
}.

Record InteractionCheck := {
  interactions : list Interaction;
  warnings : list string
}.

Definition interactionWarning (med1 med2 explanation : string) : string :=
  "⚠️ Potential interaction between " +:+ med1 +:+ " and " +:+ med2 +:+ ": " +:+ explanation.

(** The inner loop: [later] are the medications at the indices after [i]. *)
Definition checkAgainst (med1 : string) (medInfo : MedInfo) (later : list string)
    (acc : InteractionCheck) : InteractionCheck :=
  fold_left
    (fun acc m =>
       let med2 := toLowerCase m in
       if arrayIncludes (med_interactions medInfo) med2 then
         {| interactions := interactions acc ++
              [{| medication1 := med1; medication2 := med2;
                  warning := med_warnings medInfo |}];
            warnings := warnings acc ++
              [interactionWarning med1 med2 (med_warnings medInfo)] |}
       else acc)
    later acc.

(** The members that the object literal inherits from [Object.prototype]. *)
Definition inheritedProperties : list string :=
  ["constructor"; "__defineGetter__"; "__defineSetter__"; "hasOwnProperty";
   "__lookupGetter__"; "__lookupSetter__"; "isPrototypeOf"; "propertyIsEnumerable";
   "toString"; "valueOf"; "__proto__"; "toLocaleString"].

(** What [medicalKnowledge.medicationInteractions[med1]] evaluates to: the
    entry of an own key; a member of the prototype, which is a function or
    the prototype itself and so truthy, and has no [interactions]; or
    [undefined]. *)
Inductive PropertyRead :=
  | ownEntry (medInfo : MedInfo)
  | inheritedMember
  | noProperty.

Definition lookupMedication (med1 : string) : PropertyRead :=
  match medicationInteractions !! med1 with
  | Some medInfo => ownEntry medInfo
  | None => if arrayIncludes inheritedProperties med1 then inheritedMember else noProperty
  end.

(** The outer loop over [i]; [None] stands for the [TypeError] that
    [medInfo.interactions.includes(med2)] throws in the first pass of the
    inner loop when [medInfo] is an inherited member. *)
Fixpoint checkFrom (medications : list string) (acc : InteractionCheck)
    : option InteractionCheck :=
  match medications with
  | [] => Some acc
  | m :: later =>
      let med1 := toLowerCase m in
      match lookupMedication med1 with
      | ownEntry medInfo => checkFrom later (checkAgainst med1 medInfo later acc)
      | inheritedMember =>
          match later with
          | [] => Some acc
          | _ :: _ => None
          end
      | noProperty => checkFrom later acc
      end
  end.

(** [checkMedicationInteractions(medications)]; [None] when it throws. *)
Definition checkMedicationInteractions (medications : list string)
    : option InteractionCheck :=
  checkFrom medications {| interactions := []; warnings := [] |}.

(** The check as the response composer goes on with it.  The lists that
    [generateResponse] passes hold names found by [extractEntities], which
    are names of [medicationPatterns], and on these the check returns
    ([known_names_are_checked], [generateResponse_names_known]); the
    [TypeError] of other lists is not carried through the composer, which
    reads such a check as one without records. *)
Definition checkedInteractions (medications : list string) : InteractionCheck :=
  default {| interactions := []; warnings := [] |}
          (checkMedicationInteractions medications).

(** ** Data model of a session *)

Inductive Intent :=
  | emergency | greeting | goodbye | help | symptom | appointment
  | medication | wellness | specialty | triage | general.

Definition intentName (i : Intent) : string :=
  match i with
  | emergency => "emergency" | greeting => "greeting" | goodbye => "goodbye"
  | help => "help" | symptom => "symptom" | appointment => "appointment"
  | medication => "medication" | wellness => "wellness" | specialty => "specialty"
  | triage => "triage" | general => "general"
  end.

Definition urgencyName (u : Urgency) : string :=
  match u with
  | CRITICAL => "CRITICAL" | HIGH => "HIGH" | MEDIUM => "MEDIUM" | LOW => "LOW"
  end.

(** The result of [extractEntities].  The source never fills [symptoms].
    The [numbers] are the values of [parseInt] on runs of digits, kept exact
    (the rounding of JavaScript numbers above 2^53 is not modelled); the
    [timeExpressions] are pieces of the message as written. *)
Record Entities := {
  ent_medications : list string;
  ent_symptoms : list string;
  ent_bodyParts : list string;
  ent_numbers : list N;
  ent_timeExpressions : list string
}.

Inductive Role := user | bot.

Record Turn := {
  role : Role;
  message : string;
  turn_intent : option Intent;
  turn_entities : option Entities;
  turn_sentiment : option Sentiment
}.

(** [userInfo] starts as the empty object: both lists may be absent. *)
Record UserInfo := {
  ui_medications : option (list string);
  ui_symptoms : option (list string)
}.

(** The session context.  A flag that is absent from the JavaScript object
    reads as [undefined], which every use in the source treats as [false];
    the record holds that truth value.  [createdAt] and the top-level
    [medications]/[symptoms] copies, which nothing reads, are left out. *)
Record Context := {
  conversationHistory : list Turn;
  currentTopic : option Intent;
  askedDuration : bool;
  askedSeverity : bool;
  askedOtherSymptoms : bool;
  askedAppointmentType : bool;
  askedAppointmentDate : bool;
  askedAppointmentReason : bool;
  appointmentType : option string;
  appointmentDate : option string;
  appointmentReason : option string;
  sessionId : option string;
  userInfo : UserInfo
}.

Definition set_conversationHistory (v : list Turn) (c : Context) : Context :=
  {| conversationHistory := v; currentTopic := currentTopic c;
     askedDuration := askedDuration c; askedSeverity := askedSeverity c;
     askedOtherSymptoms := askedOtherSymptoms c;
     askedAppointmentType := askedAppointmentType c;
     askedAppointmentDate := askedAppointmentDate c;
     askedAppointmentReason := askedAppointmentReason c;
     appointmentType := appointmentType c; appointmentDate := appointmentDate c;
     appointmentReason := appointmentReason c; sessionId := sessionId c;
     userInfo := userInfo c |}.

Definition set_currentTopic (v : option Intent) (c : Context) : Context :=
  {| conversationHistory := conversationHistory c; currentTopic := v;
     askedDuration := askedDuration c; askedSeverity := askedSeverity c;
     askedOtherSymptoms := askedOtherSymptoms c;
     askedAppointmentType := askedAppointmentType c;
     askedAppointmentDate := askedAppointmentDate c;
     askedAppointmentReason := askedAppointmentReason c;
     appointmentType := appointmentType c; appointmentDate := appointmentDate c;
     appointmentReason := appointmentReason c; sessionId := sessionId c;
     userInfo := userInfo c |}.

Definition set_askedDuration (v : bool) (c : Context) : Context :=
  {| conversationHistory := conversationHistory c; currentTopic := currentTopic c;
     askedDuration := v; askedSeverity := askedSeverity c;
     askedOtherSymptoms := askedOtherSymptoms c;
     askedAppointmentType := askedAppointmentType c;
     askedAppointmentDate := askedAppointmentDate c;
     askedAppointmentReason := askedAppointmentReason c;
     appointmentType := appointmentType c; appointmentDate := appointmentDate c;
     appointmentReason := appointmentReason c; sessionId := sessionId c;
     userInfo := userInfo c |}.

Definition set_askedSeverity (v : bool) (c : Context) : Context :=
  {| conversationHistory := conversationHistory c; currentTopic := currentTopic c;
     askedDuration := askedDuration c; askedSeverity := v;
     askedOtherSymptoms := askedOtherSymptoms c;
     askedAppointmentType := askedAppointmentType c;
     askedAppointmentDate := askedAppointmentDate c;
     askedAppointmentReason := askedAppointmentReason c;
     appointmentType := appointmentType c; appointmentDate := appointmentDate c;
     appointmentReason := appointmentReason c; sessionId := sessionId c;
     userInfo := userInfo c |}.

Definition set_askedOtherSymptoms (v : bool) (c : Context) : Context :=
  {| conversationHistory := conversationHistory c; currentTopic := currentTopic c;
     askedDuration := askedDuration c; askedSeverity := askedSeverity c;
     askedOtherSymptoms := v; askedAppointmentType := askedAppointmentType c;
     askedAppointmentDate := askedAppointmentDate c;
     askedAppointmentReason := askedAppointmentReason c;
     appointmentType := appointmentType c; appointmentDate := appointmentDate c;
     appointmentReason := appointmentReason c; sessionId := sessionId c;
     userInfo := userInfo c |}.

Definition set_askedAppointmentType (v : bool) (c : Context) : Context :=
  {| conversationHistory := conversationHistory c; currentTopic := currentTopic c;
     askedDuration := askedDuration c; askedSeverity := askedSeverity c;
     askedOtherSymptoms := askedOtherSymptoms c; askedAppointmentType := v;
     askedAppointmentDate := askedAppointmentDate c;
     askedAppointmentReason := askedAppointmentReason c;
     appointmentType := appointmentType c; appointmentDate := appointmentDate c;
     appointmentReason := appointmentReason c; sessionId := sessionId c;
     userInfo := userInfo c |}.

Definition set_askedAppointmentDate (v : bool) (c : Context) : Context :=
  {| conversationHistory := conversationHistory c; currentTopic := currentTopic c;
     askedDuration := askedDuration c; askedSeverity := askedSeverity c;
     askedOtherSymptoms := askedOtherSymptoms c;
     askedAppointmentType := askedAppointmentType c; askedAppointmentDate := v;
     askedAppointmentReason := askedAppointmentReason c;
     appointmentType := appointmentType c; appointmentDate := appointmentDate c;
     appointmentReason := appointmentReason c; sessionId := sessionId c;
     userInfo := userInfo c |}.

Definition set_askedAppointmentReason (v : bool) (c : Context) : Context :=
  {| conversationHistory := conversationHistory c; currentTopic := currentTopic c;
     askedDuration := askedDuration c; askedSeverity := askedSeverity c;
     askedOtherSymptoms := askedOtherSymptoms c;
     askedAppointmentType := askedAppointmentType c;
     askedAppointmentDate := askedAppointmentDate c; askedAppointmentReason := v;
     appointmentType := appointmentType c; appointmentDate := appointmentDate c;
     appointmentReason := appointmentReason c; sessionId := sessionId c;
     userInfo := userInfo c |}.

Definition set_appointmentType (v : option string) (c : Context) : Context :=
  {| conversationHistory := conversationHistory c; currentTopic := currentTopic c;
     askedDuration := askedDuration c; askedSeverity := askedSeverity c;
     askedOtherSymptoms := askedOtherSymptoms c;
     askedAppointmentType := askedAppointmentType c;
     askedAppointmentDate := askedAppointmentDate c;
     askedAppointmentReason := askedAppointmentReason c; appointmentType := v;
     appointmentDate := appointmentDate c; appointmentReason := appointmentReason c;
     sessionId := sessionId c; userInfo := userInfo c |}.

Definition set_appointmentDate (v : option string) (c : Context) : Context :=
  {| conversationHistory := conversationHistory c; currentTopic := currentTopic c;
     askedDuration := askedDuration c; askedSeverity := askedSeverity c;
     askedOtherSymptoms := askedOtherSymptoms c;
     askedAppointmentType := askedAppointmentType c;
     askedAppointmentDate := askedAppointmentDate c;
     askedAppointmentReason := askedAppointmentReason c;
     appointmentType := appointmentType c; appointmentDate := v;
     appointmentReason := appointmentReason c; sessionId := sessionId c;
     userInfo := userInfo c |}.

Definition set_appointmentReason (v : option string) (c : Context) : Context :=
  {| conversationHistory := conversationHistory c; currentTopic := currentTopic c;
     askedDuration := askedDuration c; askedSeverity := askedSeverity c;
     askedOtherSymptoms := askedOtherSymptoms c;
     askedAppointmentType := askedAppointmentType c;
     askedAppointmentDate := askedAppointmentDate c;
     askedAppointmentReason := askedAppointmentReason c;
     appointmentType := appointmentType c; appointmentDate := appointmentDate c;
     appointmentReason := v; sessionId := sessionId c; userInfo := userInfo c |}.

Definition set_sessionId (v : option string) (c : Context) : Context :=
  {| conversationHistory := conversationHistory c; currentTopic := currentTopic c;
     askedDuration := askedDuration c; askedSeverity := askedSeverity c;
     askedOtherSymptoms := askedOtherSymptoms c;
     askedAppointmentType := askedAppointmentType c;
     askedAppointmentDate := askedAppointmentDate c;
     askedAppointmentReason := askedAppointmentReason c;
     appointmentType := appointmentType c; appointmentDate := appointmentDate c;
     appointmentReason := appointmentReason c; sessionId := v; userInfo := userInfo c |}.

Definition set_userInfo (v : UserInfo) (c : Context) : Context :=
  {| conversationHistory := conversationHistory c; currentTopic := currentTopic c;
     askedDuration := askedDuration c; askedSeverity := askedSeverity c;
     askedOtherSymptoms := askedOtherSymptoms c;
     askedAppointmentType := askedAppointmentType c;
     askedAppointmentDate := askedAppointmentDate c;
     askedAppointmentReason := askedAppointmentReason c;
     appointmentType := appointmentType c; appointmentDate := appointmentDate c;
     appointmentReason := appointmentReason c; sessionId := sessionId c; userInfo := v |}.

(** [context.conversationHistory.push(t)]. *)
Definition pushTurn (t : Turn) (c : Context) : Context :=
  set_conversationHistory (conversationHistory c ++ [t]) c.

Definition botTurn (text : string) : Turn :=
  {| role := bot; message := text; turn_intent := None;
     turn_entities := None; turn_sentiment := None |}.

(** The three appointment flags and the three stored answers. *)
Definition appointmentState (c : Context)
    : bool * bool * bool * option string * option string * option string :=
  (askedAppointmentType c, askedAppointmentDate c, askedAppointmentReason c,
   appointmentType c, appointmentDate c, appointmentReason c).

Definition Idle : bool * bool * bool * option string * option string * option string :=
  (false, false, false, None, None, None).

(** Some appointment asked-flag is set. *)
Definition inAppointmentFlow (c : Context) : bool :=
  askedAppointmentType c || askedAppointmentDate c || askedAppointmentReason c.

(** ** Session store ([database.js])

    A row of [sessions] holds the JSON text of [userInfo] and of the metadata
    object passed by the caller; a key the caller left out of that object is
    absent from the stored text. *)

Record Metadata := {
  md_currentTopic : option Intent;
  md_askedDuration : option bool;
  md_askedSeverity : option bool;
  md_askedOtherSymptoms : option bool;
  md_askedAppointmentType : option bool;
  md_askedAppointmentDate : option bool;
  md_askedAppointmentReason : option bool;
  md_appointmentType : option string;
  md_appointmentDate : option string;
  md_appointmentReason : option string
}.

Definition emptyMetadata : Metadata :=
  {| md_currentTopic := None; md_askedDuration := None; md_askedSeverity := None;
     md_askedOtherSymptoms := None; md_askedAppointmentType := None;
     md_askedAppointmentDate := None; md_askedAppointmentReason := None;
     md_appointmentType := None; md_appointmentDate := None;
     md_appointmentReason := None |}.

Record DbSession := {
  db_userInfo : UserInfo;
  db_metadata : Metadata
}.

Record MessageRow := {
  row_session : string;
  row_role : Role;
  row_message : string;
  row_intent : option Intent;
  row_entities : option Entities;
  row_sentiment : option Sentiment;
  row_triage : option TriageLevel
}.

Record Profile := {
  prof_medications : list string;
  prof_symptoms : list string
}.

Record Database := {
  tbl_sessions : gmap string DbSession;
  tbl_messages : list MessageRow;
  tbl_events : list (string * string);
  tbl_profiles : gmap string Profile
}.

Module database.

(** [INSERT INTO sessions]: refused when the key exists. *)
Definition createSession (sessionId : string) (userInfo : UserInfo) (metadata : Metadata)
    (db : Database) : Database :=
  match tbl_sessions db !! sessionId with
  | Some _ => db
  | None =>
      {| tbl_sessions := <[sessionId := {| db_userInfo := userInfo; db_metadata := metadata |}]>
                           (tbl_sessions db);
         tbl_messages := tbl_messages db;
         tbl_events := tbl_events db;
         tbl_profiles := tbl_profiles db |}
  end.

(** [UPDATE sessions SET user_info = ?, metadata = ? WHERE session_id = ?]:
    the stored metadata is replaced as a whole; no row, no change. *)
Definition updateSession (sessionId : string) (userInfo : UserInfo) (metadata : Metadata)
    (db : Database) : Database :=
  match tbl_sessions db !! sessionId with
  | Some _ =>
      {| tbl_sessions := <[sessionId := {| db_userInfo := userInfo; db_metadata := metadata |}]>
                           (tbl_sessions db);
         tbl_messages := tbl_messages db;
         tbl_events := tbl_events db;
         tbl_profiles := tbl_profiles db |}
  | None => db
  end.

Definition getSession (sessionId : string) (db : Database) : option DbSession :=
  tbl_sessions db !! sessionId.

Definition getAllSessions (db : Database) : list (string * DbSession) :=
  map_to_list (tbl_sessions db).

Definition saveMessage (sessionId : string) (r : Role) (text : string)
    (intent : option Intent) (entities : option Entities)
    (sentiment : option Sentiment) (triageLevel : option TriageLevel)
    (db : Database) : Database :=
  {| tbl_sessions := tbl_sessions db;
     tbl_messages := tbl_messages db ++
       [{| row_session := sessionId; row_role := r; row_message := text;
           row_intent := intent; row_entities := entities;
           row_sentiment := sentiment; row_triage := triageLevel |}];
     tbl_events := tbl_events db;
     tbl_profiles := tbl_profiles db |}.

Definition getMessages (sessionId : string) (db : Database) : list MessageRow :=
  List.filter (fun r => String.eqb (row_session r) sessionId) (tbl_messages db).

Definition logEvent (eventType sessionId : string) (db : Database) : Database :=
  {| tbl_sessions := tbl_sessions db;
     tbl_messages := tbl_messages db;
     tbl_events := tbl_events db ++ [(eventType, sessionId)];
     tbl_profiles := tbl_profiles db |}.

Definition saveProfile (sessionId : string) (medications symptoms : list string)
    (db : Database) : Database :=
  {| tbl_sessions := tbl_sessions db;
     tbl_messages := tbl_messages db;
     tbl_events := tbl_events db;
     tbl_profiles := <[sessionId := {| prof_medications := medications;
                                       prof_symptoms := symptoms |}]> (tbl_profiles db) |}.

End database.

(** ** The process: session cache, store, counters, alert channel *)

Record Alert := {
  alert_event : string;
  alert_sessionId : string;
  alert_message : string
}.

Record World := {
  sessions : gmap string Context;
  db : Database;
  analytics : Analytics;
  emitted : list Alert;
  aiCalls : nat
}.

Definition set_sessions (v : gmap string Context) (w : World) : World :=
  {| sessions := v; db := db w; analytics := analytics w; emitted := emitted w;
     aiCalls := aiCalls w |}.

Definition set_db (v : Database) (w : World) : World :=
  {| sessions := sessions w; db := v; analytics := analytics w; emitted := emitted w;
     aiCalls := aiCalls w |}.

Definition set_analytics (v : Analytics) (w : World) : World :=
  {| sessions := sessions w; db := db w; analytics := v; emitted := emitted w;
     aiCalls := aiCalls w |}.

Definition set_emitted (v : list Alert) (w : World) : World :=
  {| sessions := sessions w; db := db w; analytics := analytics w; emitted := v;
     aiCalls := aiCalls w |}.

Definition set_aiCalls (v : nat) (w : World) : World :=
  {| sessions := sessions w; db := db w; analytics := analytics w; emitted := emitted w;
     aiCalls := v |}.

(** [sessions.set(sessionId, context)]. *)
Definition sessions_set (sessionId : string) (context : Context) (w : World) : World :=
  set_sessions (<[sessionId := context]> (sessions w)) w.

(** Run a store operation on the world's database. *)
Definition onDb (f : Database -> Database) (w : World) : World := set_db (f (db w)) w.

(** [io.emit(event, payload)]. *)
Definition io_emit (a : Alert) (w : World) : World := set_emitted (emitted w ++ [a]) w.

(** ** Canned replies *)

Definition nl : string := String (ascii_of_nat 10) EmptyString.

(** The double-quote character. *)
Definition dq : string := String (ascii_of_nat 34) EmptyString.

Module chatbotResponses.
Definition greeting : list string :=
  ["Hello! I'm your healthcare assistant. How can I help you with your health concerns today?";
   "Hi there! I'm here to assist with your healthcare needs. What can I help you with?";
   "Welcome! I'm your medical assistant. How may I assist you today?";
   "Hello! I'm here to help with your health questions. What would you like to know?"].
Definition goodbye : list string :=
  ["Take care of yourself! Remember to consult a healthcare professional for serious concerns.";
   "Stay healthy! Don't hesitate to reach out if you have more questions.";
   "Goodbye! Wishing you good health. Please consult a doctor for medical emergencies.";
   "Take care! For urgent medical issues, please contact emergency services immediately."].
Definition help : list string :=
  ["I can help you with: general health information, symptom guidance, appointment scheduling, medication reminders, wellness tips, and answering health-related questions. However, I'm not a replacement for professional medical advice. For serious symptoms or emergencies, please consult a healthcare provider immediately.";
   "I assist with healthcare information, symptoms, appointments, and general wellness. Please note: I provide general information only and cannot diagnose or treat. Always consult a qualified healthcare professional for medical advice.";
   "I'm here to provide general health information and guidance. I can help with symptoms, appointments, medications, and wellness. Important: For medical emergencies, call emergency services. For diagnosis and treatment, consult a healthcare provider."].
Definition symptoms : list string :=
  ["I understand you're experiencing symptoms. While I can provide general information, it's important to consult with a healthcare professional for proper diagnosis. Can you tell me more about when these symptoms started?";
   "Thank you for sharing your symptoms. For accurate diagnosis and treatment, I recommend scheduling an appointment with a healthcare provider. Would you like help finding a doctor?";
   "I hear your concern about these symptoms. For your safety, please consult a healthcare professional. If symptoms are severe or life-threatening, seek emergency care immediately."].
Definition appointment : list string :=
  ["I can help you schedule an appointment! You can book through our online portal or call our scheduling line at (555) 123-4567. What type of appointment do you need?";
   "To schedule an appointment, you can visit our website, use our mobile app, or call us. What specialty or type of care are you looking for?";
   "I'd be happy to help you schedule an appointment. You can book online 24/7 or call our office during business hours. What date works best for you?"].
Definition medication : list string :=
  ["For medication questions, it's best to consult with your pharmacist or prescribing doctor. They can provide specific information about dosages, interactions, and side effects. Is there a specific medication you're asking about?";
   "I can provide general medication information, but for specific questions about your prescriptions, please contact your healthcare provider or pharmacist. They have access to your medical history and can give personalized advice.";
   "Medication safety is important. For questions about your medications, side effects, or interactions, please speak with your doctor or pharmacist directly."].
Definition emergency : list string :=
  ["If you're experiencing a medical emergency, please call 911 or go to your nearest emergency room immediately. This chatbot cannot provide emergency medical assistance.";
   "For life-threatening emergencies, call 911 right away. Do not wait. This includes chest pain, difficulty breathing, severe injuries, or loss of consciousness.";
   "URGENT: If this is a medical emergency, please hang up and call 911 immediately. This service is for non-emergency health information only."].
Definition wellness : list string :=
  ["Great question about wellness! Some general tips: stay hydrated, get regular exercise, maintain a balanced diet, get adequate sleep (7-9 hours), and manage stress. Would you like more specific wellness advice?";
   "Wellness is important for overall health. Key areas include: nutrition, physical activity, mental health, sleep, and preventive care. What aspect of wellness would you like to focus on?";
   "I'm glad you're thinking about wellness! Regular check-ups, healthy eating, exercise, and stress management are all important. Is there a specific wellness goal you're working toward?"].
Definition default : list string :=
  ["I understand your concern. For accurate medical information, I recommend consulting with a healthcare professional. Is there a specific health topic I can help you learn more about?";
   "Thank you for sharing. I can provide general health information, but for personalized medical advice, please consult your healthcare provider. What would you like to know more about?";
   "I'm here to help with general health information. For specific medical concerns, diagnosis, or treatment, please see a qualified healthcare professional. How else can I assist you?"].
End chatbotResponses.

(** [variants[Math.floor(Math.random() * variants.length)]], with the draw
    [rnd] reduced to an index of the array. *)
Definition pick (rnd : nat) (variants : list string) : string :=
  nth (rnd mod List.length variants) variants EmptyString.

(** [items.map((r, i) => `${i + 1}. ${r}`)]. *)
Definition numbered (items : list string) : list string :=
  imap (fun i r => showNat (i + 1) +:+ ". " +:+ r) items.

(** ** Text analyzer: entities *)

Definition medicationPatterns : list string :=
  ["aspirin"; "ibuprofen"; "tylenol"; "advil"; "warfarin"; "metformin"; "insulin"].

Definition bodyParts : list string :=
  ["head"; "chest"; "stomach"; "back"; "arm"; "leg"; "throat"; "ear"; "eye"; "nose"].

(** All matches of [/\b\d+\b/g], from left to right: the runs of digits
    with a word boundary at both ends.  [skip] counts the characters that
    still belong to the match before; [before] is the character in front of
    [s]. *)
Fixpoint numberMatches (skip : nat) (before : option ascii) (s : string) : list string :=
  match s with
  | EmptyString => []
  | String c s' =>
      match skip with
      | S k => numberMatches k (Some c) s'
      | O =>
          let digits := takeWhile isDigit s in
          if isDigit c && boundary before (Some c)
             && boundary (lastChar digits) (firstChar (dropWhile isDigit s))
          then digits :: numberMatches (String.length digits - 1) (Some c) s'
          else numberMatches 0 (Some c) s'
      end
  end.

Definition timePatternUnits : list string :=
  ["day"; "days"; "hour"; "hours"; "week"; "weeks"; "month"; "months"; "year"; "years"].

(** The match of [\b(\d+)\s*(day|days|...|years)\b] without regard to case
    at the head of [s], as written in [s]. *)
Definition timeExpressionHere (before : option ascii) (s : string) : option string :=
  match s with
  | EmptyString => None
  | String c _ =>
      if isDigit c && boundary before (Some c) then
        let afterDigits := dropWhile isDigit s in
        let rest := dropWhile isSpace afterDigits in
        match firstAlt (altMatchesHere (toLowerCase rest)) timePatternUnits with
        | Some unit =>
            Some (takeWhile isDigit s +:+ takeWhile isSpace afterDigits
                    +:+ String.substring 0 (String.length unit) rest)
        | None => None
        end
      else None
  end.

(** All matches of that expression with the flags [gi], from left to
    right. *)
Fixpoint timeExpressionMatches (skip : nat) (before : option ascii) (s : string)
    : list string :=
  match s with
  | EmptyString => []
  | String c s' =>
      match skip with
      | S k => timeExpressionMatches k (Some c) s'
      | O =>
          match timeExpressionHere before s with
          | Some m => m :: timeExpressionMatches (String.length m - 1) (Some c) s'
          | None => timeExpressionMatches 0 (Some c) s'
          end
      end
  end.

Definition extractEntities (message : string) : Entities :=
  let msg := toLowerCase message in
  {| (* Extract medications *)
     ent_medications := List.filter (fun med => includes msg med) medicationPatterns;
     ent_symptoms := [];
     (* Extract body parts *)
     ent_bodyParts := List.filter (fun part => includes msg part) bodyParts;
     (* Extract numbers *)
     ent_numbers := map parseInt (numberMatches 0 None message);
     (* Extract time expressions *)
     ent_timeExpressions := timeExpressionMatches 0 None message |}.

(** ** Intent classifier *)

Definition intents : list (Intent * list string) :=
  [(emergency, ["emergency"; "chest pain"; "can't breathe"; "difficulty breathing";
                "severe pain"; "heart attack"; "stroke"; "unconscious"; "bleeding";
                "poison"; "overdose"; "suicide"; "self harm"; "crushing"; "pressure";
                "sudden"]);
   (greeting, ["hi"; "hello"; "hey"; "greetings"; "good morning"; "good afternoon";
               "good evening"; "what's up"]);
   (goodbye, ["bye"; "goodbye"; "see you"; "farewell"; "exit"; "quit"; "thanks";
              "thank you"; "appreciate"]);
   (help, ["help"; "what can you do"; "how can you help"; "assist"; "capabilities";
           "features"]);
   (symptom, ["symptom"; "pain"; "ache"; "hurt"; "fever"; "nausea"; "dizzy"; "headache";
              "stomach"; "feeling"; "unwell"; "sick"; "illness"; "disease"; "condition";
              "tired"; "fatigue"; "weak"; "sore"]);
   (appointment, ["appointment"; "schedule"; "book"; "visit"; "see doctor"; "see a doctor";
                  "consultation"; "checkup"; "exam"; "available"; "when"; "book now";
                  "check availability"; "find doctor"]);
   (medication, ["medication"; "medicine"; "drug"; "pill"; "prescription"; "dosage";
                 "side effect"; "interaction"; "pharmacy"; "take"; "taking"]);
   (wellness, ["wellness"; "healthy"; "diet"; "exercise"; "fitness"; "nutrition"; "sleep";
               "stress"; "mental health"; "prevention"; "preventive"; "weight"; "fitness"]);
   (specialty, ["cardiologist"; "dermatologist"; "neurologist"; "orthopedic";
                "pediatrician"; "psychiatrist"; "specialist"; "specialty"]);
   (triage, ["urgent"; "emergency"; "severe"; "mild"; "moderate"; "how bad"; "how serious";
             "priority"])].

(** The patterns are tried in declaration order and the first hit is
    returned ([matches[0]]); the [context] argument is not read. *)
Definition detectIntent (message : string) : Intent :=
  let msg := trim (toLowerCase message) in
  match List.find (fun entry => testWords (snd entry) msg) intents with
  | Some entry => fst entry
  | None => general
  end.

(** ** Symptom information *)

(** Leftmost match of [\b(a1|...|an)\b], returning the alternative. *)
Fixpoint wordFind (alts : list string) (before : option ascii) (s : string) : option string :=
  match (if boundary before (firstChar s) then firstAlt (altMatchesHere s) alts else None) with
  | Some a => Some a
  | None =>
      match s with
      | EmptyString => None
      | String c s' => wordFind alts (Some c) s'
      end
  end.

Definition timeUnits : list string :=
  ["day"; "days"; "hour"; "hours"; "week"; "weeks"; "month"; "months"].

(** Leftmost match of [\b(\d+)\s*(day|days|hour|...|months)\b] without regard
    to case: the digits and the unit as written. *)
Fixpoint durationFind (before : option ascii) (s : string) : option (string * string) :=
  match s with
  | EmptyString => None
  | String c s' =>
      let here :=
        if isDigit c && boundary before (Some c) then
          let rest := dropWhile isSpace (dropWhile isDigit s) in
          match firstAlt (altMatchesHere (toLowerCase rest)) timeUnits with
          | Some unit => Some (takeWhile isDigit s, String.substring 0 (String.length unit) rest)
          | None => None
          end
        else None in
      match here with
      | Some r => Some r
      | None => durationFind (Some c) s'
      end
  end.

Definition extractSymptomInfo (message : string) : SymptomInfo :=
  let msg := toLowerCase message in
  {| symptoms := List.filter (fun symptom => includes msg symptom) (map fst commonSymptoms);
     duration :=
       match durationFind None message with
       | Some (digits, unit) => Some (digits +:+ " " +:+ unit)
       | None => None
       end;
     severity :=
       wordFind ["severe"; "mild"; "moderate"; "intense"; "extreme"; "slight"] None msg |}.

(** ** Replies *)

Record Reply := {
  response : string;
  quickActions : list string;
  reply_triage : option TriageResult;
  reply_entities : option Entities;
  reply_sentiment : option Sentiment;
  reply_interactions : option (list Interaction);
  aiEnhanced : option bool
}.

(** A reply object with only [response] and [quickActions]. *)
Definition plainReply (text : string) (actions : list string) : Reply :=
  {| response := text; quickActions := actions; reply_triage := None;
     reply_entities := None; reply_sentiment := None;
     reply_interactions := None; aiEnhanced := None |}.

(** ** Appointment flow controller *)

Definition bookingTriggers : list string :=
  ["book now"; "schedule appointment"; "book"; "schedule"; "check availability"].

(** The metadata object written when the flow starts. *)
Definition startedMetadata (context : Context) : Metadata :=
  {| md_currentTopic := Some appointment; md_askedDuration := None;
     md_askedSeverity := None; md_askedOtherSymptoms := None;
     md_askedAppointmentType := Some (askedAppointmentType context);
     md_askedAppointmentDate := None; md_askedAppointmentReason := None;
     md_appointmentType := None; md_appointmentDate := None;
     md_appointmentReason := None |}.

(** Ask for the appointment type: the body shared, word for word, by the
    first and the last branch of [handleAppointmentFlow]. *)
Definition startAppointmentFlow (rnd : nat) (context : Context) (sid : string)
    (w : World) : option Reply * Context * World :=
  let context := set_askedAppointmentType true context in
  let response := pick rnd chatbotResponses.appointment in
  let response := response +:+ nl +:+ nl +:+ "What type of appointment are you looking for?" in
  let context := pushTurn (botTurn response) context in
  let w := onDb (database.saveMessage sid bot response (Some appointment) None None None) w in
  let w := onDb (database.updateSession sid (userInfo context) (startedMetadata context)) w in
  let w := sessions_set sid context w in
  (Some (plainReply response ["General Checkup"; "Specialist Visit"; "Follow-up"; "Emergency"]),
   context, w).

(** [handleAppointmentFlow(message, context, sessionId)]: the reply, or
    [None] for [null]; the context object is updated in place, which the
    model returns as the second component. *)
Definition handleAppointmentFlow (rnd : nat) (message : string) (context : Context)
    (sid : string) (w : World) : option Reply * Context * World :=
  let msg := toLowerCase message in
  (* Ensure sessionId is available *)
  let sid :=
    if String.eqb sid EmptyString && truthy (sessionId context)
    then orElse (sessionId context) EmptyString
    else sid in
  (* Check if this is a booking trigger (not an answer) *)
  if arrayIncludes bookingTriggers msg && negb (askedAppointmentType context) then
    startAppointmentFlow rnd context sid w
  (* Check if user is responding to appointment questions *)
  else if askedAppointmentType context && negb (askedAppointmentDate context) then
    (* Don't treat booking triggers as appointment types *)
    if negb (arrayIncludes bookingTriggers msg) then
      let context := set_appointmentType (Some message) context in
      let context := set_askedAppointmentDate true context in
      let response := "Thank you! You're looking for a " +:+ message +:+ " appointment. " in
      let response := response +:+
        "What date would work best for you? You can say things like " +:+ dq +:+ "tomorrow"
        +:+ dq +:+ ", " +:+ dq +:+ "next week" +:+ dq +:+ ", or a specific date." in
      let context := pushTurn (botTurn response) context in
      let w := onDb (database.saveMessage sid bot response (Some appointment) None None None) w in
      let w := onDb (database.updateSession sid (userInfo context)
                 {| md_currentTopic := Some appointment; md_askedDuration := None;
                    md_askedSeverity := None; md_askedOtherSymptoms := None;
                    md_askedAppointmentType := Some (askedAppointmentType context);
                    md_askedAppointmentDate := Some (askedAppointmentDate context);
                    md_askedAppointmentReason := Some (askedAppointmentReason context);
                    md_appointmentType := appointmentType context;
                    md_appointmentDate := None; md_appointmentReason := None |}) w in
      let w := sessions_set sid context w in
      (Some (plainReply response ["Tomorrow"; "Next Week"; "This Week"; "Cancel"]), context, w)
    else
      (* If it's a booking trigger, restart the flow *)
      (None, context, w)
  else if askedAppointmentDate context && negb (askedAppointmentReason context) then
    (* User provided date, now ask for reason *)
    let context := set_appointmentDate (Some message) context in
    let context := set_askedAppointmentReason true context in
    let response := "Great! " +:+ message +:+ " works. " in
    let response := response +:+
      "What is the reason for your visit? (e.g., routine checkup, specific symptoms, follow-up)" in
    let context := pushTurn (botTurn response) context in
    let w := onDb (database.saveMessage sid bot response (Some appointment) None None None) w in
    let w := onDb (database.updateSession sid (userInfo context)
               {| md_currentTopic := Some appointment; md_askedDuration := None;
                  md_askedSeverity := None; md_askedOtherSymptoms := None;
                  md_askedAppointmentType := Some (askedAppointmentType context);
                  md_askedAppointmentDate := Some (askedAppointmentDate context);
                  md_askedAppointmentReason := Some (askedAppointmentReason context);
                  md_appointmentType := appointmentType context;
                  md_appointmentDate := appointmentDate context;
                  md_appointmentReason := None |}) w in
    let w := sessions_set sid context w in
    (Some (plainReply response ["Routine Checkup"; "Follow-up"; "Symptoms"; "Other"]), context, w)
  else if askedAppointmentReason context then
    (* User provided reason, complete booking *)
    let context := set_appointmentReason (Some message) context in
    let response := "Perfect! I have your appointment details:" +:+ nl +:+ nl in
    let response := response +:+ "**Appointment Type:** "
                      +:+ orElse (appointmentType context) "General" +:+ nl in
    let response := response +:+ "**Preferred Date:** "
                      +:+ orElse (appointmentDate context) "Not specified" +:+ nl in
    let response := response +:+ "**Reason:** " +:+ message +:+ nl +:+ nl in
    let response := response +:+ "To complete your booking, you can:" +:+ nl in
    let response := response +:+ "1. Call our scheduling line at (555) 123-4567" +:+ nl in
    let response := response +:+ "2. Visit our online portal at www.healthcareportal.com" +:+ nl in
    let response := response +:+ "3. Use our mobile app" +:+ nl +:+ nl in
    let response := response +:+ "Our team will confirm your appointment within 24 hours." in
    let context := pushTurn (botTurn response) context in
    let w := onDb (database.saveMessage sid bot response (Some appointment) None None None) w in
    (* Reset appointment flow *)
    let context := set_askedAppointmentType false context in
    let context := set_askedAppointmentDate false context in
    let context := set_askedAppointmentReason false context in
    let context := set_appointmentType None context in
    let context := set_appointmentDate None context in
    let context := set_appointmentReason None context in
    let w := onDb (database.updateSession sid (userInfo context)
               {| md_currentTopic := Some appointment; md_askedDuration := None;
                  md_askedSeverity := None; md_askedOtherSymptoms := None;
                  md_askedAppointmentType := Some false;
                  md_askedAppointmentDate := Some false;
                  md_askedAppointmentReason := Some false;
                  md_appointmentType := None; md_appointmentDate := None;
                  md_appointmentReason := None |}) w in
    let w := sessions_set sid context w in
    (Some (plainReply response ["New Appointment"; "View Details"; "Contact Support"]), context, w)
  (* Start appointment flow - ask for type *)
  else if negb (askedAppointmentType context) then
    startAppointmentFlow rnd context sid w
  else
    (None, context, w). (* Continue with default flow *)

(** ** Symptom assessment *)

Record Assessment := {
  as_response : string;
  as_quickActions : list string;
  as_triage : TriageResult;
  as_entities : Entities;
  as_sentiment : Sentiment
}.

Definition actionText (t : TriageResult) : string :=
  match action t with Some a => a | None => "undefined" end.

Definition isPressing (u : Urgency) : bool :=
  match u with CRITICAL | HIGH => true | _ => false end.

Definition disclaimer : string :=
  nl +:+ nl +:+ "⚠️ For proper diagnosis and treatment, please consult with a healthcare professional.".

(** [generateSymptomAssessment(message, context)]: [None] for [null]; the
    context is updated in place (returned second), and the triage call may
    bump the emergency counter. *)
Definition generateSymptomAssessment (message : string) (context : Context)
    (analytics : Analytics) : option Assessment * Context * Analytics :=
  let symptomInfo := extractSymptomInfo message in
  let entities := extractEntities message in
  let sentiment := analyzeSentiment message in
  (* Perform triage *)
  let '(result, analytics) := performTriage message symptomInfo analytics in
  match symptoms symptomInfo with
  | symptom0 :: _ =>
      let knowledge := snd <$> List.find (fun e => String.eqb (fst e) symptom0) commonSymptoms in
      let response := "I understand you're experiencing " +:+ symptom0 +:+ ". " in
      (* Add triage information *)
      let response :=
        if isPressing (urgency result) then
          response +:+ nl +:+ nl +:+ "🚨 **URGENCY: " +:+ urgencyName (urgency result) +:+ "**"
            +:+ nl +:+ actionText result +:+ nl +:+ nl
        else response in
      let response :=
        match knowledge with
        | Some k => response +:+ description k +:+ " "
        | None => response
        end in
      (* Add sentiment-aware response *)
      let response :=
        match sentiment with
        | negative => response +:+ "I understand this is concerning for you. "
        | _ => response
        end in
      (* Add context-aware follow-up questions *)
      let followUps : list string := [] in
      let '(response, followUps, context) :=
        if negb (truthy (duration symptomInfo)) && negb (askedDuration context) then
          (response, followUps ++ ["How long have you been experiencing this?"],
           set_askedDuration true context)
        else if truthy (duration symptomInfo) then
          (response +:+ "You mentioned it's been " +:+ orElse (duration symptomInfo) EmptyString
             +:+ ". ", followUps, context)
        else (response, followUps, context) in
      let '(response, followUps, context) :=
        if negb (truthy (severity symptomInfo)) && negb (askedSeverity context) then
          (response, followUps ++ ["On a scale of 1-10, how would you rate the severity?"],
           set_askedSeverity true context)
        else if truthy (severity symptomInfo) then
          (response +:+ "You mentioned it's " +:+ orElse (severity symptomInfo) EmptyString
             +:+ ". ", followUps, context)
        else (response, followUps, context) in
      let '(followUps, context) :=
        if negb (askedOtherSymptoms context) then
          (followUps ++ ["Are you experiencing any other symptoms?"],
           set_askedOtherSymptoms true context)
        else (followUps, context) in
      let response :=
        match followUps with
        | [] => response
        | _ => response +:+ join " " followUps
        end in
      let response :=
        match knowledge with
        | Some k => response +:+ nl +:+ nl +:+ "**General recommendations:**" +:+ nl
                      +:+ join nl (numbered (recommendations k))
        | None => response
        end in
      (* Add triage recommendation *)
      let response := response +:+ nl +:+ nl +:+ "**Recommended Action:** " +:+ actionText result in
      let response := response +:+ disclaimer in
      let quickActions := ["Schedule Appointment"; "Find Doctor"; "More Info"] in
      let quickActions :=
        if isPressing (urgency result) then "Call 911" :: quickActions else quickActions in
      (Some {| as_response := response; as_quickActions := quickActions;
               as_triage := result; as_entities := entities; as_sentiment := sentiment |},
       context, analytics)
  | [] => (None, context, analytics)
  end.

(** [updateAnalytics]: the message counter (the per-intent and per-hour
    histograms are not modelled). *)
Definition updateAnalytics (w : World) : World := set_analytics (bumpMessages (analytics w)) w.

(** ** Context cache: hydration from the session store *)

Definition storedTurn (r : MessageRow) : Turn :=
  {| role := row_role r; message := row_message r; turn_intent := row_intent r;
     turn_entities := row_entities r; turn_sentiment := row_sentiment r |}.

(** [flag || false] on a metadata key that may be absent. *)
Definition flagOr (o : option bool) : bool := default false o.

(** The object literal built, with the same keys, by [syncSessionsFromDB]
    and by the cold-read branch of [generateResponse]. *)
Definition hydrate (dbSession : DbSession) (messages : list MessageRow) : Context :=
  {| conversationHistory := map storedTurn messages;
     currentTopic := md_currentTopic (db_metadata dbSession);
     askedDuration := flagOr (md_askedDuration (db_metadata dbSession));
     askedSeverity := flagOr (md_askedSeverity (db_metadata dbSession));
     askedOtherSymptoms := flagOr (md_askedOtherSymptoms (db_metadata dbSession));
     askedAppointmentType := false;
     askedAppointmentDate := false;
     askedAppointmentReason := false;
     appointmentType := None;
     appointmentDate := None;
     appointmentReason := None;
     sessionId := None;
     userInfo := db_userInfo dbSession |}.

(** The context of a session seen for the first time. *)
Definition freshContext (sid : string) : Context :=
  {| conversationHistory := [];
     currentTopic := None;
     askedDuration := false;
     askedSeverity := false;
     askedOtherSymptoms := false;
     askedAppointmentType := false;
     askedAppointmentDate := false;
     askedAppointmentReason := false;
     appointmentType := None;
     appointmentDate := None;
     appointmentReason := None;
     sessionId := Some sid;
     userInfo := {| ui_medications := None; ui_symptoms := None |} |}.

(** [syncSessionsFromDB()], run once when the process starts. *)
Definition syncSessionsFromDB (w : World) : World :=
  fold_left
    (fun w entry =>
       let messages := database.getMessages (fst entry) (db w) in
       sessions_set (fst entry) (hydrate (snd entry) messages) w)
    (database.getAllSessions (db w)) w.

(** The head of [generateResponse]: cache lookup, hydration on a miss. *)
Definition loadContext (sid : string) (w : World) : Context * World :=
  match sessions w !! sid with
  | Some context => (context, w)
  | None =>
      (* Load from database if not in memory *)
      match database.getSession sid (db w) with
      | Some dbSession =>
          let context := hydrate dbSession (database.getMessages sid (db w)) in
          (context, sessions_set sid context w)
      | None => (freshContext sid, w)
      end
  end.

(** ** Response composer *)

(** The generative service, as seen in one turn: whether a client is
    configured, and what a call yields ([None] for [null], which also stands
    for a time-out or an error caught by the caller). *)
Record AIService := {
  isAIAvailable : bool;
  generateAIResponse : string -> Context -> option string
}.

#[global] Instance Intent_eq_dec : EqDecision Intent.
Proof. solve_decision. Defined.

Definition isIntent (i j : Intent) : bool := bool_decide (i = j).

(** [[...new Set(l)]]: duplicates dropped, first occurrences kept in order. *)
Definition uniqueStrings (l : list string) : list string :=
  fold_left (fun acc x => if arrayIncludes acc x then acc else acc ++ [x]) l [].

(** [s.replace(pat, rep)] for a non-empty string pattern: the first
    occurrence only. *)
Fixpoint replaceFirst (s pat rep : string) : string :=
  if String.prefix pat s then
    rep +:+ String.substring (String.length pat) (String.length s - String.length pat) s
  else
    match s with
    | EmptyString => EmptyString
    | String c s' => String c (replaceFirst s' pat rep)
    end.

(** [flow && flow.response]. *)
Definition usableReply (o : option Reply) : option Reply :=
  match o with
  | Some r => if String.eqb (response r) EmptyString then None else Some r
  | None => None
  end.

(** The emergency branch. *)
Definition emergencyPath (rnd : nat) (userMessage sid : string) (context : Context)
    (w : World) : Reply * Context * World :=
  let w := set_analytics (bumpEmergency (analytics w)) w in
  let w := onDb (database.logEvent "emergency_detected" sid) w in
  let response := pick rnd chatbotResponses.emergency in
  let context := pushTurn (botTurn response) context in
  let w := onDb (database.saveMessage sid bot response (Some emergency) None None
                   (Some lvl_emergency)) w in
  let w := onDb (database.updateSession sid (userInfo context)
             {| md_currentTopic := Some emergency; md_askedDuration := None;
                md_askedSeverity := None; md_askedOtherSymptoms := None;
                md_askedAppointmentType := None; md_askedAppointmentDate := None;
                md_askedAppointmentReason := None; md_appointmentType := None;
                md_appointmentDate := None; md_appointmentReason := None |}) w in
  let w := sessions_set sid context w in
  (* Emit real-time alert via WebSocket *)
  let w := io_emit {| alert_event := "emergency_alert"; alert_sessionId := sid;
                      alert_message := userMessage |} w in
  ({| response := response; quickActions := ["Call 911"; "Find ER"];
      reply_triage := Some {| triageLevel := None; priority := 1; action := None;
                              urgency := CRITICAL |};
      reply_entities := None; reply_sentiment := None; reply_interactions := None;
      aiEnhanced := None |},
   context, w).

(** The metadata object written on the symptom branch. *)
Definition symptomMetadata (context : Context) : Metadata :=
  {| md_currentTopic := Some symptom;
     md_askedDuration := Some (askedDuration context);
     md_askedSeverity := Some (askedSeverity context);
     md_askedOtherSymptoms := Some (askedOtherSymptoms context);
     md_askedAppointmentType := None; md_askedAppointmentDate := None;
     md_askedAppointmentReason := None; md_appointmentType := None;
     md_appointmentDate := None; md_appointmentReason := None |}.

(** The symptom branch; [aiResponse] is [Some] only for a truthy text. *)
Definition symptomPath (aiResponse : option string) (rnd : nat) (userMessage sid : string)
    (entities : Entities) (sentiment : Sentiment) (interactionWarnings : list string)
    (context : Context) (w : World) : Reply * Context * World :=
  let '(assessment, context, a) := generateSymptomAssessment userMessage context (analytics w) in
  let w := set_analytics a w in
  match aiResponse with
  | Some aiText =>
      (* Enhance AI response with triage and recommendations *)
      let enhancedResponse := aiText in
      let enhancedResponse :=
        match assessment with
        | Some asmt =>
            if isPressing (urgency (as_triage asmt)) then
              "🚨 **URGENCY: " +:+ urgencyName (urgency (as_triage asmt)) +:+ "**" +:+ nl +:+ nl
                +:+ enhancedResponse +:+ nl +:+ nl +:+ "**Recommended Action:** "
                +:+ actionText (as_triage asmt)
            else enhancedResponse
        | None => enhancedResponse
        end in
      (* Add medication interaction warnings if applicable *)
      let enhancedResponse :=
        match interactionWarnings with
        | [] => enhancedResponse
        | _ => enhancedResponse +:+ nl +:+ nl +:+ join nl interactionWarnings
        end in
      let enhancedResponse := enhancedResponse +:+ disclaimer in
      let context := pushTurn (botTurn enhancedResponse) context in
      let w := onDb (database.saveMessage sid bot enhancedResponse (Some symptom) None
                       (Some sentiment)
                       (asmt ← assessment; triageLevel (as_triage asmt))) w in
      let w := onDb (database.updateSession sid (userInfo context) (symptomMetadata context)) w in
      let w := sessions_set sid context w in
      ({| response := enhancedResponse;
          quickActions := ["Schedule Appointment"; "Find Doctor"; "More Info"];
          reply_triage := as_triage <$> assessment;
          reply_entities := Some entities; reply_sentiment := Some sentiment;
          reply_interactions := None; aiEnhanced := None |},
       context, w)
  | None =>
      (* Fall back to rule-based assessment *)
      match assessment with
      | Some asmt =>
          let context := pushTurn (botTurn (as_response asmt)) context in
          let w := onDb (database.saveMessage sid bot (as_response asmt) (Some symptom) None
                           (Some sentiment) (triageLevel (as_triage asmt))) w in
          let w := onDb (database.updateSession sid (userInfo context)
                           (symptomMetadata context)) w in
          let w := sessions_set sid context w in
          (* Add medication interaction warnings if applicable *)
          let text :=
            match interactionWarnings with
            | [] => as_response asmt
            | _ => as_response asmt +:+ nl +:+ nl +:+ join nl interactionWarnings
            end in
          (* Ensure quickActions are always present *)
          let actions :=
            match as_quickActions asmt with
            | [] => ["Schedule Appointment"; "Find Doctor"; "More Info"]
            | qa => qa
            end in
          ({| response := text; quickActions := actions;
              reply_triage := Some (as_triage asmt);
              reply_entities := Some (as_entities asmt);
              reply_sentiment := Some (as_sentiment asmt);
              reply_interactions := None; aiEnhanced := None |},
           context, w)
      | None =>
          (* If no specific assessment, provide general symptom response *)
          let response := pick rnd chatbotResponses.symptoms in
          let context := pushTurn (botTurn response) context in
          let w := onDb (database.saveMessage sid bot response (Some symptom) None
                           (Some sentiment) None) w in
          let w := sessions_set sid context w in
          ({| response := response;
              quickActions := ["Schedule Appointment"; "Find Doctor"; "Tell Me More"];
              reply_triage := None; reply_entities := Some entities;
              reply_sentiment := Some sentiment; reply_interactions := None;
              aiEnhanced := None |},
           context, w)
      end
  end.

(** The metadata object written at the end of a standard turn. *)
Definition standardMetadata (intent : Intent) (context : Context) : Metadata :=
  {| md_currentTopic := Some intent;
     md_askedDuration := Some (askedDuration context);
     md_askedSeverity := Some (askedSeverity context);
     md_askedOtherSymptoms := Some (askedOtherSymptoms context);
     md_askedAppointmentType := Some (askedAppointmentType context);
     md_askedAppointmentDate := Some (askedAppointmentDate context);
     md_askedAppointmentReason := Some (askedAppointmentReason context);
     md_appointmentType := appointmentType context;
     md_appointmentDate := appointmentDate context;
     md_appointmentReason := appointmentReason context |}.

(** The tail of [generateResponse] after the [switch]: record the reply,
    persist the session, return. *)
Definition finishTurn (intent : Intent) (sentiment : Sentiment) (wasAIEnhanced : bool)
    (response : string) (quickActions : list string) (sid : string)
    (context : Context) (w : World) : Reply * Context * World :=
  let context := pushTurn (botTurn response) context in
  let w := onDb (database.saveMessage sid bot response (Some intent) None (Some sentiment) None) w in
  let w := onDb (database.updateSession sid (userInfo context) (standardMetadata intent context)) w in
  (* Update user profile in database *)
  let w :=
    match ui_medications (userInfo context), ui_symptoms (userInfo context) with
    | None, None => w
    | meds, syms => onDb (database.saveProfile sid (default [] meds) (default [] syms)) w
    end in
  let w := sessions_set sid context w in
  ({| response := response; quickActions := quickActions; reply_triage := None;
      reply_entities := None; reply_sentiment := None; reply_interactions := None;
      aiEnhanced := Some wasAIEnhanced |},
   context, w).

(** The [switch] over the intent, with its two arms: the generated text
    when there is one, the canned variants otherwise. *)
Definition standardPath (aiResponse : option string) (rnd : nat) (intent : Intent)
    (sentiment : Sentiment) (userMessage sid : string) (context : Context) (w : World)
    : Reply * Context * World :=
  match aiResponse with
  | Some aiText =>
      (* If AI response is available, use it for all intents *)
      let quickActions :=
        match intent with
        | greeting => ["Check Symptoms"; "Schedule Appointment"; "Wellness Tips"]
        | help => ["Symptoms"; "Appointments"; "Medications"; "Wellness"]
        | appointment => ["Book Now"; "Find Doctor"; "Check Availability"]
        | medication => ["Find Pharmacy"; "Contact Doctor"]
        | wellness => ["Nutrition Tips"; "Exercise Guide"; "Sleep Advice"]
        | _ => ["Get Help"; "Find Doctor"]
        end in
      finishTurn intent sentiment true aiText quickActions sid context w
  | None =>
      (* Fall back to rule-based responses *)
      match intent with
      | greeting =>
          finishTurn intent sentiment false (pick rnd chatbotResponses.greeting)
            ["Check Symptoms"; "Schedule Appointment"; "Wellness Tips"] sid context w
      | goodbye =>
          finishTurn intent sentiment false (pick rnd chatbotResponses.goodbye) [] sid context w
      | help =>
          finishTurn intent sentiment false (pick rnd chatbotResponses.help)
            ["Symptoms"; "Appointments"; "Medications"; "Wellness"] sid context w
      | appointment =>
          (* Try appointment flow first *)
          let '(appointmentFlow, context, w) :=
            handleAppointmentFlow rnd userMessage context sid w in
          match appointmentFlow with
          | Some flow =>
              let context := pushTurn (botTurn (response flow)) context in
              let w := sessions_set sid context w in
              (plainReply (response flow)
                 (match quickActions flow with
                  | [] => ["Book Now"; "Find Doctor"; "Check Availability"]
                  | qa => qa
                  end),
               context, w)
          | None =>
              (* Default appointment response *)
              finishTurn intent sentiment false (pick rnd chatbotResponses.appointment)
                ["Book Now"; "Find Doctor"; "Check Availability"] sid context w
          end
      | medication =>
          finishTurn intent sentiment false (pick rnd chatbotResponses.medication)
            ["Find Pharmacy"; "Contact Doctor"] sid context w
      | wellness =>
          finishTurn intent sentiment false (pick rnd chatbotResponses.wellness)
            ["Nutrition Tips"; "Exercise Guide"; "Sleep Advice"] sid context w
      | _ =>
          (* Context-aware default response *)
          let response :=
            if (2 <? List.length (conversationHistory context))%nat then
              "I understand. Based on our conversation about "
                +:+ match currentTopic context with Some t => intentName t | None => "null" end
                +:+ ", I'd recommend consulting with a healthcare professional for personalized advice. Is there anything specific you'd like to know more about?"
            else pick rnd chatbotResponses.default in
          finishTurn intent sentiment false response ["Get Help"; "Find Doctor"] sid context w
      end
  end.

(** Medication, specialty and wellness branches, which answer on their own
    when their table has an entry for the message and fall through to the
    [switch] otherwise. *)
Definition topicPath (aiResponse : option string) (rnd : nat) (intent : Intent)
    (entities : Entities) (sentiment : Sentiment) (userMessage message sid : string)
    (context : Context) (w : World) : Reply * Context * World :=
  let standard := standardPath aiResponse rnd intent sentiment userMessage sid context w in
  (* Medication interaction check *)
  let interactionCheck := checkedInteractions (ent_medications entities) in
  if isIntent intent medication
     && (0 <? List.length (ent_medications entities))%nat
     && (0 <? List.length (warnings interactionCheck))%nat then
    let response := pick rnd chatbotResponses.medication in
    let response := response +:+ nl +:+ nl +:+ join nl (warnings interactionCheck) in
    let response := response +:+ nl +:+ nl
      +:+ "⚠️ Always consult your pharmacist or doctor about medication interactions." in
    let context := pushTurn (botTurn response) context in
    let w := sessions_set sid context w in
    ({| response := response; quickActions := ["Find Pharmacy"; "Contact Doctor"];
        reply_triage := None; reply_entities := None; reply_sentiment := None;
        reply_interactions := Some (interactions interactionCheck); aiEnhanced := None |},
     context, w)
  (* Specialty information *)
  else if isIntent intent specialty then
    match List.find (fun e => includes message (replaceFirst (fst e) "ology" EmptyString)
                              || includes message (fst e)) specialties with
    | Some (name, about) =>
        let response := "A " +:+ name +:+ " specialist focuses on " +:+ about
          +:+ ". Would you like help finding a " +:+ name
          +:+ " specialist or scheduling an appointment?" in
        let context := pushTurn (botTurn response) context in
        let w := sessions_set sid context w in
        (plainReply response ["Find Specialist"; "Schedule Appointment"], context, w)
    | None => standard
    end
  (* Wellness with specific category *)
  else if isIntent intent wellness then
    match List.find (fun e => includes message (fst e)) wellnessTips with
    | Some (category, tips) =>
        let response := "Here are some " +:+ category +:+ " tips:" +:+ nl +:+ nl
          +:+ join nl (numbered tips) +:+ nl +:+ nl
          +:+ "Would you like more information about " +:+ category +:+ "?" in
        let context := pushTurn (botTurn response) context in
        let w := sessions_set sid context w in
        (plainReply response ["More Tips"; "Schedule Checkup"], context, w)
    | None => standard
    end
  else standard.

(** The call of the generative service: made only when a client is
    configured, counted in [aiCalls]; an empty text is as good as none. *)
Definition askAI (ai : AIService) (userMessage : string) (context : Context) (w : World)
    : option string * World :=
  if isAIAvailable ai then
    let answer := generateAIResponse ai userMessage context in
    (if truthy answer then answer else None, set_aiCalls (S (aiCalls w)) w)
  else (None, w).

(** The branching part of [generateResponse]: the appointment flow first,
    then the emergency branch, then everything else. *)
Definition dispatchTurn (ai : AIService) (rnd : nat) (userMessage message sid : string)
    (entities : Entities) (sentiment : Sentiment) (interactionWarnings : list string)
    (intent : Intent) (context : Context) (w : World) : Reply * Context * World :=
  (* Check appointment flow BEFORE emergency (if already in appointment flow) *)
  let '(appointmentFlow, context, w) :=
    if inAppointmentFlow context
    then handleAppointmentFlow rnd userMessage context sid w
    else (None, context, w) in
  match usableReply appointmentFlow with
  | Some flow => (flow, context, w)
  | None =>
      (* Also check if this is a booking trigger (even if not in flow yet) *)
      let '(appointmentFlow, context, w) :=
        if arrayIncludes bookingTriggers message && isIntent intent appointment
        then handleAppointmentFlow rnd userMessage context sid w
        else (None, context, w) in
      match usableReply appointmentFlow with
      | Some flow => (flow, context, w)
      | None =>
          (* Emergency check (highest priority) - always use rule-based for safety *)
          if isIntent intent emergency then emergencyPath rnd userMessage sid context w
          else
            (* Try AI-enhanced response (for all non-emergency cases) *)
            let '(aiResponse, w) := askAI ai userMessage context w in
            (* Advanced symptom assessment *)
            if isIntent intent symptom then
              symptomPath aiResponse rnd userMessage sid entities sentiment
                interactionWarnings context w
            else
              topicPath aiResponse rnd intent entities sentiment userMessage message sid
                context w
      end
  end.

(** [generateResponse] from the point where the context object is at hand:
    the bookkeeping of the user's turn, then [dispatchTurn].  The context is
    updated in place by the source; the model returns the final object next
    to the reply. *)
Definition composeResponse (ai : AIService) (rnd : nat) (userMessage sid : string)
    (context : Context) (w : World) : Reply * Context * World :=
  let message := trim (toLowerCase userMessage) in
  (* Ensure sessionId is always set *)
  let context :=
    if truthy (sessionId context) then context else set_sessionId (Some sid) context in
  (* Extract entities *)
  let entities := extractEntities userMessage in
  let sentiment := analyzeSentiment userMessage in
  (* Update user profile with extracted information *)
  let context :=
    match ent_medications entities with
    | [] => context
    | meds =>
        set_userInfo
          {| ui_medications :=
               Some (uniqueStrings (default [] (ui_medications (userInfo context)) ++ meds));
             ui_symptoms := ui_symptoms (userInfo context) |} context
    end in
  let context :=
    match ent_symptoms entities with
    | [] => context
    | syms =>
        set_userInfo
          {| ui_medications := ui_medications (userInfo context);
             ui_symptoms :=
               Some (uniqueStrings (default [] (ui_symptoms (userInfo context)) ++ syms)) |}
          context
    end in
  (* Check medication interactions if multiple medications mentioned *)
  let interactionWarnings :=
    match ui_medications (userInfo context) with
    | Some meds =>
        if (1 <? List.length meds)%nat then warnings (checkedInteractions meds) else []
    | None => []
    end in
  (* Update conversation history *)
  let context :=
    pushTurn {| role := user; message := userMessage; turn_intent := None;
                turn_entities := Some entities; turn_sentiment := Some sentiment |} context in
  (* Save to database *)
  let intent := detectIntent userMessage in
  let w := onDb (database.saveMessage sid user userMessage (Some intent) (Some entities)
                   (Some sentiment) None) w in
  let w := onDb (database.logEvent "user_message" sid) w in
  let context := set_currentTopic (Some intent) context in
  (* Update analytics *)
  let w := updateAnalytics w in
  dispatchTurn ai rnd userMessage message sid entities sentiment interactionWarnings
    intent context w.

(** [generateResponse(userMessage, sessionId)]. *)
Definition generateResponse (ai : AIService) (rnd : nat) (userMessage sid : string)
    (w : World) : Reply * World :=
  let '(context, w) := loadContext sid w in
  let '(reply, _, w) := composeResponse ai rnd userMessage sid context w in
  (reply, w).

(** The context the cache holds for a session. *)
Definition contextOf (sid : string) (w : World) : option Context := sessions w !! sid.

(** ** The chat endpoint

    The handler of [POST /api/chat] without its transport: an empty message
    is refused, a session unknown to the cache is created in the cache and in
    the store, and the turn is handed to [generateResponse].  Rate limiting
    and the generation of a missing session id are left to the transport. *)
Definition ensureSession (sid : string) (w : World) : World :=
  match sessions w !! sid with
  | Some _ => w
  | None =>
      let newSession := freshContext sid in
      let w := sessions_set sid newSession w in
      let w := onDb (database.createSession sid (userInfo newSession)
                 {| md_currentTopic := None; md_askedDuration := Some false;
                    md_askedSeverity := Some false; md_askedOtherSymptoms := Some false;
                    md_askedAppointmentType := Some false;
                    md_askedAppointmentDate := Some false;
                    md_askedAppointmentReason := Some false;
                    md_appointmentType := None; md_appointmentDate := None;
                    md_appointmentReason := None |}) w in
      let w := onDb (database.logEvent "session_created" sid) w in
      set_analytics {| totalConversations := S (totalConversations (analytics w));
                       totalMessages := totalMessages (analytics w);
                       emergencyCount := emergencyCount (analytics w) |} w
  end.

Definition chat (ai : AIService) (rnd : nat) (userMessage sid : string) (w : World)
    : option Reply * World :=
  if String.eqb (trim userMessage) EmptyString then (None, w)
  else
    let w := ensureSession sid w in
    let '(reply, w) := generateResponse ai rnd userMessage sid w in
    (Some reply, w).

(** The process after a restart: an empty cache and fresh counters over the
    store that survived, then the start-up synchronisation. *)
Definition restart (w : World) : World :=
  syncSessionsFromDB
    {| sessions := ∅; db := db w;
       analytics := {| totalConversations := 0; totalMessages := 0; emergencyCount := 0 |};
       emitted := []; aiCalls := 0 |}.

Definition emptyWorld : World :=
  {| sessions := ∅;
     db := {| tbl_sessions := ∅; tbl_messages := []; tbl_events := []; tbl_profiles := ∅ |};
     analytics := {| totalConversations := 0; totalMessages := 0; emergencyCount := 0 |};
     emitted := []; aiCalls := 0 |}.

(** No generative client configured. *)
Definition noAI : AIService :=
  {| isAIAvailable := false; generateAIResponse := fun _ _ => None |}.

(** The text the composer gets from the generative service in a turn. *)
Definition aiText (ai : AIService) (userMessage : string) (context : Context) : option string :=
  if isAIAvailable ai && truthy (generateAIResponse ai userMessage context)
  then generateAIResponse ai userMessage context
  else None.

(** ** Derived notions used in the statements *)

(** The state of the appointment flow: asked-flags for type, date and
    reason, then the stored type, date and reason. *)
Definition FlowState : Type :=
  (bool * bool * bool * option string * option string * option string)%type.

(** The transition that [handleAppointmentFlow] makes on the appointment
    state for a message, branch by branch in the order of the source; [None]
    when it returns [null] without touching the context. *)
Definition flowStep (message : string) (st : FlowState) : option FlowState :=
  let '(askedType, askedDate, askedReason, type, date, reason) := st in
  let msg := toLowerCase message in
  if arrayIncludes bookingTriggers msg && negb askedType then
    Some (true, askedDate, askedReason, type, date, reason)
  else if askedType && negb askedDate then
    if negb (arrayIncludes bookingTriggers msg)
    then Some (askedType, true, askedReason, Some message, date, reason)
    else None
  else if askedDate && negb askedReason then
    Some (askedType, askedDate, true, type, Some message, reason)
  else if askedReason then Some Idle
  else if negb askedType then Some (true, askedDate, askedReason, type, date, reason)
  else None.

Definition symptomFlags (c : Context) : bool * bool * bool :=
  (askedDuration c, askedSeverity c, askedOtherSymptoms c).

(** The alert channel, the count of calls to the generative service and the
    counters are the same in both worlds. *)
Definition sameChannels (w w' : World) : Prop :=
  emitted w' = emitted w /\ aiCalls w' = aiCalls w /\ analytics w' = analytics w.

(** The context object as [generateResponse] has it when it reaches the
    appointment-flow check: session id ensured, profile updated, the user's
    turn appended, the topic set to the detected intent. *)
Definition contextAtDispatch (userMessage sid : string) (context : Context) : Context :=
  let context :=
    if truthy (sessionId context) then context else set_sessionId (Some sid) context in
  let entities := extractEntities userMessage in
  let context :=
    match ent_medications entities with
    | [] => context
    | meds =>
        set_userInfo
          {| ui_medications :=
               Some (uniqueStrings (default [] (ui_medications (userInfo context)) ++ meds));
             ui_symptoms := ui_symptoms (userInfo context) |} context
    end in
  let context :=
    match ent_symptoms entities with
    | [] => context
    | syms =>
        set_userInfo
          {| ui_medications := ui_medications (userInfo context);
             ui_symptoms :=
               Some (uniqueStrings (default [] (ui_symptoms (userInfo context)) ++ syms)) |}
          context
    end in
  let context :=
    pushTurn {| role := user; message := userMessage; turn_intent := None;
                turn_entities := Some entities;
                turn_sentiment := Some (analyzeSentiment userMessage) |} context in
  set_currentTopic (Some (detectIntent userMessage)) context.

(** The world at the same point: the user's message saved and logged, the
    message counter bumped. *)
Definition worldAtDispatch (userMessage sid : string) (w : World) : World :=
  let w := onDb (database.saveMessage sid user userMessage (Some (detectIntent userMessage))
                   (Some (extractEntities userMessage))
                   (Some (analyzeSentiment userMessage)) None) w in
  let w := onDb (database.logEvent "user_message" sid) w in
  updateAnalytics w.

(** The interaction warnings computed on the way. *)
Definition warningsAtDispatch (userMessage sid : string) (context : Context) : list string :=
  match ui_medications (userInfo (contextAtDispatch userMessage sid context)) with
  | Some meds =>
      if (1 <? List.length meds)%nat then warnings (checkedInteractions meds) else []
  | None => []
  end.

(** A turn's outcome [x] (reply, final context, final world) that leaves
    the cache holding the final context, raises no alert, places no call to
    the generative service, touches no counter and no symptom flag, and
    carries no triage. *)
Definition quietTurn (sid : string) (c : Context) (w : World)
    (x : Reply * Context * World) : Prop :=
  sessions x.2 !! sid = Some x.1.2
  /\ sameChannels w x.2
  /\ symptomFlags x.1.2 = symptomFlags c
  /\ reply_triage x.1.1 = None.

(** Each symptom asked-flag set in [c] is set in [c']. *)
Definition symptomFlagsKept (c c' : Context) : Prop :=
  (askedDuration c = true -> askedDuration c' = true)
  /\ (askedSeverity c = true -> askedSeverity c' = true)
  /\ (askedOtherSymptoms c = true -> askedOtherSymptoms c' = true).

(** Whether a turn on context [c] reaches the flow controller: the session
    is in the flow, or the message is an appointment request that is a
    booking trigger or gets no generated text. *)
Definition consultsController (ai : AIService) (userMessage sid : string) (c : Context) : bool :=
  inAppointmentFlow c
  || (isIntent (detectIntent userMessage) appointment
      && (arrayIncludes bookingTriggers (trim (toLowerCase userMessage))
          || bool_decide (aiText ai userMessage (contextAtDispatch userMessage sid c) = None))).

(** The emergency alert of a turn. *)
Definition emergencyAlert (userMessage sid : string) : Alert :=
  {| alert_event := "emergency_alert"; alert_sessionId := sid;
     alert_message := userMessage |}.

(** ** Sample sessions *)

(** A session whose type question is pending. *)
Definition typePending : Context := set_askedAppointmentType true (freshContext "s1").

(** A process that holds that session in its cache. *)
Definition typePendingWorld : World := sessions_set "s1" typePending emptyWorld.

(** A process that holds a session with nothing asked yet. *)
Definition idleWorld : World := sessions_set "s1" (freshContext "s1") emptyWorld.

(** A generative service that always answers. *)
Definition chattyAI : AIService :=
  {| isAIAvailable := true; generateAIResponse := fun _ _ => Some "Here is some advice." |}.

(** ** Further notions used in the statements *)

(** Every character of [s] satisfies [p]. *)
Fixpoint allChars (p : ascii -> bool) (s : string) : bool :=
  match s with
  | EmptyString => true
  | String c s' => p c && allChars p s'
  end.

(** The alternatives of the emergency pattern of [detectIntent]. *)
Definition emergencyWords : list string :=
  ["emergency"; "chest pain"; "can't breathe"; "difficulty breathing";
   "severe pain"; "heart attack"; "stroke"; "unconscious"; "bleeding";
   "poison"; "overdose"; "suicide"; "self harm"; "crushing"; "pressure";
   "sudden"].

(** The turn that [generateResponse] appends for the user's message. *)
Definition userTurn (userMessage : string) : Turn :=
  {| role := user; message := userMessage; turn_intent := None;
     turn_entities := Some (extractEntities userMessage);
     turn_sentiment := Some (analyzeSentiment userMessage) |}.

(** From [c] to [c'] the bot turns with the texts [texts] were appended to
    the history, and profile, topic and session id were left alone. *)
Definition repliesAdded (c c' : Context) (texts : list string) : Prop :=
  conversationHistory c' = conversationHistory c ++ map botTurn texts
  /\ userInfo c' = userInfo c
  /\ currentTopic c' = currentTopic c
  /\ sessionId c' = sessionId c.

(** What the process holds for the sessions other than [sid] is the same in
    [w'] as in [w]: the cached context, the stored row, the stored messages
    and the stored profile. *)
Definition othersUntouched (sid : string) (w w' : World) : Prop :=
  forall other, other <> sid ->
    contextOf other w' = contextOf other w
    /\ database.getSession other (db w') = database.getSession other (db w)
    /\ database.getMessages other (db w') = database.getMessages other (db w)
    /\ tbl_profiles (db w') !! other = tbl_profiles (db w) !! other.

(** ** Rate limiter

    [checkRateLimit(sessionId)], with the clock reading [now] of its
    [Date.now()] as an argument.  [rateLimits.get(sessionId)] hands out the
    stored object itself, so the reset of an expired window is visible in the
    table whatever the function returns; a window object made on the spot is
    stored only by the final [rateLimits.set]. *)

Definition RATE_LIMIT_WINDOW : Z := 60000.
Definition RATE_LIMIT_MAX_REQUESTS : nat := 30.

Record Limit := {
  count : nat;
  resetTime : Z
}.

Record RateCheck := {
  allowed : bool;
  resetIn : option Z
}.

Definition checkRateLimit (now : Z) (sid : string) (rateLimits : gmap string Limit)
    : RateCheck * gmap string Limit :=
  let stored := rateLimits !! sid in
  let userLimits :=
    default {| count := 0; resetTime := (now + RATE_LIMIT_WINDOW)%Z |} stored in
  let userLimits :=
    if (resetTime userLimits <? now)%Z
    then {| count := 0; resetTime := (now + RATE_LIMIT_WINDOW)%Z |}
    else userLimits in
  let rateLimits :=
    match stored with
    | Some _ => <[sid := userLimits]> rateLimits
    | None => rateLimits
    end in
  if (RATE_LIMIT_MAX_REQUESTS <=? count userLimits)%nat then
    ({| allowed := false; resetIn := Some (resetTime userLimits - now)%Z |}, rateLimits)
  else
    ({| allowed := true; resetIn := None |},
     <[sid := {| count := S (count userLimits); resetTime := resetTime userLimits |}]>
       rateLimits).

(** ** The endpoints *)

(** The process with the table of [checkRateLimit] and with what is known
    here of the [express-rate-limit] middleware mounted on [/api/]
    ([windowMs] of 15 minutes, [max] of 100 per client address): the
    requests it has counted, by client address.  The middleware counts a
    request before the route is reached; whether it passes the request on
    is the library's verdict and an input of the model. *)
Record Server := {
  world : World;
  rateLimits : gmap string Limit;
  limiterSeen : list string
}.

(** [generateSessionId()]: [stamp] is the clock reading, [suffix] the text
    made from [Math.random()]. *)
Definition generateSessionId (stamp : Z) (suffix : string) : string :=
  "session_" +:+ NilZero.string_of_int (Z.to_int stamp) +:+ "_" +:+ suffix.

(** The body of a successful answer of [POST /api/chat]. *)
Record ChatBody := {
  body_response : string;
  body_quickActions : list string;
  body_sessionId : string;
  body_triage : option TriageResult;
  body_entities : option Entities;
  body_sentiment : option Sentiment;
  conversationLength : nat;
  body_aiEnhanced : bool
}.

(** The answers of [POST /api/chat]: 400, 429 with the seconds to wait, 500,
    200 with a body. *)
Inductive ChatResult :=
  | BadRequest
  | TooManyRequests (seconds : Z)
  | ServerError
  | Ok (body : ChatBody).

(** [Math.ceil(ms / 1000)]. *)
Definition ceilSeconds (ms : Z) : Z := (- ((- ms) / 1000))%Z.

(** The route handler of [POST /api/chat]. *)
Definition postChat (ai : AIService) (rnd : nat) (now stamp : Z) (suffix : string)
    (message : string) (clientSessionId : option string) (srv : Server)
    : ChatResult * Server :=
  if String.eqb (trim message) EmptyString then (BadRequest, srv)
  else
    (* Get or create session *)
    let sid :=
      if truthy clientSessionId then orElse clientSessionId EmptyString
      else generateSessionId stamp suffix in
    (* Rate limiting *)
    let '(rateLimitCheck, limits) := checkRateLimit now sid (rateLimits srv) in
    if negb (allowed rateLimitCheck) then
      (TooManyRequests (ceilSeconds (default 0%Z (resetIn rateLimitCheck))),
       {| world := world srv; rateLimits := limits; limiterSeen := limiterSeen srv |})
    else
      let w := ensureSession sid (world srv) in
      let '(result, w) := generateResponse ai rnd message sid w in
      let srv := {| world := w; rateLimits := limits; limiterSeen := limiterSeen srv |} in
      if String.eqb (response result) EmptyString then (ServerError, srv)
      else
        (Ok {| body_response := response result;
               body_quickActions := quickActions result;
               body_sessionId := sid;
               body_triage := reply_triage result;
               body_entities := reply_entities result;
               body_sentiment := reply_sentiment result;
               conversationLength :=
                 match sessions w !! sid with
                 | Some session => List.length (conversationHistory session)
                 | None => 0
                 end;
               body_aiEnhanced := default false (aiEnhanced result) |},
         srv).



(** [GET /api/history/:sessionId]; [None] is the 404. *)
Definition getHistory (sid : string) (w : World) : option (list Turn) :=
  conversationHistory <$> sessions w !! sid.

(** [POST /api/clear-session]. *)
Definition clearSession (sessionId : option string) (w : World) : World :=
  match sessionId with
  | Some sid =>
      if negb (String.eqb sid EmptyString) && bool_decide (is_Some (sessions w !! sid))
      then set_sessions (delete sid (sessions w)) w
      else w
  | None => w
  end.

(** The document of [GET /api/export/:sessionId]. *)
Record ExportData := {
  exp_sessionId : string;
  exp_conversationHistory : list Turn;
  exp_userInfo : UserInfo;
  sum_totalMessages : nat;
  sum_topics : list string;
  sum_symptoms : list string;
  sum_medications : list string
}.

(** [GET /api/export/:sessionId]; [None] is the 404.  A session that is not
    in the cache is read from the store, its turns with role and text only. *)
Definition exportConversation (sid : string) (w : World) : option ExportData :=
  let session :=
    match sessions w !! sid with
    | Some session => Some (conversationHistory session, userInfo session)
    | None =>
        (* Load from database if not in memory *)
        match database.getSession sid (db w) with
        | Some dbSession =>
            Some (map (fun msg => {| role := row_role msg; message := row_message msg;
                                     turn_intent := None; turn_entities := None;
                                     turn_sentiment := None |})
                      (database.getMessages sid (db w)),
                  db_userInfo dbSession)
        | None => None
        end
    end in
  match session with
  | None => None
  | Some (history, info) =>
      Some {| exp_sessionId := sid;
              exp_conversationHistory := history;
              exp_userInfo := info;
              sum_totalMessages := List.length history;
              sum_topics :=
                uniqueStrings
                  (map (fun m => match turn_intent m with
                                 | Some i => intentName i
                                 | None => "general"
                                 end) history);
              sum_symptoms := default [] (ui_symptoms info);
              sum_medications := default [] (ui_medications info) |}
  end.

(** The number of requests of session [sid] that the rate limiter lets
    through, in a run of requests given by clock reading and session. *)
Fixpoint admittedFor (sid : string) (requests : list (Z * string))
    (limits : gmap string Limit) : nat :=
  match requests with
  | [] => 0
  | (now, s) :: rest =>
      let '(check, limits) := checkRateLimit now s limits in
      (if allowed check && String.eqb s sid then 1 else 0) + admittedFor sid rest limits
  end.

(** No turn of the history carries an intent. *)
Definition noIntents (history : list Turn) : Prop :=
  Forall (fun t => turn_intent t = None) history.

(** What a part of a turn may do to the counters and the alert channel:
    bump the emergency counter at most once, emit the alert of the message
    only together with such a bump and without a call of the generative
    service, make at most one such call. *)
Definition movesCounters (sid userMessage : string) (w w' : World) : Prop :=
  totalMessages (analytics w') = totalMessages (analytics w)
  /\ totalConversations (analytics w') = totalConversations (analytics w)
  /\ (emergencyCount (analytics w') = emergencyCount (analytics w)
      \/ emergencyCount (analytics w') = S (emergencyCount (analytics w)))
  /\ (emitted w' = emitted w
      \/ emitted w' = emitted w ++ [emergencyAlert userMessage sid]
         /\ emergencyCount (analytics w') = S (emergencyCount (analytics w))
         /\ aiCalls w' = aiCalls w)
  /\ (aiCalls w' = aiCalls w \/ aiCalls w' = S (aiCalls w)).

(** A process after one greeting in session [s1]: the session is cached and
    has a row in the store. *)
Definition greetedWorld : World := (chat noAI 0 "hello" "s1" emptyWorld).2.

(** The row of [s1] in that store. *)
Definition greetedRow : DbSession :=
  {| db_userInfo := {| ui_medications := None; ui_symptoms := None |};
     db_metadata :=
       {| md_currentTopic := Some greeting; md_askedDuration := Some false;
          md_askedSeverity := Some false; md_askedOtherSymptoms := Some false;
          md_askedAppointmentType := Some false; md_askedAppointmentDate := Some false;
          md_askedAppointmentReason := Some false; md_appointmentType := None;
          md_appointmentDate := None; md_appointmentReason := None |} |}.

(** A table of the rate limiter in which [s1] has used up its window. *)
Definition usedUpTable : gmap string Limit :=
  {[ "s1" := {| count := 30; resetTime := 5000 |} ]}.

(** The interaction check by the words of its description: the ordered
    pairs [(i, j)] with [i < j] of the list, in the order of the two loops;
    for each, a record when the entry of the first name lists the second,
    both in lower case. *)
Fixpoint orderedPairs (l : list string) : list (string * string) :=
  match l with
  | [] => []
  | x :: later => map (pair x) later ++ orderedPairs later
  end.

Definition forwardRecord (p : string * string) : option Interaction :=
  match medicationInteractions !! toLowerCase p.1 with
  | Some info =>
      if arrayIncludes (med_interactions info) (toLowerCase p.2)
      then Some {| medication1 := toLowerCase p.1; medication2 := toLowerCase p.2;
                   warning := med_warnings info |}
      else None
  | None => None
  end.

Definition forwardRecords (medications : list string) : list Interaction :=
  omap forwardRecord (orderedPairs medications).

(** The warning that goes with a record. *)
Definition warningOf (r : Interaction) : string :=
  interactionWarning (medication1 r) (medication2 r) (warning r).

(** A name other than the last is, in lower case, a member that the table
    object inherits: [constructor] or [__proto__]. *)
Definition inheritedBeforeLast (medications : list string) : Prop :=
  exists earlier name later,
    medications = earlier ++ name :: later
    /\ later <> []
    /\ In (toLowerCase name) ["constructor"; "__proto__"].

(** * Properties *)

(** ** Strings *)

Section TextFacts.

Lemma lowerChar_idem c : lowerChar (lowerChar c) = lowerChar c.
Proof.
  destruct c as [[] [] [] [] [] [] [] []]; reflexivity.
Qed.

Lemma toLowerCase_idem s : toLowerCase (toLowerCase s) = toLowerCase s.
Proof.
  induction s as [|c s IH]; simpl; [reflexivity|].
  by rewrite lowerChar_idem, IH.
Qed.

Lemma prefix_toLowerCase p s :
  String.prefix p s = true ->
  String.prefix (toLowerCase p) (toLowerCase s) = true.
Proof.
  revert s; induction p as [|c p IH]; intros [|d s]; simpl; try done.
  destruct (ascii_dec c d) as [->|]; [|done].
  intros H. destruct (ascii_dec (lowerChar d) (lowerChar d)); [|done]. by apply IH.
Qed.

Lemma includes_cons c s sub :
  includes (String c s) sub = String.prefix sub (String c s) || includes s sub.
Proof. reflexivity. Qed.

Lemma includes_nil sub : includes EmptyString sub = String.prefix sub EmptyString.
Proof. apply orb_false_r. Qed.

Lemma includes_toLowerCase s sub :
  includes s sub = true ->
  includes (toLowerCase s) (toLowerCase sub) = true.
Proof.
  induction s as [|c s IH].
  - rewrite includes_nil. intros H%prefix_toLowerCase.
    change (toLowerCase EmptyString) with EmptyString in *. by rewrite includes_nil.
  - rewrite includes_cons. intros [H|H]%orb_true_iff.
    + apply prefix_toLowerCase in H.
      change (toLowerCase (String c s)) with (String (lowerChar c) (toLowerCase s)) in *.
      by rewrite includes_cons, H.
    + change (toLowerCase (String c s)) with (String (lowerChar c) (toLowerCase s)).
      rewrite includes_cons, (IH H). apply orb_true_r.
Qed.

(** A lower-case needle found in the text as written is found in the
    lower-cased text. *)
Lemma includes_lowered s sub :
  toLowerCase sub = sub -> includes s sub = true -> includes (toLowerCase s) sub = true.
Proof. intros Hl H. rewrite <- Hl. by apply includes_toLowerCase. Qed.

Lemma arrayIncludes_In l x : arrayIncludes l x = true <-> In x l.
Proof.
  unfold arrayIncludes. rewrite existsb_exists. split.
  - intros (y & Hy & ->%String.eqb_eq). done.
  - intros H. exists x. split; [done|apply String.eqb_refl].
Qed.

Lemma orElse_Some_empty s : orElse (Some s) EmptyString = s.
Proof. simpl. by destruct (String.eqb_spec s EmptyString). Qed.

Lemma append_nonempty s t :
  String.eqb t EmptyString = false -> String.eqb (s +:+ t) EmptyString = false.
Proof. destruct s; [done|]. by destruct t. Qed.

End TextFacts.

(** ** Sentiment *)

Section SentimentFacts.

Lemma count_up (f : string -> bool) (l : list string) (z : Z) :
  fold_left (fun score word => if f word then (score + 1)%Z else score) l z
  = (z + Z.of_nat (List.length (List.filter f l)))%Z.
Proof.
  revert z; induction l as [|x l IH]; intros z; simpl; [lia|].
  rewrite IH. destruct (f x); simpl; lia.
Qed.

Lemma count_down (f : string -> bool) (l : list string) (z : Z) :
  fold_left (fun score word => if f word then (score - 1)%Z else score) l z
  = (z - Z.of_nat (List.length (List.filter f l)))%Z.
Proof.
  revert z; induction l as [|x l IH]; intros z; simpl; [lia|].
  rewrite IH. destruct (f x); simpl; lia.
Qed.

Lemma presentCount_le msg lexicon : presentCount msg lexicon <= List.length lexicon.
Proof. unfold presentCount. apply filter_length_le. Qed.

(** C10, as the code has it: the score is the number of positive lexicon
    words present in the lower-cased text minus the number of negative
    lexicon words present, each word counted once however often it occurs;
    the sign of the score gives the label, and the three sample sentences
    are labelled positive, negative and neutral. *)
Theorem analyzeSentiment_counts_present_words :
  (forall text,
     analyzeSentiment text =
     sentimentOfScore (Z.of_nat (presentCount (toLowerCase text) positiveWords)
                       - Z.of_nat (presentCount (toLowerCase text) negativeWords))%Z)
  /\ analyzeSentiment "I feel great today" = positive
  /\ analyzeSentiment "I have pain and I'm scared" = negative
  /\ analyzeSentiment "I have a question" = neutral.
Proof.
  split; [|by vm_compute].
  intros text. unfold analyzeSentiment, presentCount, sentimentOfScore.
  rewrite count_up, count_down. reflexivity.
Qed.

(** C10 as stated fails: with one positive word and a negative word written
    twice, counting occurrences gives a negative score, while the code,
    which counts the word once, answers neutral. *)
Lemma analyzeSentiment_ignores_repeats :
  occurrenceScore (toLowerCase "good bad bad") = (-1)%Z
  /\ analyzeSentiment_by_occurrences "good bad bad" = negative
  /\ analyzeSentiment "good bad bad" = neutral.
Proof. by vm_compute. Qed.

End SentimentFacts.

(** ** Triage *)

Section TriageFacts.

Variables (text : string) (info : SymptomInfo) (a : Analytics).

Lemma existsb_includes_false msg (l : list string) :
  (forall k, In k l -> includes msg k = false) ->
  existsb (fun keyword => includes msg keyword) l = false.
Proof.
  intros H. apply not_true_is_false. intros (k & Hk & Hi)%existsb_exists.
  rewrite (H k Hk) in Hi. discriminate.
Qed.

Lemma performTriage_emergency :
  (exists keyword, In keyword (keywords triageLevels.emergency)
                   /\ includes (toLowerCase text) keyword = true) ->
  performTriage text info a =
  ({| triageLevel := Some lvl_emergency; priority := 1;
      action := Some "Call 911 immediately"; urgency := CRITICAL |},
   bumpEmergency a).
Proof.
  intros (k & Hk & Hi). unfold performTriage.
  replace (existsb _ (keywords triageLevels.emergency)) with true; [reflexivity|].
  symmetry. apply existsb_exists. eauto.
Qed.

(** An urgent keyword, with no emergency keyword before it in the ladder,
    settles the result whatever severity and duration say. *)
Lemma performTriage_urgent_keyword :
  (forall keyword, In keyword (keywords triageLevels.emergency) ->
                   includes (toLowerCase text) keyword = false) ->
  (exists keyword, In keyword (keywords triageLevels.urgent)
                   /\ includes (toLowerCase text) keyword = true) ->
  performTriage text info a =
  ({| triageLevel := Some lvl_urgent; priority := 2;
      action := Some "Seek emergency care or urgent care within hours"; urgency := HIGH |},
   a).
Proof.
  intros He (k & Hk & Hi). unfold performTriage.
  rewrite (existsb_includes_false _ _ He).
  replace (existsb _ (keywords triageLevels.urgent)) with true; [reflexivity|].
  symmetry. apply existsb_exists. eauto.
Qed.

Lemma emergency_keywords_lower keyword :
  In keyword (keywords triageLevels.emergency) -> toLowerCase keyword = keyword.
Proof. simpl. intros H. repeat (destruct H as [<-|H]; [reflexivity|]). done. Qed.

(** C2: a text that contains an emergency keyword, as written or after
    lower-casing, is triaged emergency / priority 1 / CRITICAL whatever the
    severity and duration are, also when an urgent keyword is present: the
    result is never urgent. *)
Theorem emergency_keyword_is_never_downgraded (keyword : string) :
  In keyword (keywords triageLevels.emergency) ->
  includes text keyword = true \/ includes (toLowerCase text) keyword = true ->
  let result := (performTriage text info a).1 in
  triageLevel result = Some lvl_emergency
  /\ priority result = 1
  /\ urgency result = CRITICAL
  /\ triageLevel result <> Some lvl_urgent.
Proof.
  intros Hk Hi.
  assert (includes (toLowerCase text) keyword = true) as Hl.
  { destruct Hi as [Hi|Hi]; [|done].
    apply includes_lowered; [by apply emergency_keywords_lower|done]. }
  rewrite performTriage_emergency by eauto. simpl. done.
Qed.

(** C4, with the action texts the code returns: an emergency keyword gives
    the action [Call 911 immediately] and adds one to the emergency counter;
    when no rung of the ladder matches, the result is routine / priority 4 /
    LOW with the action [Schedule routine appointment], and the counter is
    left alone. *)
Theorem triage_first_and_last_rung :
  ((exists keyword, In keyword (keywords triageLevels.emergency)
                    /\ includes (toLowerCase text) keyword = true) ->
   action (performTriage text info a).1 = Some "Call 911 immediately"
   /\ emergencyCount (performTriage text info a).2 = S (emergencyCount a))
  /\
  ((forall keyword,
      In keyword (keywords triageLevels.emergency ++ keywords triageLevels.urgent) ->
      includes (toLowerCase text) keyword = false) ->
   (forall s, severity info = Some s ->
              ~ In (toLowerCase s) ["severe"; "intense"; "extreme"; "moderate"]) ->
   (forall d digits unit,
      duration info = Some d -> matchDuration d = Some (digits, unit) ->
      (includes unit "week" && (2 <=? parseInt digits)%N) || includes unit "month" = false) ->
   performTriage text info a =
   ({| triageLevel := Some lvl_routine; priority := 4;
       action := Some "Schedule routine appointment"; urgency := LOW |}, a)).
Proof.
  split.
  - intros H. rewrite performTriage_emergency by done. done.
  - intros Hk Hs Hd. unfold performTriage.
    rewrite !existsb_includes_false by (intros k Hin; apply Hk, in_or_app; auto).
    assert (forall l, (forall x, In x l -> In x ["severe"; "intense"; "extreme"; "moderate"]) ->
              truthy (severity info)
              && arrayIncludes l (toLowerCase (orElse (severity info) EmptyString)) = false)
      as Hsev.
    { intros l Hl. destruct (severity info) as [s|] eqn:Es; [|done].
      rewrite orElse_Some_empty. apply andb_false_intro2, not_true_is_false.
      intros Hin%arrayIncludes_In. apply (Hs s eq_refl), Hl, Hin. }
    rewrite !Hsev by (simpl; tauto).
    destruct (duration info) as [d|] eqn:Ed; [|done].
    rewrite orElse_Some_empty.
    destruct (truthy (Some d)); [|done].
    destruct (matchDuration d) as [[digits unit]|] eqn:Em; [|done].
    by rewrite (Hd d digits unit).
Qed.

End TriageFacts.

Lemma emergency_keyword_is_never_downgraded_witness :
  let result :=
    (performTriage "I have severe pain and Chest Pain since 3 months"
       {| symptoms := []; duration := Some "3 months"; severity := Some "moderate" |}
       {| totalConversations := 0; totalMessages := 0; emergencyCount := 0 |}).1 in
  triageLevel result = Some lvl_emergency
  /\ priority result = 1
  /\ urgency result = CRITICAL
  /\ triageLevel result <> Some lvl_urgent.
Proof.
  apply (emergency_keyword_is_never_downgraded _ _ _ "chest pain").
  - simpl. auto.
  - right. reflexivity.
Defined.

Lemma triage_first_and_last_rung_witness :
  (action (performTriage "my chest pain is back"
             {| symptoms := []; duration := None; severity := None |}
             {| totalConversations := 0; totalMessages := 0; emergencyCount := 4 |}).1
   = Some "Call 911 immediately"
   /\ emergencyCount
        (performTriage "my chest pain is back"
           {| symptoms := []; duration := None; severity := None |}
           {| totalConversations := 0; totalMessages := 0; emergencyCount := 4 |}).2 = 5)
  /\ performTriage "I have a cough"
       {| symptoms := ["cough"]; duration := Some "1 week"; severity := Some "mild" |}
       {| totalConversations := 0; totalMessages := 0; emergencyCount := 4 |}
     = ({| triageLevel := Some lvl_routine; priority := 4;
           action := Some "Schedule routine appointment"; urgency := LOW |},
        {| totalConversations := 0; totalMessages := 0; emergencyCount := 4 |}).
Proof.
  split.
  - apply (proj1 (triage_first_and_last_rung "my chest pain is back"
                    {| symptoms := []; duration := None; severity := None |}
                    {| totalConversations := 0; totalMessages := 0; emergencyCount := 4 |})).
    exists "chest pain". split; [simpl; auto|reflexivity].
  - apply (proj2 (triage_first_and_last_rung "I have a cough"
                    {| symptoms := ["cough"]; duration := Some "1 week"; severity := Some "mild" |}
                    {| totalConversations := 0; totalMessages := 0; emergencyCount := 4 |})).
    + intros k Hk. simpl in Hk.
      repeat (destruct Hk as [<-|Hk]; [reflexivity|]). done.
    + intros s [= <-]. simpl. intros H.
      repeat (destruct H as [H|H]; [discriminate|]). done.
    + intros d digits unit [= <-]. vm_compute. intros [= <- <-]. reflexivity.
Defined.

(** C4 as stated fails on the action texts: the code answers
    [Call 911 immediately] and [Schedule routine appointment]. *)
Lemma triage_action_texts_differ :
  action (performTriage "chest pain"
            {| symptoms := []; duration := None; severity := None |}
            {| totalConversations := 0; totalMessages := 0; emergencyCount := 0 |}).1
  <> Some "contact emergency services immediately"
  /\ action (performTriage "hello"
               {| symptoms := []; duration := None; severity := None |}
               {| totalConversations := 0; totalMessages := 0; emergencyCount := 0 |}).1
     <> Some "schedule a routine appointment".
Proof. split; vm_compute; discriminate. Qed.

(** ** Interaction checker *)

Section InteractionFacts.

Local Abbreviation entry m1 info m2 :=
  {| medication1 := m1; medication2 := toLowerCase m2; warning := med_warnings info |}.

(** The record of the inner loop for the later name [m2], if any. *)
Local Abbreviation listed med1 info :=
  (fun m2 => if arrayIncludes (med_interactions info) (toLowerCase m2)
             then Some (entry med1 info m2) else None).

Lemma checkAgainst_cons med1 info m (later : list string) acc :
  checkAgainst med1 info (m :: later) acc
  = checkAgainst med1 info later
      (if arrayIncludes (med_interactions info) (toLowerCase m)
       then {| interactions := interactions acc ++ [entry med1 info m];
               warnings := warnings acc ++
                 [interactionWarning med1 (toLowerCase m) (med_warnings info)] |}
       else acc).
Proof. reflexivity. Qed.

(** The inner loop appends, for the later names in their order, a record
    and its warning. *)
Lemma checkAgainst_appends med1 info (later : list string) acc :
  checkAgainst med1 info later acc
  = {| interactions := interactions acc ++ omap (listed med1 info) later;
       warnings := warnings acc ++ map warningOf (omap (listed med1 info) later) |}.
Proof.
  revert acc. induction later as [|m later IH]; intros acc.
  - destruct acc. cbn. by rewrite !app_nil_r.
  - rewrite checkAgainst_cons, IH. cbn [omap list_omap].
    destruct (arrayIncludes _ (toLowerCase m)); [|done].
    cbn [interactions warnings map]. by rewrite <- !app_assoc.
Qed.

(** Of the inherited members only [constructor] and [__proto__] are written
    in lower case. *)
Lemma lowered_inherited name :
  arrayIncludes inheritedProperties (toLowerCase name) = true
  <-> In (toLowerCase name) ["constructor"; "__proto__"].
Proof.
  rewrite arrayIncludes_In. pose proof (toLowerCase_idem name) as Hi. split.
  - intros H. simpl in H.
    repeat (destruct H as [H|H];
            [rewrite <- H in Hi; vm_compute in Hi;
             first [discriminate | rewrite <- H; simpl; by auto]|]).
    done.
  - intros [<-|[<-|[]]]; simpl; auto 12.
Qed.

Lemma inherited_not_own name :
  In (toLowerCase name) ["constructor"; "__proto__"] ->
  lookupMedication (toLowerCase name) = inheritedMember.
Proof. intros [<-|[<-|[]]]; reflexivity. Qed.

Lemma inheritedBeforeLast_nil : ~ inheritedBeforeLast [].
Proof. intros (earlier & name & later & H & _). by destruct earlier. Qed.

Lemma inheritedBeforeLast_cons m (later : list string) :
  inheritedBeforeLast (m :: later) <->
  (later <> [] /\ In (toLowerCase m) ["constructor"; "__proto__"])
  \/ inheritedBeforeLast later.
Proof.
  split.
  - intros ([|e earlier] & name & later' & H & Hne & Hin); injection H as -> ->.
    + by left.
    + right. by exists earlier, name, later'.
  - intros [[Hne Hin]|(earlier & name & later' & -> & Hne & Hin)].
    + by exists [], m, later.
    + by exists (m :: earlier), name, later'.
Qed.

Lemma omap_pairs (f : string * string -> option Interaction) m (later : list string) :
  omap f (map (pair m) later) = omap (fun m2 => f (m, m2)) later.
Proof. induction later as [|x later IH]; [done|]. cbn. by rewrite IH. Qed.

Lemma forwardRecords_cons m (later : list string) :
  forwardRecords (m :: later)
  = omap (fun m2 => forwardRecord (m, m2)) later ++ forwardRecords later.
Proof. unfold forwardRecords. cbn [orderedPairs]. by rewrite omap_app, omap_pairs. Qed.

Lemma forwardRecord_own m info :
  medicationInteractions !! toLowerCase m = Some info ->
  (fun m2 => forwardRecord (m, m2)) = listed (toLowerCase m) info.
Proof. intros E. unfold forwardRecord. cbn [fst snd]. by rewrite E. Qed.

Lemma forwardRecords_unlisted m (later : list string) :
  medicationInteractions !! toLowerCase m = None ->
  forwardRecords (m :: later) = forwardRecords later.
Proof.
  intros E. rewrite forwardRecords_cons.
  replace (omap (fun m2 => forwardRecord (m, m2)) later) with (@nil Interaction); [done|].
  induction later as [|x later IH]; [done|].
  cbn [omap list_omap]. unfold forwardRecord at 1. cbn [fst snd]. by rewrite E.
Qed.

(** The two loops: a [TypeError] exactly when a name other than the last is
    an inherited member; otherwise the records of the forward pairs, in the
    order of the loops, each with its warning. *)
Lemma checkFrom_spec (medications : list string) acc :
  match checkFrom medications acc with
  | Some check =>
      ~ inheritedBeforeLast medications
      /\ interactions check = interactions acc ++ forwardRecords medications
      /\ warnings check = warnings acc ++ map warningOf (forwardRecords medications)
  | None => inheritedBeforeLast medications
  end.
Proof.
  revert acc. induction medications as [|m later IH]; intros acc.
  { cbn. rewrite !app_nil_r. split; [apply inheritedBeforeLast_nil|done]. }
  cbn [checkFrom]. unfold lookupMedication.
  destruct (medicationInteractions !! toLowerCase m) as [info|] eqn:E.
  - specialize (IH (checkAgainst (toLowerCase m) info later acc)).
    destruct (checkFrom later _) as [check|].
    + destruct IH as (Hno & Hi & Hw). rewrite checkAgainst_appends in Hi, Hw.
      cbn [interactions warnings] in Hi, Hw.
      rewrite forwardRecords_cons, (forwardRecord_own m info E), map_app, !app_assoc.
      split; [|done].
      intros [[_ Hin]|H]%inheritedBeforeLast_cons; [|done].
      apply inherited_not_own in Hin. unfold lookupMedication in Hin. by rewrite E in Hin.
    + apply inheritedBeforeLast_cons. by right.
  - destruct (arrayIncludes inheritedProperties (toLowerCase m)) eqn:Ei.
    + apply lowered_inherited in Ei. destruct later as [|x later].
      * rewrite (forwardRecords_unlisted m [] E). cbn. rewrite !app_nil_r.
        split; [|done].
        intros [[? _]|H]%inheritedBeforeLast_cons; [done|].
        by apply inheritedBeforeLast_nil in H.
      * apply inheritedBeforeLast_cons. by left.
    + specialize (IH acc). rewrite (forwardRecords_unlisted m later E).
      destruct (checkFrom later acc) as [check|].
      * destruct IH as (Hno & Hi & Hw). split; [|done].
        intros [[_ Hin%lowered_inherited]|H]%inheritedBeforeLast_cons; [congruence|done].
      * apply inheritedBeforeLast_cons. by right.
Qed.

(** The forward pairs by their positions. *)
Lemma forwardRecords_positions (medications : list string) r :
  In r (forwardRecords medications) <->
  exists i j m1 m2 info,
    i < j
    /\ medications !! i = Some m1 /\ medications !! j = Some m2
    /\ medicationInteractions !! toLowerCase m1 = Some info
    /\ In (toLowerCase m2) (med_interactions info)
    /\ r = entry (toLowerCase m1) info m2.
Proof.
  assert (forall m later,
            In r (omap (fun m2 => forwardRecord (m, m2)) later) <->
            exists j m2 info,
              later !! j = Some m2
              /\ medicationInteractions !! toLowerCase m = Some info
              /\ In (toLowerCase m2) (med_interactions info)
              /\ r = entry (toLowerCase m) info m2) as Hrow.
  { intros m later. rewrite <- list_elem_of_In, list_elem_of_omap. split.
    - intros (m2 & (j & Hj)%list_elem_of_lookup & Hr). unfold forwardRecord in Hr.
      cbn [fst snd] in Hr.
      destruct (medicationInteractions !! toLowerCase m) as [info|]; [|done].
      destruct (arrayIncludes _ (toLowerCase m2)) eqn:Ein; [|done].
      injection Hr as <-. apply arrayIncludes_In in Ein. by exists j, m2, info.
    - intros (j & m2 & info & Hj & Ht & Hin & ->). exists m2.
      split; [apply list_elem_of_lookup; by exists j|].
      unfold forwardRecord. cbn [fst snd]. rewrite Ht.
      apply arrayIncludes_In in Hin. by rewrite Hin. }
  induction medications as [|m later IH].
  { split; [done|]. intros (i & j & m1 & m2 & info & _ & H & _). by destruct i. }
  rewrite forwardRecords_cons, in_app_iff, Hrow, IH. split.
  - intros [(j & m2 & info & Hj & Ht & Hin & ->)
           |(i & j & m1 & m2 & info & Hlt & Hi & Hj & Ht & Hin & ->)].
    + exists 0, (S j), m, m2, info. repeat split; try done. lia.
    + exists (S i), (S j), m1, m2, info. repeat split; try done. lia.
  - intros (i & j & m1 & m2 & info & Hlt & Hi & Hj & Ht & Hin & ->).
    destruct j as [|j]; [lia|]. destruct i as [|i]; simpl in Hi, Hj.
    + injection Hi as ->. left. by exists j, m2, info.
    + right. exists i, j, m1, m2, info. repeat split; try done. lia.
Qed.

(** C5, as the code has it.  The function throws when a name other than the
    last is, in lower case, [constructor] or [__proto__].  On every other
    list it returns, and its records are those of the pairs [i < j] in which
    the table entry of the (lower-cased) medication at [i] lists the
    (lower-cased) medication at [j]: one record for each such pair, in the
    order of the two loops, and with each record its warning, built from the
    explanation stored under the medication at [i].  The entry of the later
    medication is not consulted. *)
Theorem checkMedicationInteractions_forward_pairs (medications : list string) :
  match checkMedicationInteractions medications with
  | Some check =>
      ~ inheritedBeforeLast medications
      /\ interactions check = forwardRecords medications
      /\ warnings check = map warningOf (forwardRecords medications)
  | None => inheritedBeforeLast medications
  end
  /\ (forall r,
        In r (forwardRecords medications) <->
        exists i j m1 m2 info,
          i < j
          /\ medications !! i = Some m1 /\ medications !! j = Some m2
          /\ medicationInteractions !! toLowerCase m1 = Some info
          /\ In (toLowerCase m2) (med_interactions info)
          /\ r = entry (toLowerCase m1) info m2).
Proof.
  split; [|apply forwardRecords_positions].
  exact (checkFrom_spec medications {| interactions := []; warnings := [] |}).
Qed.

(** C5 as stated fails: the table lists vitamin k under warfarin, yet with
    vitamin k first in the list nothing is emitted; the other order warns. *)
Lemma checkMedicationInteractions_is_directional :
  (exists info, medicationInteractions !! "warfarin" = Some info
                /\ In "vitamin k" (med_interactions info))
  /\ checkMedicationInteractions ["vitamin k"; "warfarin"]
     = Some {| interactions := []; warnings := [] |}
  /\ (exists check,
        checkMedicationInteractions ["warfarin"; "vitamin k"] = Some check
        /\ warnings check <> []).
Proof.
  split; [|split].
  - eexists. split; [by vm_compute|]. simpl. auto.
  - by vm_compute.
  - eexists. split; [by vm_compute|]. done.
Qed.

(** Among the medications the entity extractor can produce, the table is
    symmetric: whenever the entry of [a] lists [b], the entry of [b] lists
    [a].  For lists built from extracted names the order of mention
    therefore does not decide whether a pair is reported. *)
Lemma extracted_pairs_are_listed_both_ways a b info :
  In a medicationPatterns -> In b medicationPatterns ->
  medicationInteractions !! a = Some info ->
  In b (med_interactions info) ->
  exists info', medicationInteractions !! b = Some info' /\ In a (med_interactions info').
Proof.
  intros Ha Hb Hl Hin. simpl in Ha, Hb.
  repeat (destruct Ha as [<-|Ha];
          [vm_compute in Hl; try discriminate; injection Hl as <-; simpl in Hin;
           repeat (destruct Hb as [<-|Hb];
                   [first [ by eexists; split; [by vm_compute|simpl; auto 6]
                          | exfalso; repeat (destruct Hin as [Hin|Hin]; [discriminate|]); done ]|]);
           done|]).
  done.
Qed.

(** On names of [medicationPatterns], and so on what [extractEntities]
    finds in a message, the check returns. *)
Lemma known_names_are_checked (medications : list string) :
  Forall (fun m => In m medicationPatterns) medications ->
  checkMedicationInteractions medications = Some (checkedInteractions medications).
Proof.
  intros Hall. unfold checkedInteractions.
  pose proof (checkFrom_spec medications {| interactions := []; warnings := [] |}) as H.
  fold (checkMedicationInteractions medications) in H.
  destruct (checkMedicationInteractions medications) as [check|]; [done|].
  destruct H as (earlier & name & later & -> & _ & Hin).
  apply Forall_app in Hall as [_ Hall]. apply Forall_cons in Hall as [Hname _].
  simpl in Hname.
  repeat (destruct Hname as [<-|Hname];
          [vm_compute in Hin; by repeat (destruct Hin as [Hin|Hin]; [discriminate|])|]).
  done.
Qed.

Lemma extracted_names_are_checked (message : string) :
  checkMedicationInteractions (ent_medications (extractEntities message))
  = Some (checkedInteractions (ent_medications (extractEntities message))).
Proof.
  apply known_names_are_checked, Forall_forall. intros m Hm.
  apply list_elem_of_In in Hm. unfold extractEntities in Hm. cbn [ent_medications] in Hm.
  by apply filter_In in Hm as [? _].
Qed.

(** An inherited member throws when a name follows it, and only then. *)
Example inherited_member_throws :
  checkMedicationInteractions ["aspirin"; "warfarin"; "constructor"; "x"] = None
  /\ checkMedicationInteractions ["Aspirin"; "__PROTO__"; "warfarin"] = None
  /\ interactions <$> checkMedicationInteractions ["aspirin"; "warfarin"; "constructor"]
     = Some [{| medication1 := "aspirin"; medication2 := "warfarin";
                warning := "May increase bleeding risk when combined with blood thinners" |}]
  /\ checkMedicationInteractions ["toString"; "aspirin"]
     = Some {| interactions := []; warnings := [] |}.
Proof. by vm_compute. Qed.

(** The two sample lists of the specification. *)
Example interaction_samples :
  warnings <$> checkMedicationInteractions ["aspirin"; "warfarin"]
  = Some [interactionWarning "aspirin" "warfarin"
            "May increase bleeding risk when combined with blood thinners"]
  /\ warnings <$> checkMedicationInteractions ["aspirin"] = Some [].
Proof. by vm_compute. Qed.

End InteractionFacts.

(** ** Appointment flow controller *)

Section FlowFacts.

Variables (rnd : nat) (sid : string).
Hypothesis sid_truthy : sid <> EmptyString.

Lemma sessions_set_lookup c w : sessions (sessions_set sid c w) !! sid = Some c.
Proof. unfold sessions_set, set_sessions. cbn [sessions]. apply lookup_insert_eq. Qed.

Lemma trigger_In msg : arrayIncludes bookingTriggers msg = true <-> In msg bookingTriggers.
Proof. apply arrayIncludes_In. Qed.

(** [handleAppointmentFlow] makes the transition [flowStep] on the
    appointment state; when it answers, the reply is a usable one, the
    context is in the cache, and nothing else of the process changes. *)
Lemma handleAppointmentFlow_spec message c w :
  match flowStep message (appointmentState c) with
  | Some st =>
      exists reply c' w',
        handleAppointmentFlow rnd message c sid w = (Some reply, c', w')
        /\ usableReply (Some reply) = Some reply
        /\ reply_triage reply = None
        /\ aiEnhanced reply = None
        /\ appointmentState c' = st
        /\ symptomFlags c' = symptomFlags c
        /\ sessions w' !! sid = Some c'
        /\ sameChannels w w'
  | None => handleAppointmentFlow rnd message c sid w = (None, c, w)
  end.
Proof.
  unfold handleAppointmentFlow, flowStep, appointmentState.
  rewrite (proj2 (String.eqb_neq _ _) sid_truthy). cbn [andb].
  destruct c as [h topic aD aS aO aT aDt aR ty da re si ui].
  cbn [askedAppointmentType askedAppointmentDate askedAppointmentReason
       appointmentType appointmentDate appointmentReason].
  destruct (arrayIncludes bookingTriggers (toLowerCase message)), aT, aDt, aR;
    cbn [andb negb];
    try reflexivity;
    (eexists _, _, _; split; [reflexivity|];
     split; [unfold usableReply, plainReply; cbn [response];
             by rewrite append_nonempty by reflexivity|];
     split; [reflexivity|]; split; [reflexivity|]; split; [reflexivity|];
     split; [reflexivity|]; split; [apply sessions_set_lookup|];
     repeat split).
Qed.

Lemma finishTurn_spec intent sentiment wasAI text actions c w :
  let x := finishTurn intent sentiment wasAI text actions sid c w in
  quietTurn sid c w x
  /\ appointmentState x.1.2 = appointmentState c
  /\ response x.1.1 = text
  /\ quickActions x.1.1 = actions
  /\ aiEnhanced x.1.1 = Some wasAI.
Proof.
  unfold finishTurn, quietTurn, sameChannels.
  destruct (ui_medications (userInfo (pushTurn (botTurn text) c))),
           (ui_symptoms (userInfo (pushTurn (botTurn text) c)));
    cbn [fst snd]; repeat split; try reflexivity; apply sessions_set_lookup.
Qed.

(** The [switch]: only the appointment arm without a generated text
    consults the flow controller. *)
Lemma standardPath_spec aiResponse intent sentiment message c w :
  let x := standardPath aiResponse rnd intent sentiment message sid c w in
  quietTurn sid c w x
  /\ appointmentState x.1.2 =
     match aiResponse, intent with
     | None, appointment =>
         default (appointmentState c) (flowStep message (appointmentState c))
     | _, _ => appointmentState c
     end.
Proof.
  unfold standardPath.
  destruct aiResponse as [text|].
  { destruct (finishTurn_spec intent sentiment true text
                match intent with
                | greeting => ["Check Symptoms"; "Schedule Appointment"; "Wellness Tips"]
                | help => ["Symptoms"; "Appointments"; "Medications"; "Wellness"]
                | appointment => ["Book Now"; "Find Doctor"; "Check Availability"]
                | medication => ["Find Pharmacy"; "Contact Doctor"]
                | wellness => ["Nutrition Tips"; "Exercise Guide"; "Sleep Advice"]
                | _ => ["Get Help"; "Find Doctor"]
                end c w) as (Hq & Ha & _).
    split; [exact Hq|]. rewrite Ha. by destruct intent. }
  destruct intent;
    try (match goal with
         | |- context [finishTurn ?i ?s ?b ?t ?q sid c w] =>
             destruct (finishTurn_spec i s b t q c w) as (Hq & Ha & _);
             split; [exact Hq|exact Ha]
         end).
  pose proof (handleAppointmentFlow_spec message c w) as H.
  destruct (flowStep message (appointmentState c)) as [st|].
  - destruct H as (reply & c' & w' & -> & _ & _ & _ & Hst & Hsf & _ & Hch).
    cbn [default]. unfold quietTurn. cbn [fst snd].
    repeat split; try apply Hch; try done. apply sessions_set_lookup.
  - rewrite H.
    destruct (finishTurn_spec appointment sentiment false
                (pick rnd chatbotResponses.appointment)
                ["Book Now"; "Find Doctor"; "Check Availability"] c w) as (Hq & Ha & _).
    split; [exact Hq|exact Ha].
Qed.

Lemma topicPath_spec aiResponse intent entities sentiment userMessage message c w :
  let x := topicPath aiResponse rnd intent entities sentiment userMessage message sid c w in
  quietTurn sid c w x
  /\ appointmentState x.1.2 =
     match aiResponse, intent with
     | None, appointment =>
         default (appointmentState c) (flowStep userMessage (appointmentState c))
     | _, _ => appointmentState c
     end.
Proof.
  pose proof (standardPath_spec aiResponse intent sentiment userMessage c w) as Hstd.
  assert (forall text actions inter,
            let x := ({| response := text; quickActions := actions; reply_triage := None;
                         reply_entities := None; reply_sentiment := None;
                         reply_interactions := inter; aiEnhanced := None |},
                      pushTurn (botTurn text) c,
                      sessions_set sid (pushTurn (botTurn text) c) w) in
            quietTurn sid c w x /\ appointmentState x.1.2 = appointmentState c) as Hown.
  { intros text actions inter. unfold quietTurn, sameChannels. cbn [fst snd].
    repeat split; try reflexivity. apply sessions_set_lookup. }
  unfold topicPath.
  destruct (isIntent intent medication
            && (0 <? List.length (ent_medications entities))%nat
            && (0 <? List.length (warnings (checkedInteractions
                                              (ent_medications entities))))%nat) eqn:Emed.
  { apply andb_prop in Emed as [[Hi%bool_decide_eq_true _]%andb_prop _]. subst intent.
    destruct (Hown (((pick rnd chatbotResponses.medication +:+ nl +:+ nl
                      +:+ join nl (warnings (checkedInteractions
                                              (ent_medications entities))))
                     +:+ nl +:+ nl
                     +:+ "⚠️ Always consult your pharmacist or doctor about medication interactions."))
                ["Find Pharmacy"; "Contact Doctor"]
                (Some (interactions (checkedInteractions (ent_medications entities)))))
      as [Hq Ha].
    split; [exact Hq|]. rewrite Ha. by destruct aiResponse. }
  destruct (isIntent intent specialty) eqn:Esp.
  { apply bool_decide_eq_true in Esp. subst intent.
    destruct (List.find _ specialties) as [[name about]|]; [|exact Hstd].
    unfold plainReply. split; [apply Hown|]. cbn [fst snd]. by destruct aiResponse. }
  destruct (isIntent intent wellness) eqn:Ewe; [|exact Hstd].
  apply bool_decide_eq_true in Ewe. subst intent.
  destruct (List.find _ wellnessTips) as [[category tips]|]; [|exact Hstd].
  unfold plainReply. split; [apply Hown|]. cbn [fst snd]. by destruct aiResponse.
Qed.

Lemma emergencyPath_spec userMessage c w :
  let x := emergencyPath rnd userMessage sid c w in
  sessions x.2 !! sid = Some x.1.2
  /\ appointmentState x.1.2 = appointmentState c
  /\ symptomFlags x.1.2 = symptomFlags c
  /\ emitted x.2 = emitted w ++ [emergencyAlert userMessage sid]
  /\ aiCalls x.2 = aiCalls w
  /\ emergencyCount (analytics x.2) = S (emergencyCount (analytics w))
  /\ response x.1.1 = pick rnd chatbotResponses.emergency
  /\ quickActions x.1.1 = ["Call 911"; "Find ER"]
  /\ urgency <$> reply_triage x.1.1 = Some CRITICAL.
Proof.
  unfold emergencyPath. cbn [fst snd]. repeat split.
  unfold io_emit, set_emitted. cbn [sessions]. apply sessions_set_lookup.
Qed.

Lemma generateSymptomAssessment_spec message c a :
  let x := generateSymptomAssessment message c a in
  appointmentState x.1.2 = appointmentState c /\ symptomFlagsKept c x.1.2.
Proof.
  unfold generateSymptomAssessment, symptomFlagsKept.
  destruct (performTriage message (extractSymptomInfo message) a) as [t a'].
  destruct (symptoms (extractSymptomInfo message)) as [|symptom0 rest]; [done|].
  destruct c as [h topic aD aS aO aT aDt aR ty da re si ui].
  cbn [askedDuration askedSeverity askedOtherSymptoms].
  destruct (truthy (duration (extractSymptomInfo message))),
           (truthy (severity (extractSymptomInfo message))), aD, aS, aO;
    cbn [negb andb]; done.
Qed.

Lemma symptomPath_spec aiResponse userMessage entities sentiment warns c w :
  let x := symptomPath aiResponse rnd userMessage sid entities sentiment warns c w in
  sessions x.2 !! sid = Some x.1.2
  /\ appointmentState x.1.2 = appointmentState c
  /\ symptomFlagsKept c x.1.2
  /\ emitted x.2 = emitted w
  /\ aiCalls x.2 = aiCalls w.
Proof.
  unfold symptomPath.
  pose proof (generateSymptomAssessment_spec userMessage c (analytics w)) as H.
  destruct (generateSymptomAssessment userMessage c (analytics w)) as [[assessment c'] a'].
  cbn [fst snd] in H. destruct H as [Ha Hk].
  destruct aiResponse as [text|]; [|destruct assessment as [asmt|]];
    cbn [fst snd]; (split; [apply sessions_set_lookup|]); done.
Qed.

Lemma askAI_spec ai userMessage c w :
  (askAI ai userMessage c w).1 = aiText ai userMessage c
  /\ sessions (askAI ai userMessage c w).2 = sessions w
  /\ emitted (askAI ai userMessage c w).2 = emitted w
  /\ analytics (askAI ai userMessage c w).2 = analytics w
  /\ aiCalls (askAI ai userMessage c w).2
     = if isAIAvailable ai then S (aiCalls w) else aiCalls w.
Proof.
  unfold askAI, aiText. destruct (isAIAvailable ai); cbn [fst snd andb]; done.
Qed.

Lemma composeResponse_dispatch ai userMessage c w :
  composeResponse ai rnd userMessage sid c w
  = dispatchTurn ai rnd userMessage (trim (toLowerCase userMessage)) sid
      (extractEntities userMessage) (analyzeSentiment userMessage)
      (warningsAtDispatch userMessage sid c) (detectIntent userMessage)
      (contextAtDispatch userMessage sid c) (worldAtDispatch userMessage sid w).
Proof. reflexivity. Qed.

Lemma contextAtDispatch_frame userMessage c :
  appointmentState (contextAtDispatch userMessage sid c) = appointmentState c
  /\ symptomFlags (contextAtDispatch userMessage sid c) = symptomFlags c
  /\ inAppointmentFlow (contextAtDispatch userMessage sid c) = inAppointmentFlow c.
Proof.
  unfold contextAtDispatch.
  destruct (truthy (sessionId c)), (ent_medications (extractEntities userMessage)),
           (ent_symptoms (extractEntities userMessage)); done.
Qed.

Lemma worldAtDispatch_frame userMessage w :
  sessions (worldAtDispatch userMessage sid w) = sessions w
  /\ emitted (worldAtDispatch userMessage sid w) = emitted w
  /\ aiCalls (worldAtDispatch userMessage sid w) = aiCalls w
  /\ emergencyCount (analytics (worldAtDispatch userMessage sid w))
     = emergencyCount (analytics w).
Proof. done. Qed.

Lemma flowStep_idle message c :
  inAppointmentFlow c = false ->
  flowStep message (appointmentState c)
  = Some (true, false, false, appointmentType c, appointmentDate c, appointmentReason c).
Proof.
  unfold inAppointmentFlow, flowStep, appointmentState.
  destruct (askedAppointmentType c), (askedAppointmentDate c), (askedAppointmentReason c);
    try discriminate.
  intros _. by destruct (arrayIncludes bookingTriggers (toLowerCase message)).
Qed.

Lemma flowStep_none message c :
  flowStep message (appointmentState c) = None ->
  askedAppointmentType c = true /\ askedAppointmentDate c = false
  /\ arrayIncludes bookingTriggers (toLowerCase message) = true.
Proof.
  unfold flowStep, appointmentState.
  destruct (askedAppointmentType c), (askedAppointmentDate c), (askedAppointmentReason c),
           (arrayIncludes bookingTriggers (toLowerCase message)); done.
Qed.

(** The controller answers: the turn ends there. *)
Lemma dispatch_flow_answers ai userMessage message entities sentiment warns intent c w st :
  inAppointmentFlow c = true
  \/ (arrayIncludes bookingTriggers message = true /\ intent = appointment) ->
  flowStep userMessage (appointmentState c) = Some st ->
  let x := dispatchTurn ai rnd userMessage message sid entities sentiment warns intent c w in
  quietTurn sid c w x /\ appointmentState x.1.2 = st /\ aiEnhanced x.1.1 = None.
Proof.
  intros Hwhy Hstep. unfold dispatchTurn.
  pose proof (handleAppointmentFlow_spec userMessage c w) as H. rewrite Hstep in H.
  destruct H as (reply & c' & w' & Heq & Huse & Htri & Hai & Hst & Hsf & Hsess & Hch).
  destruct (inAppointmentFlow c) eqn:Hin.
  - rewrite Heq. cbn iota beta. rewrite Huse. unfold quietTurn. done.
  - destruct Hwhy as [?|[-> ->]]; [done|].
    cbn [usableReply]. cbn iota beta.
    replace (true && isIntent appointment appointment) with true by done.
    rewrite Heq. cbn iota beta. rewrite Huse. unfold quietTurn. done.
Qed.

(** The controller is not consulted, or reports no transition: the turn
    goes on to the emergency check and the branches behind it. *)
Lemma dispatch_falls_through ai userMessage message entities sentiment warns intent c w :
  inAppointmentFlow c = false \/ flowStep userMessage (appointmentState c) = None ->
  arrayIncludes bookingTriggers message && isIntent intent appointment = false
  \/ flowStep userMessage (appointmentState c) = None ->
  dispatchTurn ai rnd userMessage message sid entities sentiment warns intent c w
  = if isIntent intent emergency then emergencyPath rnd userMessage sid c w
    else
      if isIntent intent symptom then
        symptomPath (askAI ai userMessage c w).1 rnd userMessage sid entities sentiment
          warns c (askAI ai userMessage c w).2
      else
        topicPath (askAI ai userMessage c w).1 rnd intent entities sentiment userMessage
          message sid c (askAI ai userMessage c w).2.
Proof.
  intros H1 H2. unfold dispatchTurn.
  pose proof (handleAppointmentFlow_spec userMessage c w) as H.
  assert ((if inAppointmentFlow c then handleAppointmentFlow rnd userMessage c sid w
           else (None, c, w)) = (None, c, w)) as ->.
  { destruct H1 as [->|Hn]; [done|]. rewrite Hn in H. rewrite H. by destruct (inAppointmentFlow c). }
  cbn iota beta. cbn [usableReply].
  assert ((if arrayIncludes bookingTriggers message && isIntent intent appointment
           then handleAppointmentFlow rnd userMessage c sid w
           else (None, c, w)) = (None, c, w)) as ->.
  { destruct H2 as [->|Hn]; [done|]. rewrite Hn in H. rewrite H.
    by destruct (arrayIncludes bookingTriggers message && isIntent intent appointment). }
  cbn iota beta. cbn [usableReply].
  destruct (isIntent intent emergency); [done|].
  by destruct (askAI ai userMessage c w).
Qed.

(** A booking trigger is classified as an appointment request, and trimming
    leaves it as it is. *)
Lemma trigger_is_appointment userMessage :
  arrayIncludes bookingTriggers (toLowerCase userMessage) = true ->
  detectIntent userMessage = appointment
  /\ trim (toLowerCase userMessage) = toLowerCase userMessage.
Proof.
  intros H%trigger_In. unfold detectIntent. simpl in H.
  repeat (destruct H as [<-|H]; [by vm_compute|]). done.
Qed.

(** No booking trigger contains an emergency keyword. *)
Lemma emergency_keyword_not_trigger msg keyword :
  In keyword (keywords triageLevels.emergency) ->
  includes msg keyword = true ->
  arrayIncludes bookingTriggers msg = false.
Proof.
  intros Hk Hi. apply not_true_is_false. intros Ht%trigger_In.
  simpl in Ht, Hk.
  repeat (destruct Ht as [<-|Ht];
          [repeat (destruct Hk as [<-|Hk]; [by vm_compute in Hi|]); done|]).
  done.
Qed.

Lemma flags_kept_after c c1 c' :
  symptomFlags c1 = symptomFlags c -> symptomFlagsKept c1 c' -> symptomFlagsKept c c'.
Proof.
  unfold symptomFlags, symptomFlagsKept. intros [= -> -> ->]. done.
Qed.

Lemma flags_equal_kept c c' : symptomFlags c' = symptomFlags c -> symptomFlagsKept c c'.
Proof.
  unfold symptomFlags, symptomFlagsKept. intros [= -> -> ->]. done.
Qed.

(** What a turn does to the cache, the flags and the alert channel. *)
Lemma composeResponse_spec ai userMessage c w :
  let x := composeResponse ai rnd userMessage sid c w in
  sessions x.2 !! sid = Some x.1.2
  /\ symptomFlagsKept c x.1.2
  /\ appointmentState x.1.2 =
     (if consultsController ai userMessage sid c
      then default (appointmentState c) (flowStep userMessage (appointmentState c))
      else appointmentState c)
  /\ emitted x.2 =
     emitted w ++
     (if negb (inAppointmentFlow c) && isIntent (detectIntent userMessage) emergency
      then [emergencyAlert userMessage sid] else []).
Proof.
  rewrite composeResponse_dispatch. unfold consultsController.
  destruct (contextAtDispatch_frame userMessage c) as (Hst & Hsf & Hin).
  destruct (worldAtDispatch_frame userMessage w) as (_ & Hem & _ & _).
  set (c1 := contextAtDispatch userMessage sid c) in *.
  set (w1 := worldAtDispatch userMessage sid w) in *.
  set (message := trim (toLowerCase userMessage)).
  set (intent := detectIntent userMessage).
  assert (forall w0 x, emitted w0 = emitted w -> quietTurn sid c1 w0 x ->
            sessions x.2 !! sid = Some x.1.2 /\ symptomFlagsKept c x.1.2
            /\ emitted x.2 = emitted w) as Hquiet.
  { intros w0 x Hw0 (Hs & (He & _ & _) & Hf & _). split; [done|]. split; [|congruence].
    apply flags_equal_kept. congruence. }
  destruct (askAI_spec ai userMessage c1 w1) as (Hai & _ & He' & _ & _).
  rewrite Hem in He'.
  pose proof (topicPath_spec (askAI ai userMessage c1 w1).1 intent
                (extractEntities userMessage) (analyzeSentiment userMessage)
                userMessage message c1 (askAI ai userMessage c1 w1).2) as Htopic.
  cbv zeta in Htopic. destruct Htopic as [Hq Ha].
  apply (Hquiet _ _ He') in Hq. destruct Hq as (Hq1 & Hq2 & Hq3).
  rewrite <- Hst, <- Hin.
  destruct (inAppointmentFlow c1) eqn:Ein; cbn [orb negb andb].
  - rewrite app_nil_r.
    destruct (flowStep userMessage (appointmentState c1)) as [st|] eqn:Es.
    + destruct (dispatch_flow_answers ai userMessage message
                  (extractEntities userMessage) (analyzeSentiment userMessage)
                  (warningsAtDispatch userMessage sid c) intent
                  c1 w1 st (or_introl Ein) Es) as (Hq & Hst' & _).
      destruct (Hquiet _ _ Hem Hq) as (? & ? & ?). done.
    + rewrite dispatch_falls_through by (by right).
      destruct (flowStep_none _ _ Es) as (_ & _ & Ht).
      destruct (trigger_is_appointment _ Ht) as [Hi _].
      fold intent in Hi. rewrite Hi in *.
      replace (isIntent appointment emergency) with false by done.
      replace (isIntent appointment symptom) with false by done.
      refine (conj Hq1 (conj Hq2 (conj _ Hq3))). rewrite Ha, Hai.
      by destruct (aiText ai userMessage c1).
  - destruct (arrayIncludes bookingTriggers message && isIntent intent appointment) eqn:Et.
    + apply andb_prop in Et as [Ht Hi]. apply bool_decide_eq_true in Hi.
      rewrite Hi, Ht in *.
      replace (isIntent appointment emergency) with false by done.
      replace (isIntent appointment appointment) with true by done.
      cbn [orb andb]. rewrite app_nil_r.
      destruct (dispatch_flow_answers ai userMessage message
                  (extractEntities userMessage) (analyzeSentiment userMessage)
                  (warningsAtDispatch userMessage sid c) appointment
                  c1 w1 _ (or_intror (conj Ht eq_refl)) (flowStep_idle userMessage c1 Ein))
        as (Hq & Hst' & _).
      destruct (Hquiet _ _ Hem Hq) as (? & ? & ?).
      rewrite (flowStep_idle userMessage c1 Ein). done.
    + rewrite dispatch_falls_through by (by left).
      destruct (isIntent intent emergency) eqn:Eem.
      { apply bool_decide_eq_true in Eem. rewrite Eem.
        replace (isIntent emergency appointment) with false by done. cbn [andb].
        destruct (emergencyPath_spec userMessage c1 w1) as (Hs & Hap & Hf & -> & _).
        rewrite Hem. refine (conj Hs (conj _ (conj Hap eq_refl))).
        apply flags_equal_kept. congruence. }
      rewrite app_nil_r.
      destruct (isIntent intent symptom) eqn:Esy.
      { apply bool_decide_eq_true in Esy. rewrite Esy.
        replace (isIntent symptom appointment) with false by done. cbn [andb].
        destruct (symptomPath_spec (askAI ai userMessage c1 w1).1 userMessage
                    (extractEntities userMessage) (analyzeSentiment userMessage)
                    (warningsAtDispatch userMessage sid c) c1
                    (askAI ai userMessage c1 w1).2) as (Hs & Hap & Hk & -> & _).
        refine (conj Hs (conj _ (conj Hap He'))).
        exact (flags_kept_after _ _ _ Hsf Hk). }
      refine (conj Hq1 (conj Hq2 (conj _ Hq3))). rewrite Ha, Hai.
      destruct (aiText ai userMessage c1) as [text|] eqn:Eai.
      * replace (bool_decide (Some text = None)) with false by done.
        rewrite orb_false_r, andb_comm, Et. by destruct intent.
      * replace (bool_decide (None = None)) with true by done.
        rewrite orb_true_r, andb_true_r.
        destruct (isIntent intent appointment) eqn:Eap.
        -- apply bool_decide_eq_true in Eap. rewrite Eap. done.
        -- destruct intent; done.
Qed.

End FlowFacts.

(** ** Whole turns *)

Section Turns.

Variable sid : string.
Hypothesis sid_truthy : sid <> EmptyString.

Lemma generateResponse_cached ai rnd userMessage w c :
  contextOf sid w = Some c ->
  generateResponse ai rnd userMessage sid w
  = ((composeResponse ai rnd userMessage sid c w).1.1,
     (composeResponse ai rnd userMessage sid c w).2).
Proof.
  unfold generateResponse, loadContext, contextOf. intros ->.
  by destruct (composeResponse ai rnd userMessage sid c w) as [[r c'] w'].
Qed.

(** On a cache miss the context is built from the store or from scratch;
    either way no appointment flag is set in it. *)
Lemma generateResponse_cold ai rnd userMessage w :
  contextOf sid w = None ->
  exists c w0,
    generateResponse ai rnd userMessage sid w
    = ((composeResponse ai rnd userMessage sid c w0).1.1,
       (composeResponse ai rnd userMessage sid c w0).2)
    /\ appointmentState c = Idle
    /\ emitted w0 = emitted w /\ aiCalls w0 = aiCalls w /\ analytics w0 = analytics w.
Proof.
  unfold generateResponse, loadContext, contextOf. intros ->.
  destruct (database.getSession sid (db w)) as [dbSession|].
  - exists (hydrate dbSession (database.getMessages sid (db w))),
           (sessions_set sid (hydrate dbSession (database.getMessages sid (db w))) w).
    split; [|done].
    by destruct (composeResponse ai rnd userMessage sid _ _) as [[r c'] w'].
  - exists (freshContext sid), w. split; [|done].
    by destruct (composeResponse ai rnd userMessage sid _ _) as [[r c'] w'].
Qed.

Lemma idle_not_in_flow c : appointmentState c = Idle -> inAppointmentFlow c = false.
Proof. unfold appointmentState, Idle, inAppointmentFlow. by intros [= -> -> -> _ _ _]. Qed.

(** A turn that the flow controller answers. *)
Lemma composeResponse_flow_answers ai rnd userMessage c w st :
  inAppointmentFlow c = true
  \/ (arrayIncludes bookingTriggers (trim (toLowerCase userMessage)) = true
      /\ detectIntent userMessage = appointment) ->
  flowStep userMessage (appointmentState c) = Some st ->
  let x := composeResponse ai rnd userMessage sid c w in
  sessions x.2 !! sid = Some x.1.2
  /\ appointmentState x.1.2 = st
  /\ reply_triage x.1.1 = None
  /\ aiEnhanced x.1.1 = None
  /\ emitted x.2 = emitted w
  /\ aiCalls x.2 = aiCalls w
  /\ emergencyCount (analytics x.2) = emergencyCount (analytics w).
Proof.
  intros Hwhy Hstep. rewrite composeResponse_dispatch.
  destruct (contextAtDispatch_frame sid userMessage c) as (Hst & _ & Hin).
  destruct (worldAtDispatch_frame sid userMessage w) as (_ & Hem & Hai & Hec).
  rewrite <- Hst in Hstep. rewrite <- Hin in Hwhy.
  destruct (dispatch_flow_answers rnd sid sid_truthy ai userMessage
              (trim (toLowerCase userMessage))
              (extractEntities userMessage) (analyzeSentiment userMessage)
              (warningsAtDispatch userMessage sid c) (detectIntent userMessage)
              _ (worldAtDispatch userMessage sid w) st Hwhy Hstep)
    as ((Hs & (He & Hc & Han) & _ & Htri) & Ha & Hen).
  repeat split; try done; congruence.
Qed.

(** A message of emergency intent outside the flow takes the emergency
    branch. *)
Lemma composeResponse_emergency ai rnd userMessage c w :
  inAppointmentFlow c = false ->
  detectIntent userMessage = emergency ->
  composeResponse ai rnd userMessage sid c w
  = emergencyPath rnd userMessage sid (contextAtDispatch userMessage sid c)
      (worldAtDispatch userMessage sid w).
Proof.
  intros Hin Hi. rewrite composeResponse_dispatch.
  destruct (contextAtDispatch_frame sid userMessage c) as (_ & _ & Hin').
  rewrite dispatch_falls_through; try done.
  - by rewrite Hi.
  - left. congruence.
  - left. rewrite Hi. apply andb_false_r.
Qed.

Lemma pick_In rnd variants : variants <> [] -> In (pick rnd variants) variants.
Proof.
  intros Hne. unfold pick. apply nth_In. apply Nat.mod_upper_bound.
  by destruct variants.
Qed.

(** In the flow, a message that is not a booking trigger is taken as the
    pending answer, and the appointment state changes. *)
Lemma flowStep_answer userMessage c :
  inAppointmentFlow c = true ->
  arrayIncludes bookingTriggers (toLowerCase userMessage) = false ->
  let st :=
    if askedAppointmentType c && negb (askedAppointmentDate c) then
      (true, true, askedAppointmentReason c, Some userMessage,
       appointmentDate c, appointmentReason c)
    else if askedAppointmentDate c && negb (askedAppointmentReason c) then
      (askedAppointmentType c, true, true, appointmentType c, Some userMessage,
       appointmentReason c)
    else Idle in
  flowStep userMessage (appointmentState c) = Some st /\ st <> appointmentState c.
Proof.
  unfold inAppointmentFlow, flowStep, appointmentState, Idle. intros Hin ->.
  destruct (askedAppointmentType c), (askedAppointmentDate c), (askedAppointmentReason c);
    try discriminate; cbn [andb negb]; split; congruence.
Qed.

(** C1, as the code has it: when an appointment asked-flag is set, a
    message that contains an emergency keyword is handed to the flow
    controller before the emergency check and is consumed as the pending
    answer (type, then date, then reason, which closes the booking); the
    appointment state changes, and the turn carries no triage, raises no
    alert and leaves the emergency counter alone. *)
Theorem in_flow_emergency_message_is_consumed ai rnd userMessage keyword w c :
  contextOf sid w = Some c ->
  inAppointmentFlow c = true ->
  In keyword (keywords triageLevels.emergency) ->
  includes (toLowerCase userMessage) keyword = true ->
  let '(reply, w') := generateResponse ai rnd userMessage sid w in
  exists c',
    contextOf sid w' = Some c'
    /\ appointmentState c' =
       (if askedAppointmentType c && negb (askedAppointmentDate c) then
          (true, true, askedAppointmentReason c, Some userMessage,
           appointmentDate c, appointmentReason c)
        else if askedAppointmentDate c && negb (askedAppointmentReason c) then
          (askedAppointmentType c, true, true, appointmentType c, Some userMessage,
           appointmentReason c)
        else Idle)
    /\ appointmentState c' <> appointmentState c
    /\ reply_triage reply = None
    /\ emitted w' = emitted w
    /\ aiCalls w' = aiCalls w
    /\ emergencyCount (analytics w') = emergencyCount (analytics w).
Proof.
  intros Hc Hin Hk Hi.
  rewrite (generateResponse_cached _ _ _ _ _ Hc).
  pose proof (emergency_keyword_not_trigger _ _ Hk Hi) as Hnt.
  destruct (flowStep_answer userMessage c Hin Hnt) as [Hstep Hne].
  destruct (composeResponse_flow_answers ai rnd userMessage c w _ (or_introl Hin) Hstep)
    as (Hs & Ha & Ht & _ & He & Hai & Hec).
  eexists. split; [exact Hs|]. rewrite Ha. done.
Qed.

(** C3, as the code has it: a message of emergency intent that reaches a
    session with no appointment asked-flag set gets one of the canned
    emergency texts (the one the random draw selects), triage urgency
    CRITICAL, exactly one more alert on the channel, and no call to the
    generative service. *)
Theorem emergency_intent_outside_flow ai rnd userMessage w :
  detectIntent userMessage = emergency ->
  (forall c, contextOf sid w = Some c -> inAppointmentFlow c = false) ->
  let '(reply, w') := generateResponse ai rnd userMessage sid w in
  aiCalls w' = aiCalls w
  /\ response reply = pick rnd chatbotResponses.emergency
  /\ In (response reply) chatbotResponses.emergency
  /\ urgency <$> reply_triage reply = Some CRITICAL
  /\ emitted w' = emitted w ++ [emergencyAlert userMessage sid]
  /\ aiEnhanced reply = None.
Proof.
  intros Hi Hidle.
  assert (exists c w0,
            generateResponse ai rnd userMessage sid w
            = ((composeResponse ai rnd userMessage sid c w0).1.1,
               (composeResponse ai rnd userMessage sid c w0).2)
            /\ inAppointmentFlow c = false
            /\ emitted w0 = emitted w /\ aiCalls w0 = aiCalls w) as (c & w0 & -> & Hin & He & Ha).
  { destruct (contextOf sid w) as [c|] eqn:Hc.
    - exists c, w. split; [by apply generateResponse_cached|]. auto.
    - destruct (generateResponse_cold ai rnd userMessage w Hc) as (c & w0 & ? & ? & ? & ? & _).
      exists c, w0. split; [done|]. split; [by apply idle_not_in_flow|done]. }
  rewrite (composeResponse_emergency _ _ _ _ _ Hin Hi).
  destruct (emergencyPath_spec rnd sid userMessage
              (contextAtDispatch userMessage sid c) (worldAtDispatch userMessage sid w0))
    as (_ & _ & _ & Hem & Hai & _ & Hr & _ & Hu).
  destruct (worldAtDispatch_frame sid userMessage w0) as (_ & Hem0 & Hai0 & _).
  repeat split; try done; try congruence.
  rewrite Hr. by apply pick_In.
Qed.

Lemma inflow_of_state c (t d r : bool) ty da re :
  appointmentState c = (t, d, r, ty, da, re) -> inAppointmentFlow c = t || d || r.
Proof. unfold appointmentState, inAppointmentFlow. by intros [= -> -> -> _ _ _]. Qed.

(** A turn on a session with no appointment flag set, cached or not. *)
Lemma generateResponse_idle ai rnd userMessage w :
  (forall c, contextOf sid w = Some c -> appointmentState c = Idle) ->
  exists c w0,
    generateResponse ai rnd userMessage sid w
    = ((composeResponse ai rnd userMessage sid c w0).1.1,
       (composeResponse ai rnd userMessage sid c w0).2)
    /\ appointmentState c = Idle.
Proof.
  intros Hidle. destruct (contextOf sid w) as [c|] eqn:Hc.
  - exists c, w. split; [by apply generateResponse_cached|]. auto.
  - destruct (generateResponse_cold ai rnd userMessage w Hc) as (c & w0 & ? & ? & _).
    by exists c, w0.
Qed.

(** One turn answered by the flow controller, read off the cache. *)
Lemma turn_flow_answers ai rnd userMessage w c st :
  contextOf sid w = Some c ->
  inAppointmentFlow c = true ->
  flowStep userMessage (appointmentState c) = Some st ->
  appointmentState <$> contextOf sid (generateResponse ai rnd userMessage sid w).2 = Some st.
Proof.
  intros Hc Hin Hstep. rewrite (generateResponse_cached _ _ _ _ _ Hc). cbn [snd].
  destruct (composeResponse_flow_answers ai rnd userMessage c w st (or_introl Hin) Hstep)
    as (Hs & Ha & _).
  unfold contextOf. rewrite Hs. cbn. by rewrite Ha.
Qed.

(** C6: from a session with nothing asked, four turns (a booking trigger,
    then a type answer that is not itself a trigger, then a date answer,
    then a reason answer) walk the appointment state through type asked,
    date asked, reason asked and back to the initial state, with the three
    flags false and the three stored values cleared. *)
Theorem booking_round_trip ai1 ai2 ai3 ai4 rnd1 rnd2 rnd3 rnd4
    trigger typeAnswer dateAnswer reasonAnswer w :
  (forall c, contextOf sid w = Some c -> appointmentState c = Idle) ->
  arrayIncludes bookingTriggers (toLowerCase trigger) = true ->
  arrayIncludes bookingTriggers (toLowerCase typeAnswer) = false ->
  let w1 := (generateResponse ai1 rnd1 trigger sid w).2 in
  let w2 := (generateResponse ai2 rnd2 typeAnswer sid w1).2 in
  let w3 := (generateResponse ai3 rnd3 dateAnswer sid w2).2 in
  let w4 := (generateResponse ai4 rnd4 reasonAnswer sid w3).2 in
  appointmentState <$> contextOf sid w1 = Some (true, false, false, None, None, None)
  /\ appointmentState <$> contextOf sid w2
     = Some (true, true, false, Some typeAnswer, None, None)
  /\ appointmentState <$> contextOf sid w3
     = Some (true, true, true, Some typeAnswer, Some dateAnswer, None)
  /\ appointmentState <$> contextOf sid w4 = Some Idle.
Proof.
  intros Hidle Htrig Htype. cbv zeta.
  (* first turn *)
  assert (appointmentState <$> contextOf sid (generateResponse ai1 rnd1 trigger sid w).2
          = Some (true, false, false, None, None, None)) as H1.
  { destruct (generateResponse_idle ai1 rnd1 trigger w Hidle) as (c & w0 & -> & Hst).
    cbn [snd]. destruct (trigger_is_appointment _ Htrig) as [Hi Htrim].
    pose proof (idle_not_in_flow c Hst) as Hin.
    rewrite <- Htrim in Htrig.
    destruct (composeResponse_flow_answers ai1 rnd1 trigger c w0 _
                (or_intror (conj Htrig Hi)) (flowStep_idle trigger c Hin))
      as (Hs & Ha & _).
    unfold contextOf. rewrite Hs. cbn. rewrite Ha.
    unfold appointmentState, Idle in Hst. by injection Hst as _ _ _ -> -> ->. }
  set (w1 := (generateResponse ai1 rnd1 trigger sid w).2) in *.
  destruct (contextOf sid w1) as [c1|] eqn:Hc1; [|discriminate].
  cbn [fmap option_fmap option_map] in H1. apply (inj Some) in H1. rename H1 into E1.
  (* second turn *)
  assert (appointmentState <$> contextOf sid (generateResponse ai2 rnd2 typeAnswer sid w1).2
          = Some (true, true, false, Some typeAnswer, None, None)) as H2.
  { apply (turn_flow_answers _ _ _ _ c1); [done|by rewrite (inflow_of_state _ _ _ _ _ _ _ E1)|].
    rewrite E1. unfold flowStep. by rewrite Htype. }
  set (w2 := (generateResponse ai2 rnd2 typeAnswer sid w1).2) in *.
  destruct (contextOf sid w2) as [c2|] eqn:Hc2; [|discriminate].
  cbn [fmap option_fmap option_map] in H2. apply (inj Some) in H2. rename H2 into E2.
  (* third turn *)
  assert (appointmentState <$> contextOf sid (generateResponse ai3 rnd3 dateAnswer sid w2).2
          = Some (true, true, true, Some typeAnswer, Some dateAnswer, None)) as H3.
  { apply (turn_flow_answers _ _ _ _ c2); [done|by rewrite (inflow_of_state _ _ _ _ _ _ _ E2)|].
    rewrite E2. unfold flowStep.
    by destruct (arrayIncludes bookingTriggers (toLowerCase dateAnswer)). }
  set (w3 := (generateResponse ai3 rnd3 dateAnswer sid w2).2) in *.
  destruct (contextOf sid w3) as [c3|] eqn:Hc3; [|discriminate].
  cbn [fmap option_fmap option_map] in H3. apply (inj Some) in H3. rename H3 into E3.
  (* fourth turn *)
  assert (appointmentState <$> contextOf sid (generateResponse ai4 rnd4 reasonAnswer sid w3).2
          = Some Idle) as H4.
  { apply (turn_flow_answers _ _ _ _ c3); [done|by rewrite (inflow_of_state _ _ _ _ _ _ _ E3)|].
    rewrite E3. unfold flowStep.
    by destruct (arrayIncludes bookingTriggers (toLowerCase reasonAnswer)). }
  cbn [fmap option_fmap option_map]. rewrite E1, E2, E3. done.
Qed.

(** C7: with the type question pending and no date asked yet, a message
    that is a booking trigger makes no transition: the controller returns
    nothing and leaves context and process as they are, and the whole turn
    leaves the appointment state alone and ends in the default handling of
    an appointment request (the generated text if there is one, else a
    canned appointment text, with the actions Book Now / Find Doctor /
    Check Availability). *)
Theorem trigger_while_type_pending ai rnd userMessage c w :
  askedAppointmentType c = true ->
  askedAppointmentDate c = false ->
  arrayIncludes bookingTriggers (toLowerCase userMessage) = true ->
  handleAppointmentFlow rnd userMessage c sid w = (None, c, w)
  /\ (contextOf sid w = Some c ->
      let '(reply, w') := generateResponse ai rnd userMessage sid w in
      appointmentState <$> contextOf sid w' = Some (appointmentState c)
      /\ response reply
         = default (pick rnd chatbotResponses.appointment)
             (aiText ai userMessage (contextAtDispatch userMessage sid c))
      /\ quickActions reply = ["Book Now"; "Find Doctor"; "Check Availability"]
      /\ aiEnhanced reply
         = Some (bool_decide (aiText ai userMessage (contextAtDispatch userMessage sid c)
                              <> None))
      /\ emitted w' = emitted w).
Proof.
  intros Ht Hd Htrig.
  assert (forall c0, appointmentState c0 = appointmentState c ->
            flowStep userMessage (appointmentState c0) = None) as Hnone.
  { intros c0 ->. unfold flowStep, appointmentState. by rewrite Ht, Hd, Htrig. }
  split.
  { pose proof (handleAppointmentFlow_spec rnd sid sid_truthy userMessage c w) as H.
    by rewrite (Hnone c eq_refl) in H. }
  intros Hc. rewrite (generateResponse_cached _ _ _ _ _ Hc).
  rewrite composeResponse_dispatch.
  destruct (contextAtDispatch_frame sid userMessage c) as (Hst & _ & _).
  destruct (worldAtDispatch_frame sid userMessage w) as (_ & Hem & _ & _).
  set (c1 := contextAtDispatch userMessage sid c) in *.
  set (w1 := worldAtDispatch userMessage sid w) in *.
  pose proof (Hnone c1 Hst) as Hn1.
  rewrite (dispatch_falls_through rnd sid sid_truthy) by (by right).
  destruct (trigger_is_appointment _ Htrig) as [-> _].
  replace (isIntent appointment emergency) with false by done.
  replace (isIntent appointment symptom) with false by done.
  destruct (askAI_spec ai userMessage c1 w1) as (-> & _ & He' & _ & _).
  set (w2 := (askAI ai userMessage c1 w1).2) in *.
  unfold topicPath.
  replace (isIntent appointment medication) with false by done.
  replace (isIntent appointment specialty) with false by done.
  replace (isIntent appointment wellness) with false by done.
  cbn [andb]. unfold standardPath.
  destruct (aiText ai userMessage c1) as [text|].
  - destruct (finishTurn_spec sid appointment (analyzeSentiment userMessage) true text
                ["Book Now"; "Find Doctor"; "Check Availability"] c1 w2)
      as ((Hs & (He & _) & _) & Ha & Hr & Hq & Hen).
    cbn [fst snd default]. unfold contextOf. rewrite Hs. cbn [fmap option_fmap option_map].
    rewrite Ha, Hst, Hr, Hq, Hen, He, He', Hem. done.
  - pose proof (handleAppointmentFlow_spec rnd sid sid_truthy userMessage c1 w2) as H.
    rewrite Hn1 in H. rewrite H.
    destruct (finishTurn_spec sid appointment (analyzeSentiment userMessage) false
                (pick rnd chatbotResponses.appointment)
                ["Book Now"; "Find Doctor"; "Check Availability"] c1 w2)
      as ((Hs & (He & _) & _) & Ha & Hr & Hq & Hen).
    cbn [fst snd default]. unfold contextOf. rewrite Hs. cbn [fmap option_fmap option_map].
    rewrite Ha, Hst, Hr, Hq, Hen, He, He', Hem. done.
Qed.

(** C8, as the code has it: from a session with no appointment asked-flag
    set, a turn sets [askedAppointmentType] exactly when the message is
    classified as an appointment request and either is a booking trigger
    (after lower-casing and trimming) or gets no text from the generative
    service; the date and reason flags stay false.  So a message of any
    other intent never starts the booking flow, while an appointment request
    that is not a trigger phrase starts it whenever no generated text is at
    hand. *)
Theorem flow_starts_from_idle_iff ai rnd userMessage w c :
  contextOf sid w = Some c ->
  inAppointmentFlow c = false ->
  let '(reply, w') := generateResponse ai rnd userMessage sid w in
  exists c',
    contextOf sid w' = Some c'
    /\ (askedAppointmentType c' = true <->
        detectIntent userMessage = appointment
        /\ (arrayIncludes bookingTriggers (trim (toLowerCase userMessage)) = true
            \/ aiText ai userMessage (contextAtDispatch userMessage sid c) = None))
    /\ askedAppointmentDate c' = false
    /\ askedAppointmentReason c' = false.
Proof.
  intros Hc Hin. rewrite (generateResponse_cached _ _ _ _ _ Hc).
  destruct (composeResponse_spec rnd sid sid_truthy ai userMessage c w) as (Hs & _ & Ha & _).
  eexists. split; [exact Hs|].
  rewrite (flowStep_idle userMessage c Hin) in Ha. cbn [default] in Ha.
  unfold consultsController in Ha. rewrite Hin in Ha. cbn [orb] in Ha.
  unfold inAppointmentFlow in Hin.
  apply orb_false_elim in Hin as [[Ht Hd]%orb_false_elim Hr].
  unfold appointmentState in Ha. rewrite Ht, Hd, Hr in Ha.
  destruct (isIntent (detectIntent userMessage) appointment) eqn:Ei; cbn [andb] in Ha.
  - apply bool_decide_eq_true in Ei.
    destruct (arrayIncludes bookingTriggers (trim (toLowerCase userMessage))) eqn:Et;
      cbn [orb] in Ha.
    + injection Ha as -> -> -> _ _ _. repeat split; auto.
    + destruct (aiText ai userMessage (contextAtDispatch userMessage sid c)) as [text|] eqn:Eai.
      * replace (bool_decide (Some text = None)) with false in Ha by done.
        injection Ha as -> -> -> _ _ _. repeat split; try done.
        intros (_ & [?|?]); done.
      * replace (bool_decide (None = None)) with true in Ha by done.
        injection Ha as -> -> -> _ _ _. repeat split; auto.
  - apply bool_decide_eq_false in Ei.
    injection Ha as -> -> -> _ _ _. repeat split; try done.
    intros (? & _); done.
Qed.

(** A turn on a cached session keeps every asked-flag that is set, except
    in the transition that completes a booking, which resets the
    appointment state as a whole. *)
Lemma cached_turn_keeps_asked_flags ai rnd userMessage w c :
  contextOf sid w = Some c ->
  exists c',
    contextOf sid (generateResponse ai rnd userMessage sid w).2 = Some c'
    /\ symptomFlagsKept c c'
    /\ ((askedAppointmentReason c = true /\ appointmentState c' = Idle)
        \/ ((askedAppointmentType c = true -> askedAppointmentType c' = true)
            /\ (askedAppointmentDate c = true -> askedAppointmentDate c' = true)
            /\ (askedAppointmentReason c = true -> askedAppointmentReason c' = true))).
Proof.
  intros Hc. rewrite (generateResponse_cached _ _ _ _ _ Hc). cbn [snd].
  destruct (composeResponse_spec rnd sid sid_truthy ai userMessage c w) as (Hs & Hk & Ha & _).
  eexists. split; [exact Hs|]. split; [exact Hk|].
  set (c' := (composeResponse ai rnd userMessage sid c w).1.2) in *.
  assert (appointmentState c' = appointmentState c
          \/ flowStep userMessage (appointmentState c) = Some (appointmentState c')) as [He|He].
  { destruct (consultsController ai userMessage sid c); [|by left].
    destruct (flowStep userMessage (appointmentState c)); [right|left]; by rewrite Ha. }
  - right. unfold appointmentState in He. by injection He as -> -> -> _ _ _.
  - unfold flowStep, appointmentState in He.
    destruct (askedAppointmentType c), (askedAppointmentDate c), (askedAppointmentReason c),
             (arrayIncludes bookingTriggers (toLowerCase userMessage));
      cbn [andb negb] in He; try discriminate;
      injection He as E1 E2 E3 E4 E5 E6;
      first [ left; split; [done|]; unfold appointmentState, Idle; congruence
            | right; rewrite <- ?E1, <- ?E2, <- ?E3; done ].
Qed.

End Turns.

(** ** Runs on sample sessions *)

(** C1 as stated fails: with the type question pending, the message
    [I have chest pain], which contains an emergency keyword and is
    classified as an emergency, is stored as the appointment type; the date
    question is now pending, no alert is raised and the reply is not an
    emergency text. *)
Lemma emergency_does_not_preempt_booking :
  let '(reply, w') := generateResponse noAI 0 "I have chest pain" "s1" typePendingWorld in
  appointmentState <$> contextOf "s1" typePendingWorld
  = Some (true, false, false, None, None, None)
  /\ includes (toLowerCase "I have chest pain") "chest pain" = true
  /\ detectIntent "I have chest pain" = emergency
  /\ appointmentState <$> contextOf "s1" w'
     = Some (true, true, false, Some "I have chest pain", None, None)
  /\ emitted w' = []
  /\ reply_triage reply = None
  /\ arrayIncludes chatbotResponses.emergency (response reply) = false.
Proof. by vm_compute. Qed.

(** C3 as stated fails: the same turn is classified as an emergency, yet
    no alert is emitted and the reply is the flow controller's question
    about the date, not an emergency text. *)
Lemma emergency_intent_in_flow_raises_no_alert :
  let '(reply, w') :=
    generateResponse noAI 0 "I have severe chest pain" "s1" typePendingWorld in
  detectIntent "I have severe chest pain" = emergency
  /\ emitted w' = []
  /\ reply_triage reply = None
  /\ arrayIncludes chatbotResponses.emergency (response reply) = false
  /\ quickActions reply = ["Tomorrow"; "Next Week"; "This Week"; "Cancel"].
Proof. by vm_compute. Qed.

(** C8 as stated fails: [I need an appointment] is no booking trigger, yet
    from a session with nothing asked, and no generated text at hand, the
    turn starts the booking flow. *)
Lemma appointment_request_starts_flow :
  let '(reply, w') := generateResponse noAI 0 "I need an appointment" "s1" idleWorld in
  appointmentState <$> contextOf "s1" idleWorld = Some Idle
  /\ arrayIncludes bookingTriggers (trim (toLowerCase "I need an appointment")) = false
  /\ detectIntent "I need an appointment" = appointment
  /\ askedAppointmentType <$> contextOf "s1" w' = Some true
  /\ quickActions reply = ["General Checkup"; "Specialist Visit"; "Follow-up"; "Emergency"].
Proof. by vm_compute. Qed.

(** C9 fails on a cold read: hydration never restores an appointment flag.
    After [Book Now] the cache and the store both hold
    [askedAppointmentType = true]; after a restart the context rebuilt from
    the store has the flag false, and the answer [General Checkup] is not
    taken as the appointment type: the type question is asked again. *)
Theorem cold_read_drops_appointment_flags :
  (forall dbSession messages, inAppointmentFlow (hydrate dbSession messages) = false)
  /\ let w1 := (chat noAI 0 "Book Now" "s1" emptyWorld).2 in
     let w2 := restart w1 in
     let w3 := (chat noAI 0 "General Checkup" "s1" w2).2 in
     askedAppointmentType <$> contextOf "s1" w1 = Some true
     /\ (md_askedAppointmentType ∘ db_metadata) <$> database.getSession "s1" (db w1)
        = Some (Some true)
     /\ askedAppointmentType <$> contextOf "s1" w2 = Some false
     /\ appointmentState <$> contextOf "s1" w3
        = Some (true, false, false, None, None, None).
Proof. split; [done|]. by vm_compute. Qed.

(** The symptom flags, by contrast, come back from the store as persisted. *)
Lemma cold_read_restores_symptom_flags dbSession messages :
  symptomFlags (hydrate dbSession messages)
  = (flagOr (md_askedDuration (db_metadata dbSession)),
     flagOr (md_askedSeverity (db_metadata dbSession)),
     flagOr (md_askedOtherSymptoms (db_metadata dbSession))).
Proof. reflexivity. Qed.

Lemma sample_sid_truthy : "s1" <> EmptyString.
Proof. discriminate. Defined.

Lemma in_flow_emergency_message_is_consumed_witness :
  let '(reply, w') := generateResponse noAI 0 "I have chest pain" "s1" typePendingWorld in
  exists c',
    contextOf "s1" w' = Some c'
    /\ appointmentState c' = (true, true, false, Some "I have chest pain", None, None)
    /\ appointmentState c' <> appointmentState typePending
    /\ reply_triage reply = None
    /\ emitted w' = emitted typePendingWorld
    /\ aiCalls w' = aiCalls typePendingWorld
    /\ emergencyCount (analytics w') = emergencyCount (analytics typePendingWorld).
Proof.
  apply (in_flow_emergency_message_is_consumed "s1" sample_sid_truthy noAI 0
           "I have chest pain" "chest pain" typePendingWorld typePending).
  - by vm_compute.
  - reflexivity.
  - simpl. auto.
  - reflexivity.
Defined.

Lemma emergency_intent_outside_flow_witness :
  let '(reply, w') :=
    generateResponse chattyAI 1 "I have severe chest pain" "s1" idleWorld in
  aiCalls w' = aiCalls idleWorld
  /\ response reply = pick 1 chatbotResponses.emergency
  /\ In (response reply) chatbotResponses.emergency
  /\ urgency <$> reply_triage reply = Some CRITICAL
  /\ emitted w' = emitted idleWorld ++ [emergencyAlert "I have severe chest pain" "s1"]
  /\ aiEnhanced reply = None.
Proof.
  apply (emergency_intent_outside_flow "s1" sample_sid_truthy chattyAI 1
           "I have severe chest pain" idleWorld).
  - by vm_compute.
  - intros c. vm_compute. by intros [= <-].
Defined.

Lemma booking_round_trip_witness :
  let w1 := (generateResponse noAI 0 "Book Now" "s1" idleWorld).2 in
  let w2 := (generateResponse chattyAI 1 "General Checkup" "s1" w1).2 in
  let w3 := (generateResponse noAI 2 "Tomorrow" "s1" w2).2 in
  let w4 := (generateResponse chattyAI 3 "Routine Checkup" "s1" w3).2 in
  appointmentState <$> contextOf "s1" w1 = Some (true, false, false, None, None, None)
  /\ appointmentState <$> contextOf "s1" w2
     = Some (true, true, false, Some "General Checkup", None, None)
  /\ appointmentState <$> contextOf "s1" w3
     = Some (true, true, true, Some "General Checkup", Some "Tomorrow", None)
  /\ appointmentState <$> contextOf "s1" w4 = Some Idle.
Proof.
  apply (booking_round_trip "s1" sample_sid_truthy noAI chattyAI noAI chattyAI 0 1 2 3
           "Book Now" "General Checkup" "Tomorrow" "Routine Checkup" idleWorld).
  - intros c. vm_compute. by intros [= <-].
  - reflexivity.
  - reflexivity.
Defined.

Lemma trigger_while_type_pending_witness :
  handleAppointmentFlow 0 "Book Now" typePending "s1" typePendingWorld
  = (None, typePending, typePendingWorld)
  /\ (contextOf "s1" typePendingWorld = Some typePending ->
      let '(reply, w') := generateResponse noAI 0 "Book Now" "s1" typePendingWorld in
      appointmentState <$> contextOf "s1" w' = Some (appointmentState typePending)
      /\ response reply
         = default (pick 0 chatbotResponses.appointment)
             (aiText noAI "Book Now" (contextAtDispatch "Book Now" "s1" typePending))
      /\ quickActions reply = ["Book Now"; "Find Doctor"; "Check Availability"]
      /\ aiEnhanced reply
         = Some (bool_decide (aiText noAI "Book Now"
                                (contextAtDispatch "Book Now" "s1" typePending) <> None))
      /\ emitted w' = emitted typePendingWorld).
Proof.
  apply (trigger_while_type_pending "s1" sample_sid_truthy noAI 0 "Book Now"
           typePending typePendingWorld); reflexivity.
Defined.

Lemma flow_starts_from_idle_iff_witness :
  let '(reply, w') := generateResponse noAI 0 "I need an appointment" "s1" idleWorld in
  exists c',
    contextOf "s1" w' = Some c'
    /\ (askedAppointmentType c' = true <->
        detectIntent "I need an appointment" = appointment
        /\ (arrayIncludes bookingTriggers (trim (toLowerCase "I need an appointment")) = true
            \/ aiText noAI "I need an appointment"
                 (contextAtDispatch "I need an appointment" "s1" (freshContext "s1")) = None))
    /\ askedAppointmentDate c' = false
    /\ askedAppointmentReason c' = false.
Proof.
  apply (flow_starts_from_idle_iff "s1" sample_sid_truthy noAI 0 "I need an appointment"
           idleWorld (freshContext "s1")).
  - by vm_compute.
  - reflexivity.
Defined.

(** * Further properties *)

(** ** Substrings and word boundaries *)

Section MatchingFacts.

Lemma sapp_nil s : EmptyString +:+ s = s.
Proof. reflexivity. Qed.

Lemma sapp_cons c p s : String c p +:+ s = String c (p +:+ s).
Proof. reflexivity. Qed.

Lemma prefix_iff p s : String.prefix p s = true <-> exists post, s = p +:+ post.
Proof.
  revert s. induction p as [|c p IH]; intros s.
  - split; [intros _; by exists s|]. intros _. by destruct s.
  - destruct s as [|d s]; simpl.
    + split; [done|]. by intros (post & ?).
    + destruct (ascii_dec c d) as [->|Hne].
      * rewrite IH. split; intros (post & Hp); exists post; [by rewrite Hp|].
        by injection Hp.
      * split; [done|]. intros (post & Hp). injection Hp as -> _. done.
Qed.

Lemma includes_iff s sub :
  includes s sub = true <-> exists pre post, s = pre +:+ sub +:+ post.
Proof.
  induction s as [|c s IH].
  - rewrite includes_nil, prefix_iff. split.
    + intros (post & ->). by exists EmptyString, post.
    + intros (pre & post & H). destruct pre; [by exists post|done].
  - rewrite includes_cons, orb_true_iff, prefix_iff, IH. split.
    + intros [(post & ->)|(pre & post & ->)].
      * by exists EmptyString, post.
      * by exists (String c pre), post.
    + intros (pre & post & H). destruct pre as [|d pre].
      * left. by exists post.
      * right. injection H as -> ->. by exists pre, post.
Qed.

Lemma get_after_prefix p post : String.get (String.length p) (p +:+ post) = firstChar post.
Proof. induction p as [|c p IH]; [done|]. simpl. exact IH. Qed.

Lemma lastChar_cons c p :
  lastChar (String c p) = match p with EmptyString => Some c | _ => lastChar p end.
Proof.
  unfold lastChar. simpl. destruct p as [|d p]; [done|]. simpl.
  reflexivity.
Qed.

Lemma altMatchesHere_iff s alt :
  altMatchesHere s alt = true <->
  exists post, s = alt +:+ post /\ boundary (lastChar alt) (firstChar post) = true.
Proof.
  unfold altMatchesHere. rewrite andb_true_iff, prefix_iff. split.
  - intros [(post & ->) Hb]. exists post. by rewrite get_after_prefix in Hb.
  - intros (post & -> & Hb). split; [by exists post|]. by rewrite get_after_prefix.
Qed.

(** The search for [\b(a1|...|an)\b] succeeds exactly when the string
    splits into a part before, an alternative and a part after, with a
    word boundary on either side of the alternative. *)
Lemma wordSearch_iff alts before s :
  wordSearch alts before s = true <->
  exists pre alt post,
    s = pre +:+ alt +:+ post /\ In alt alts
    /\ boundary (match pre with EmptyString => before | _ => lastChar pre end)
                (firstChar (alt +:+ post)) = true
    /\ boundary (lastChar alt) (firstChar post) = true.
Proof.
  revert before. induction s as [|c s IH]; intros before.
  - cbn [wordSearch]. rewrite orb_false_r, andb_true_iff, existsb_exists. split.
    + intros (Hb & alt & Hin & (post & Hs & Hb')%altMatchesHere_iff).
      exists EmptyString, alt, post. rewrite sapp_nil, <- Hs. done.
    + intros (pre & alt & post & Hs & Hin & Hb & Hb').
      destruct pre; [|done]. rewrite sapp_nil in Hs. rewrite <- Hs in Hb.
      split; [done|]. exists alt. split; [done|]. apply altMatchesHere_iff. by exists post.
  - cbn [wordSearch]. rewrite orb_true_iff, andb_true_iff, existsb_exists, IH. split.
    + intros [(Hb & alt & Hin & (post & Hs & Hb')%altMatchesHere_iff)
             |(pre & alt & post & Hs & Hin & Hb & Hb')].
      * exists EmptyString, alt, post. rewrite sapp_nil, <- Hs. done.
      * exists (String c pre), alt, post. rewrite lastChar_cons, sapp_cons.
        rewrite Hs. done.
    + intros (pre & alt & post & Hs & Hin & Hb & Hb'). destruct pre as [|d pre].
      * left. rewrite sapp_nil in Hs. rewrite <- Hs in Hb. split; [done|].
        exists alt. split; [done|]. apply altMatchesHere_iff. by exists post.
      * right. rewrite sapp_cons in Hs. injection Hs as -> ->.
        exists pre, alt, post. rewrite lastChar_cons in Hb. done.
Qed.

End MatchingFacts.

(** ** Intent classifier and triage ladder *)

Section LadderFacts.

Variables (text : string) (info : SymptomInfo) (a : Analytics).

Lemma lastChar_nil_or pre :
  match pre with EmptyString => None | _ => lastChar pre end = lastChar pre.
Proof. by destruct pre. Qed.

(** [detectIntent] answers emergency exactly when one of the emergency
    words or phrases stands in the lower-cased, trimmed message between two
    word boundaries, whatever other category the rest of the message would
    match. *)
Theorem detectIntent_emergency_iff (userMessage : string) :
  detectIntent userMessage = emergency <->
  exists pre word post,
    trim (toLowerCase userMessage) = pre +:+ word +:+ post
    /\ In word emergencyWords
    /\ boundary (lastChar pre) (firstChar (word +:+ post)) = true
    /\ boundary (lastChar word) (firstChar post) = true.
Proof.
  assert (testWords emergencyWords (trim (toLowerCase userMessage)) = true <->
          exists pre word post,
            trim (toLowerCase userMessage) = pre +:+ word +:+ post
            /\ In word emergencyWords
            /\ boundary (lastChar pre) (firstChar (word +:+ post)) = true
            /\ boundary (lastChar word) (firstChar post) = true) as <-.
  { unfold testWords. rewrite wordSearch_iff.
    split; intros (pre & word & post & H); exists pre, word, post;
      by rewrite lastChar_nil_or in *. }
  unfold detectIntent, intents. cbn [List.find snd].
  change (testWords _ (trim (toLowerCase userMessage)))
    with (testWords emergencyWords (trim (toLowerCase userMessage))) at 1.
  destruct (testWords emergencyWords (trim (toLowerCase userMessage))); [done|].
  split; [|done].
  repeat match goal with |- context [if ?b then _ else _] => destruct b end; done.
Qed.

(** The ladder as a whole: either an emergency keyword is present, the
    result is the emergency rung and the counter goes up by one; or none
    is, the counter is left alone and the result is one of the three other
    rungs. *)
Lemma performTriage_rungs :
  let x := performTriage text info a in
  (existsb (fun keyword => includes (toLowerCase text) keyword)
           (keywords triageLevels.emergency) = true
   /\ x = ({| triageLevel := Some lvl_emergency; priority := 1;
              action := Some "Call 911 immediately"; urgency := CRITICAL |},
           bumpEmergency a))
  \/ (existsb (fun keyword => includes (toLowerCase text) keyword)
              (keywords triageLevels.emergency) = false
      /\ x.2 = a
      /\ (x.1 = {| triageLevel := Some lvl_urgent; priority := 2;
                   action := Some "Seek emergency care or urgent care within hours";
                   urgency := HIGH |}
          \/ x.1 = {| triageLevel := Some lvl_moderate; priority := 3;
                      action := Some "Schedule appointment within 24-48 hours";
                      urgency := MEDIUM |}
          \/ x.1 = {| triageLevel := Some lvl_routine; priority := 4;
                      action := Some "Schedule routine appointment"; urgency := LOW |})).
Proof.
  unfold performTriage.
  destruct (existsb _ (keywords triageLevels.emergency)); [by left|right].
  split; [done|].
  destruct (existsb _ (keywords triageLevels.urgent)); [by auto|].
  destruct (truthy (severity info) && arrayIncludes ["severe"; "intense"; "extreme"] _);
    [by auto|].
  destruct (truthy (severity info) && arrayIncludes ["moderate"] _); [by auto 6|].
  destruct (truthy (duration info)); [|by auto 6].
  destruct (matchDuration _) as [[digits unit]|]; [|by auto 6].
  destruct (_ || _); by auto 6.
Qed.

(** Level, priority, action and urgency always go together as one of the
    four configured rungs, and the emergency counter moves exactly on the
    emergency rung. *)
Theorem performTriage_result_is_a_rung :
  let '(result, a') := performTriage text info a in
  In (triageLevel result, priority result, action result, urgency result)
     [(Some lvl_emergency, 1, Some "Call 911 immediately", CRITICAL);
      (Some lvl_urgent, 2, Some "Seek emergency care or urgent care within hours", HIGH);
      (Some lvl_moderate, 3, Some "Schedule appointment within 24-48 hours", MEDIUM);
      (Some lvl_routine, 4, Some "Schedule routine appointment", LOW)]
  /\ emergencyCount a' =
     match urgency result with
     | CRITICAL => S (emergencyCount a)
     | _ => emergencyCount a
     end.
Proof.
  pose proof performTriage_rungs as H. cbv zeta in H.
  destruct (performTriage text info a) as [result a'].
  destruct H as [(_ & H)|(_ & Ha & H)]; cbn [fst snd] in *.
  - injection H as -> ->. split; [simpl; tauto|done].
  - subst a'. destruct H as [ -> | [ -> | -> ] ]; (split; [simpl; tauto|done]).
Qed.

(** The emergency rung is taken exactly when the lower-cased text can be
    split around one of the emergency keywords. *)
Theorem performTriage_emergency_iff :
  triageLevel (performTriage text info a).1 = Some lvl_emergency <->
  exists keyword pre post,
    In keyword (keywords triageLevels.emergency)
    /\ toLowerCase text = pre +:+ keyword +:+ post.
Proof.
  pose proof performTriage_rungs as H. cbv zeta in H.
  assert (existsb (fun keyword => includes (toLowerCase text) keyword)
            (keywords triageLevels.emergency) = true <->
          exists keyword pre post,
            In keyword (keywords triageLevels.emergency)
            /\ toLowerCase text = pre +:+ keyword +:+ post) as <-.
  { rewrite existsb_exists. split.
    - intros (k & Hk & (pre & post & Hs)%includes_iff). by exists k, pre, post.
    - intros (k & pre & post & Hk & Hs). exists k. split; [done|].
      apply includes_iff. by exists pre, post. }
  destruct H as [[-> ->]|(-> & _ & [ -> | [ -> | -> ] ])]; done.
Qed.

(** Without any keyword in the text, a severity of severe, intense or
    extreme gives the urgent rung and a severity of moderate the moderate
    rung, whatever the duration says. *)
Theorem severity_decides_without_keywords (s : string) :
  (forall keyword,
     In keyword (keywords triageLevels.emergency ++ keywords triageLevels.urgent) ->
     includes (toLowerCase text) keyword = false) ->
  severity info = Some s ->
  (In (toLowerCase s) ["severe"; "intense"; "extreme"] ->
   performTriage text info a =
   ({| triageLevel := Some lvl_urgent; priority := 2;
       action := Some "Seek emergency care or urgent care within hours";
       urgency := HIGH |}, a))
  /\ (toLowerCase s = "moderate" ->
      performTriage text info a =
      ({| triageLevel := Some lvl_moderate; priority := 3;
          action := Some "Schedule appointment within 24-48 hours";
          urgency := MEDIUM |}, a)).
Proof.
  intros Hk Hs.
  assert (toLowerCase s <> EmptyString -> truthy (severity info) = true) as Ht.
  { rewrite Hs. destruct s; done. }
  split; intros Hin; unfold performTriage;
    rewrite !existsb_includes_false by (intros k Hin'; apply Hk, in_or_app; auto);
    rewrite Hs, orElse_Some_empty, <- Hs.
  - rewrite Ht by (intros E; rewrite E in Hin; simpl in Hin;
                   repeat (destruct Hin as [Hin|Hin]; [discriminate|]); done).
    by rewrite (proj2 (arrayIncludes_In _ _) Hin).
  - rewrite Ht by (by rewrite Hin). by rewrite Hin.
Qed.

End LadderFacts.

Lemma performTriage_urgent_keyword_witness :
  performTriage "High fever since yesterday"
    {| symptoms := ["fever"]; duration := Some "3 months"; severity := Some "mild" |}
    {| totalConversations := 0; totalMessages := 0; emergencyCount := 2 |}
  = ({| triageLevel := Some lvl_urgent; priority := 2;
        action := Some "Seek emergency care or urgent care within hours"; urgency := HIGH |},
     {| totalConversations := 0; totalMessages := 0; emergencyCount := 2 |}).
Proof.
  apply performTriage_urgent_keyword.
  - intros k Hk. simpl in Hk. repeat (destruct Hk as [<-|Hk]; [reflexivity|]). done.
  - exists "high fever". split; [simpl; auto|reflexivity].
Defined.

Lemma severity_decides_without_keywords_witness :
  performTriage "my back hurts"
    {| symptoms := []; duration := Some "1 day"; severity := Some "Intense" |}
    {| totalConversations := 0; totalMessages := 0; emergencyCount := 0 |} =
  ({| triageLevel := Some lvl_urgent; priority := 2;
      action := Some "Seek emergency care or urgent care within hours";
      urgency := HIGH |},
   {| totalConversations := 0; totalMessages := 0; emergencyCount := 0 |})
  /\ performTriage "my back hurts"
       {| symptoms := []; duration := Some "5 months"; severity := Some "Moderate" |}
       {| totalConversations := 0; totalMessages := 0; emergencyCount := 0 |} =
     ({| triageLevel := Some lvl_moderate; priority := 3;
         action := Some "Schedule appointment within 24-48 hours";
         urgency := MEDIUM |},
      {| totalConversations := 0; totalMessages := 0; emergencyCount := 0 |}).
Proof.
  split.
  - apply (proj1 (severity_decides_without_keywords "my back hurts"
                    {| symptoms := []; duration := Some "1 day"; severity := Some "Intense" |}
                    {| totalConversations := 0; totalMessages := 0; emergencyCount := 0 |}
                    "Intense"
                    ltac:(intros k Hk; simpl in Hk;
                          repeat (destruct Hk as [<-|Hk]; [reflexivity|]); done)
                    eq_refl)).
    simpl. auto.
  - apply (proj2 (severity_decides_without_keywords "my back hurts"
                    {| symptoms := []; duration := Some "5 months";
                       severity := Some "Moderate" |}
                    {| totalConversations := 0; totalMessages := 0; emergencyCount := 0 |}
                    "Moderate"
                    ltac:(intros k Hk; simpl in Hk;
                          repeat (destruct Hk as [<-|Hk]; [reflexivity|]); done)
                    eq_refl)).
    reflexivity.
Defined.

(** ** The duration rung *)

Section DurationFacts.

Lemma isDigit_lowerChar c : isDigit (lowerChar c) = isDigit c.
Proof. destruct c as [[] [] [] [] [] [] [] []]; reflexivity. Qed.

Lemma isSpace_lowerChar c : isSpace (lowerChar c) = isSpace c.
Proof. destruct c as [[] [] [] [] [] [] [] []]; reflexivity. Qed.

Lemma no_digit_toLowerCase s :
  allChars (fun c => negb (isDigit c)) (toLowerCase s)
  = allChars (fun c => negb (isDigit c)) s.
Proof. induction s as [|c s IH]; [done|]. simpl. by rewrite isDigit_lowerChar, IH. Qed.

Lemma matchDuration_no_digit s :
  allChars (fun c => negb (isDigit c)) s = true -> matchDuration s = None.
Proof.
  induction s as [|c s IH]; [done|]. simpl.
  intros [Hc Hs]%andb_prop. apply negb_true_iff in Hc. rewrite Hc. auto.
Qed.

Lemma dropWhile_digits ds rest :
  allChars isDigit ds = true -> dropWhile isDigit (ds +:+ String " " rest) = String " " rest.
Proof.
  induction ds as [|c ds IH]; [done|]. simpl. intros [-> Hs]%andb_prop. auto.
Qed.

Lemma takeWhile_digits ds rest :
  allChars isDigit ds = true -> takeWhile isDigit (ds +:+ String " " rest) = ds.
Proof.
  induction ds as [|c ds IH]; [done|]. simpl. intros [-> Hs]%andb_prop. by rewrite IH.
Qed.

(** A unit word starts with a letter and has no digit in it. *)
Lemma unit_word unit :
  In (toLowerCase unit) timeUnits ->
  dropWhile isSpace unit = unit
  /\ allChars (fun c => negb (isDigit c)) unit = true.
Proof.
  intros Hin. split.
  - destruct unit as [|c u]; [done|]. simpl.
    destruct (isSpace c) eqn:Ec; [|done]. exfalso.
    rewrite <- isSpace_lowerChar in Ec. simpl in Hin.
    repeat (destruct Hin as [Hin|Hin];
            [injection Hin as Hc _; rewrite <- Hc in Ec; discriminate|]).
    done.
  - rewrite <- no_digit_toLowerCase. simpl in Hin.
    repeat (destruct Hin as [<-|Hin]; [reflexivity|]). done.
Qed.

Lemma matchDuration_unmatched ds unit :
  allChars isDigit ds = true ->
  dropWhile isSpace unit = unit ->
  allChars (fun c => negb (isDigit c)) unit = true ->
  firstAlt (fun u => String.prefix u (toLowerCase unit)) durationUnits = None ->
  matchDuration (ds +:+ String " " unit) = None.
Proof.
  intros Hds Hsp Hnd Hnone. induction ds as [|c ds IH].
  - apply matchDuration_no_digit. simpl. exact Hnd.
  - pose proof Hds as Hds'. simpl in Hds. apply andb_prop in Hds as [Hc Hds].
    rewrite sapp_cons. cbn [matchDuration]. rewrite Hc.
    rewrite <- sapp_cons, (dropWhile_digits _ _ Hds'). cbn [dropWhile].
    replace (isSpace " ") with true by done. rewrite Hsp, Hnone. auto.
Qed.

Lemma matchDuration_formatted ds unit :
  ds <> EmptyString ->
  allChars isDigit ds = true ->
  In (toLowerCase unit) timeUnits ->
  matchDuration (ds +:+ String " " unit)
  = match firstAlt (fun u => String.prefix u (toLowerCase unit)) durationUnits with
    | Some u => Some (ds, u)
    | None => None
    end.
Proof.
  intros Hne Hds [Hsp Hnd]%unit_word.
  destruct (firstAlt _ durationUnits) as [u|] eqn:Ef.
  - destruct ds as [|c ds]; [done|].
    pose proof Hds as Hds'. simpl in Hds. apply andb_prop in Hds as [Hc _].
    rewrite sapp_cons. cbn [matchDuration]. rewrite Hc.
    rewrite <- sapp_cons, (dropWhile_digits _ _ Hds'), (takeWhile_digits _ _ Hds').
    cbn [dropWhile]. replace (isSpace " ") with true by done. by rewrite Hsp, Ef.
  - by apply matchDuration_unmatched.
Qed.

(** With no keyword in the text and no listed severity, a duration written
    as a number, a space and a unit (as [extractSymptomInfo] writes it)
    gives the moderate rung for two weeks or more and for any number of
    months, and the routine rung for hours, days and a single week. *)
Theorem duration_rung text info a digits unit :
  (forall keyword,
     In keyword (keywords triageLevels.emergency ++ keywords triageLevels.urgent) ->
     includes (toLowerCase text) keyword = false) ->
  (forall s, severity info = Some s ->
             ~ In (toLowerCase s) ["severe"; "intense"; "extreme"; "moderate"]) ->
  digits <> EmptyString ->
  allChars isDigit digits = true ->
  In (toLowerCase unit) timeUnits ->
  duration info = Some (digits +:+ " " +:+ unit) ->
  performTriage text info a =
  (if (arrayIncludes ["week"; "weeks"] (toLowerCase unit) && (2 <=? parseInt digits)%N)
      || arrayIncludes ["month"; "months"] (toLowerCase unit)
   then {| triageLevel := Some lvl_moderate; priority := 3;
           action := Some "Schedule appointment within 24-48 hours"; urgency := MEDIUM |}
   else {| triageLevel := Some lvl_routine; priority := 4;
           action := Some "Schedule routine appointment"; urgency := LOW |},
   a).
Proof.
  intros Hk Hs Hne Hds Hu Hd. unfold performTriage.
  rewrite !existsb_includes_false by (intros k Hin; apply Hk, in_or_app; auto).
  assert (forall l, (forall x, In x l -> In x ["severe"; "intense"; "extreme"; "moderate"]) ->
            truthy (severity info)
            && arrayIncludes l (toLowerCase (orElse (severity info) EmptyString)) = false)
    as Hsev.
  { intros l Hl. destruct (severity info) as [s|] eqn:Es; [|done].
    rewrite orElse_Some_empty. apply andb_false_intro2, not_true_is_false.
    intros Hin%arrayIncludes_In. apply (Hs s eq_refl), Hl, Hin. }
  rewrite !Hsev by (simpl; tauto).
  rewrite Hd, orElse_Some_empty.
  replace (truthy (Some (digits +:+ " " +:+ unit))) with true by (by destruct digits).
  change (digits +:+ " " +:+ unit) with (digits +:+ String " " unit).
  rewrite (matchDuration_formatted _ _ Hne Hds Hu).
  simpl in Hu.
  repeat (destruct Hu as [<-|Hu];
          [cbn; destruct (2 <=? parseInt digits)%N; reflexivity|]).
  done.
Qed.

End DurationFacts.

Lemma duration_rung_witness :
  performTriage "it comes and goes"
    {| symptoms := []; duration := Some ("3" +:+ " " +:+ "Weeks"); severity := Some "mild" |}
    {| totalConversations := 0; totalMessages := 0; emergencyCount := 0 |} =
  (if (arrayIncludes ["week"; "weeks"] (toLowerCase "Weeks") && (2 <=? parseInt "3")%N)
      || arrayIncludes ["month"; "months"] (toLowerCase "Weeks")
   then {| triageLevel := Some lvl_moderate; priority := 3;
           action := Some "Schedule appointment within 24-48 hours"; urgency := MEDIUM |}
   else {| triageLevel := Some lvl_routine; priority := 4;
           action := Some "Schedule routine appointment"; urgency := LOW |},
   {| totalConversations := 0; totalMessages := 0; emergencyCount := 0 |}).
Proof.
  apply duration_rung.
  - intros k Hk. simpl in Hk. repeat (destruct Hk as [<-|Hk]; [reflexivity|]). done.
  - intros s [= <-]. simpl. intros H.
    repeat (destruct H as [H|H]; [discriminate|]). done.
  - discriminate.
  - reflexivity.
  - simpl. auto 10.
  - reflexivity.
Defined.

(** ** Letter case *)

Section CaseFacts.





Lemma length_toLowerCase s : String.length (toLowerCase s) = String.length s.
Proof. induction s as [|c s IH]; [done|]. simpl. by rewrite IH. Qed.

Lemma get_toLowerCase n s : String.get n (toLowerCase s) = lowerChar <$> String.get n s.
Proof.
  revert n. induction s as [|c s IH]; intros n; [done|].
  destruct n as [|n]; [done|]. simpl. apply IH.
Qed.


Lemma lastChar_toLowerCase s : lastChar (toLowerCase s) = lowerChar <$> lastChar s.
Proof.
  unfold lastChar. rewrite length_toLowerCase.
  destruct (String.length s); [done|apply get_toLowerCase].
Qed.



Section Classes.

Variable p : ascii -> bool.
Hypothesis p_lowered : forall c, p (lowerChar c) = p c.



End Classes.






(** The time expressions do depend on the letter case of the message. *)
Example timeExpressions_keep_letter_case :
  ent_timeExpressions (extractEntities "pain for 3 Days") = ["3 Days"]
  /\ ent_timeExpressions (extractEntities (toLowerCase "pain for 3 Days")) = ["3 days"]
  /\ ent_numbers (extractEntities "pain for 3 Days") = [3%N].
Proof. by vm_compute. Qed.

End CaseFacts.

(** ** More on the interaction checker *)

Section MoreInteractionFacts.

Lemma omap_length (f : string -> option Interaction) (l : list string) :
  List.length (omap f l) <= List.length l.
Proof.
  induction l as [|x l IH]; [done|]. cbn [omap list_omap].
  destruct (f x); simpl; lia.
Qed.

Lemma forwardRecords_length (medications : list string) :
  2 * List.length (forwardRecords medications)
  <= List.length medications * (List.length medications - 1).
Proof.
  induction medications as [|m later IH]; [simpl; lia|].
  rewrite forwardRecords_cons, length_app.
  pose proof (omap_length (fun m2 => forwardRecord (m, m2)) later). simpl. nia.
Qed.

(** The checker reports at most one interaction per unordered pair of
    positions, hence none for a list of fewer than two medications, on which
    it always returns; a list on which it throws has at least two names. *)
Theorem interactions_bounded_by_pairs (medications : list string) :
  match checkMedicationInteractions medications with
  | Some check =>
      2 * List.length (interactions check)
      <= List.length medications * (List.length medications - 1)
  | None => 2 <= List.length medications
  end
  /\ (List.length medications <= 1 ->
      checkMedicationInteractions medications
      = Some {| interactions := []; warnings := [] |}).
Proof.
  pose proof (checkFrom_spec medications {| interactions := []; warnings := [] |}) as H.
  fold (checkMedicationInteractions medications) in H.
  pose proof (forwardRecords_length medications) as Hlen.
  assert (inheritedBeforeLast medications -> 2 <= List.length medications) as Htwo.
  { intros (earlier & name & [|x later] & -> & Hne & _); [done|].
    rewrite length_app. simpl. lia. }
  destruct (checkMedicationInteractions medications) as [[inter warns]|].
  - destruct H as (_ & Hi & Hw). cbn [interactions warnings app] in Hi, Hw. subst.
    split; [exact Hlen|]. intros Hshort.
    destruct (forwardRecords medications) as [|r rs]; [done|]. simpl in Hlen. lia.
  - split; [by apply Htwo|]. intros Hshort. apply Htwo in H. lia.
Qed.

Lemma checkAgainst_lowered med1 info (later : list string) acc :
  checkAgainst med1 info (map toLowerCase later) acc = checkAgainst med1 info later acc.
Proof.
  revert acc. induction later as [|m later IH]; intros acc; [done|].
  cbn [map]. rewrite !checkAgainst_cons, toLowerCase_idem. apply IH.
Qed.

Lemma checkFrom_lowered (medications : list string) acc :
  checkFrom (map toLowerCase medications) acc = checkFrom medications acc.
Proof.
  revert acc. induction medications as [|m later IH]; intros acc; [done|].
  cbn [map checkFrom]. rewrite toLowerCase_idem.
  destruct (lookupMedication (toLowerCase m)).
  - by rewrite checkAgainst_lowered, IH.
  - by destruct later.
  - apply IH.
Qed.

(** Medication names are compared in lower case: the letter case in which
    they are given changes neither the records nor the warnings. *)
Theorem interactions_ignore_letter_case (medications : list string) :
  checkMedicationInteractions (map toLowerCase medications)
  = checkMedicationInteractions medications.
Proof. apply checkFrom_lowered. Qed.

(** For two medications that the entity extractor can produce, the check
    returns in either order, and whether a warning is given does not depend
    on the order in which they are listed. *)
Theorem extracted_pair_order_is_immaterial (a b : string) :
  In a medicationPatterns -> In b medicationPatterns ->
  exists ab ba,
    checkMedicationInteractions [a; b] = Some ab
    /\ checkMedicationInteractions [b; a] = Some ba
    /\ (warnings ab = [] <-> warnings ba = []).
Proof.
  intros Ha Hb. simpl in Ha, Hb.
  repeat (destruct Ha as [<-|Ha];
          [repeat (destruct Hb as [<-|Hb];
                   [eexists _, _; split; [by vm_compute|]; split; [by vm_compute|];
                    by split|]); done|]).
  done.
Qed.

End MoreInteractionFacts.

Lemma interactions_bounded_by_pairs_witness :
  match checkMedicationInteractions ["warfarin"] with
  | Some check =>
      2 * List.length (interactions check)
      <= List.length ["warfarin"] * (List.length ["warfarin"] - 1)
  | None => 2 <= List.length ["warfarin"]
  end
  /\ checkMedicationInteractions ["warfarin"] = Some {| interactions := []; warnings := [] |}.
Proof.
  destruct (interactions_bounded_by_pairs ["warfarin"]) as [Hbound Hshort].
  split; [exact Hbound|]. apply Hshort. simpl. lia.
Defined.

Lemma extracted_pair_order_is_immaterial_witness :
  exists ab ba,
    checkMedicationInteractions ["warfarin"; "aspirin"] = Some ab
    /\ checkMedicationInteractions ["aspirin"; "warfarin"] = Some ba
    /\ (warnings ab = [] <-> warnings ba = []).
Proof.
  apply (extracted_pair_order_is_immaterial "warfarin" "aspirin"); simpl; auto 10.
Defined.

(** ** Replies and history *)

Section ReplyFacts.

Variables (rnd : nat) (sid : string).
Hypothesis sid_truthy : sid <> EmptyString.

Lemma nonempty_of_eqb s : String.eqb s EmptyString = false -> s <> EmptyString.
Proof. by intros H%String.eqb_neq. Qed.

Lemma pick_nonempty n variants :
  forallb (fun s => negb (String.eqb s EmptyString)) variants = true ->
  variants <> [] ->
  pick n variants <> EmptyString.
Proof.
  intros Hall Hne. pose proof (pick_In n variants Hne) as Hin.
  rewrite forallb_forall in Hall. specialize (Hall _ Hin).
  apply negb_true_iff in Hall. by apply nonempty_of_eqb.
Qed.

Lemma handleAppointmentFlow_reply message c w reply c' w' :
  handleAppointmentFlow rnd message c sid w = (Some reply, c', w') ->
  repliesAdded c c' [response reply]
  /\ response reply <> EmptyString
  /\ quickActions reply <> [].
Proof.
  unfold handleAppointmentFlow, startAppointmentFlow, repliesAdded.
  set (sid' := if String.eqb sid EmptyString && truthy (sessionId c) then _ else _).
  destruct (arrayIncludes bookingTriggers (toLowerCase message) && negb (askedAppointmentType c)).
  { intros [= <- <- <-]. cbn [response quickActions plainReply].
    split; [done|]. split; [|done]. by apply nonempty_of_eqb, append_nonempty. }
  destruct (askedAppointmentType c && negb (askedAppointmentDate c)).
  { destruct (negb (arrayIncludes bookingTriggers (toLowerCase message))); [|done].
    intros [= <- <- <-]. cbn [response quickActions plainReply].
    split; [done|]. split; [|done]. by apply nonempty_of_eqb, append_nonempty. }
  destruct (askedAppointmentDate c && negb (askedAppointmentReason c)).
  { intros [= <- <- <-]. cbn [response quickActions plainReply].
    split; [done|]. split; [|done]. by apply nonempty_of_eqb, append_nonempty. }
  destruct (askedAppointmentReason c).
  { intros [= <- <- <-]. cbn [response quickActions plainReply].
    split; [done|]. split; [|done]. by apply nonempty_of_eqb, append_nonempty. }
  destruct (negb (askedAppointmentType c)); [|done].
  intros [= <- <- <-]. cbn [response quickActions plainReply].
  split; [done|]. split; [|done]. by apply nonempty_of_eqb, append_nonempty.
Qed.

Lemma finishTurn_reply intent sentiment wasAI text actions c w :
  let x := finishTurn intent sentiment wasAI text actions sid c w in
  repliesAdded c x.1.2 [text] /\ response x.1.1 = text /\ quickActions x.1.1 = actions.
Proof. unfold finishTurn, repliesAdded. done. Qed.

Lemma emergencyPath_reply userMessage c w :
  let x := emergencyPath rnd userMessage sid c w in
  repliesAdded c x.1.2 [response x.1.1]
  /\ response x.1.1 <> EmptyString
  /\ quickActions x.1.1 <> [].
Proof.
  unfold emergencyPath, repliesAdded. cbn [fst snd response quickActions].
  split; [done|]. split; [|done]. by apply pick_nonempty.
Qed.


Lemma disclaimer_nonempty : String.eqb disclaimer EmptyString = false.
Proof. reflexivity. Qed.

Lemma generateSymptomAssessment_reply message c a :
  let x := generateSymptomAssessment message c a in
  repliesAdded c x.1.2 []
  /\ (forall asmt, x.1.1 = Some asmt ->
        as_response asmt <> EmptyString /\ as_quickActions asmt <> [])
  /\ (x.1.1 = None <-> symptoms (extractSymptomInfo message) = []).
Proof.
  unfold generateSymptomAssessment, repliesAdded.
  destruct (performTriage message (extractSymptomInfo message) a) as [t a'].
  destruct (symptoms (extractSymptomInfo message)) as [|symptom0 rest].
  { cbn [fst snd]. rewrite app_nil_r. done. }
  destruct c as [h topic aD aS aO aT aDt aR ty da re si ui].
  cbn [askedDuration askedSeverity askedOtherSymptoms].
  destruct (truthy (duration (extractSymptomInfo message))),
           (truthy (severity (extractSymptomInfo message))), aD, aS, aO;
    cbn [negb andb fst snd]; rewrite app_nil_r;
    (split; [done|]; split; [|done]);
    intros asmt [= <-]; cbn [as_response as_quickActions];
    (split; [by apply nonempty_of_eqb, append_nonempty, disclaimer_nonempty
            |by destruct (isPressing (urgency t))]).
Qed.

Lemma symptomPath_reply aiResponse userMessage entities sentiment warns c w :
  let x := symptomPath aiResponse rnd userMessage sid entities sentiment warns c w in
  (exists text, repliesAdded c x.1.2 [text])
  /\ response x.1.1 <> EmptyString
  /\ quickActions x.1.1 <> [].
Proof.
  unfold symptomPath.
  pose proof (generateSymptomAssessment_reply userMessage c (analytics w)) as H.
  destruct (generateSymptomAssessment userMessage c (analytics w)) as [[assessment c'] a'].
  cbn [fst snd] in H. destruct H as ((Hh & Hu & Ht & Hs) & Hasmt & _).
  rewrite app_nil_r in Hh.
  assert (forall text, repliesAdded c (pushTurn (botTurn text) c') [text]) as Hadd.
  { intros text. unfold repliesAdded. cbn. by rewrite Hh, Hu, Ht, Hs. }
  destruct aiResponse as [text|]; [|destruct assessment as [asmt|]]; cbn [fst snd].
  - split; [eexists; apply Hadd|]. cbn [response quickActions]. split; [|done].
    by apply nonempty_of_eqb, append_nonempty, disclaimer_nonempty.
  - destruct (Hasmt asmt eq_refl) as [Hr Hq].
    split; [eexists; apply Hadd|]. cbn [response quickActions]. split.
    + destruct warns; [done|]. destruct (as_response asmt); done.
    + by destruct (as_quickActions asmt).
  - split; [eexists; apply Hadd|]. cbn [response quickActions]. split; [|done].
    by apply pick_nonempty.
Qed.

(** The [switch]: its reply is recorded once, or twice when the flow
    controller has already recorded it; the list of quick actions is empty
    only for a goodbye answered from the canned texts. *)
Lemma standardPath_reply aiResponse intent sentiment message c w :
  aiResponse <> Some EmptyString ->
  let x := standardPath aiResponse rnd intent sentiment message sid c w in
  (exists texts, texts <> [] /\ repliesAdded c x.1.2 texts)
  /\ response x.1.1 <> EmptyString
  /\ (quickActions x.1.1 = [] <-> intent = goodbye /\ aiResponse = None).
Proof.
  intros Hai. unfold standardPath.
  assert (forall wasAI text actions,
            text <> EmptyString ->
            let x := finishTurn intent sentiment wasAI text actions sid c w in
            (exists texts, texts <> [] /\ repliesAdded c x.1.2 texts)
            /\ response x.1.1 <> EmptyString
            /\ (quickActions x.1.1 = [] <-> actions = [])) as Hfin.
  { intros wasAI text actions Hne.
    destruct (finishTurn_reply intent sentiment wasAI text actions c w) as (Ha & Hr & Hq).
    cbv zeta. rewrite Hr, Hq. split; [by exists [text]|done]. }
  destruct aiResponse as [text|].
  { assert (text <> EmptyString) as Hne by congruence.
    destruct (Hfin true text
                match intent with
                | greeting => ["Check Symptoms"; "Schedule Appointment"; "Wellness Tips"]
                | help => ["Symptoms"; "Appointments"; "Medications"; "Wellness"]
                | appointment => ["Book Now"; "Find Doctor"; "Check Availability"]
                | medication => ["Find Pharmacy"; "Contact Doctor"]
                | wellness => ["Nutrition Tips"; "Exercise Guide"; "Sleep Advice"]
                | _ => ["Get Help"; "Find Doctor"]
                end Hne) as (H1 & H2 & H3).
    split; [exact H1|]. split; [exact H2|]. rewrite H3.
    by destruct intent; (split; [|intros [_ ?]]). }
  destruct intent;
    try (match goal with
         | |- context [finishTurn ?i ?s ?b ?t ?q sid c w] =>
             assert (t <> EmptyString) as Hne
               by first [ by apply pick_nonempty
                        | by destruct (2 <? List.length (conversationHistory c))%nat;
                          [|apply pick_nonempty] ];
             destruct (Hfin b t q Hne) as (H1 & H2 & H3);
             split; [exact H1|]; split; [exact H2|]; rewrite H3;
             by (split; [|intros [? _]])
         end).
  destruct (handleAppointmentFlow rnd message c sid w) as [[flow c'] w'] eqn:Eflow.
  destruct flow as [flow|].
  - destruct (handleAppointmentFlow_reply _ _ _ _ _ _ Eflow)
      as ((Hh & Hu & Ht & Hs) & Hr & Hq).
    cbn [fst snd response quickActions plainReply]. split; [|split; [done|]].
    + exists [response flow; response flow]. split; [done|].
      unfold repliesAdded. cbn. rewrite Hh, Hu, Ht, Hs. by rewrite <- app_assoc.
    + by destruct (quickActions flow); (split; [|intros [? _]]).
  - assert (c' = c /\ w' = w) as [-> ->].
    { pose proof (handleAppointmentFlow_spec rnd sid sid_truthy message c w) as H.
      destruct (flowStep message (appointmentState c)).
      - destruct H as (? & ? & ? & H & _). rewrite H in Eflow. done.
      - rewrite H in Eflow. by injection Eflow. }
    assert (pick rnd chatbotResponses.appointment <> EmptyString) as Hne
      by (by apply pick_nonempty).
    destruct (Hfin false _ ["Book Now"; "Find Doctor"; "Check Availability"] Hne)
      as (H1 & H2 & H3).
    split; [exact H1|]. split; [exact H2|]. rewrite H3. by split; [|intros [? _]].
Qed.

Lemma topicPath_reply aiResponse intent entities sentiment userMessage message c w :
  aiResponse <> Some EmptyString ->
  let x := topicPath aiResponse rnd intent entities sentiment userMessage message sid c w in
  (exists texts, texts <> [] /\ repliesAdded c x.1.2 texts)
  /\ response x.1.1 <> EmptyString
  /\ (quickActions x.1.1 = [] <-> intent = goodbye /\ aiResponse = None).
Proof.
  intros Hai.
  pose proof (standardPath_reply aiResponse intent sentiment userMessage c w Hai) as Hstd.
  assert (forall text actions inter,
            text <> EmptyString -> actions <> [] -> intent <> goodbye ->
            let x := ({| response := text; quickActions := actions; reply_triage := None;
                         reply_entities := None; reply_sentiment := None;
                         reply_interactions := inter; aiEnhanced := None |},
                      pushTurn (botTurn text) c,
                      sessions_set sid (pushTurn (botTurn text) c) w) in
            (exists texts, texts <> [] /\ repliesAdded c x.1.2 texts)
            /\ response x.1.1 <> EmptyString
            /\ (quickActions x.1.1 = [] <-> intent = goodbye /\ aiResponse = None)) as Hown.
  { intros text actions inter Ht Ha Hi. cbn [fst snd response quickActions].
    split; [by exists [text]|]. split; [done|]. split; [done|]. by intros [? _]. }
  unfold topicPath.
  destruct (isIntent intent medication
            && (0 <? List.length (ent_medications entities))%nat
            && (0 <? List.length (warnings (checkedInteractions
                                              (ent_medications entities))))%nat) eqn:Emed.
  { apply andb_prop in Emed as [[Hi%bool_decide_eq_true _]%andb_prop _].
    apply Hown; [|done|by rewrite Hi].
    by apply nonempty_of_eqb, append_nonempty. }
  destruct (isIntent intent specialty) eqn:Esp.
  { apply bool_decide_eq_true in Esp.
    destruct (List.find _ specialties) as [[name about]|]; [|exact Hstd].
    unfold plainReply. apply Hown; [done|done|by rewrite Esp]. }
  destruct (isIntent intent wellness) eqn:Ewe; [|exact Hstd].
  apply bool_decide_eq_true in Ewe.
  destruct (List.find _ wellnessTips) as [[category tips]|]; [|exact Hstd].
  unfold plainReply. apply Hown; [done|done|by rewrite Ewe].
Qed.


Lemma handleAppointmentFlow_silent message c w c' w' :
  handleAppointmentFlow rnd message c sid w = (None, c', w') -> c' = c /\ w' = w.
Proof.
  intros E. pose proof (handleAppointmentFlow_spec rnd sid sid_truthy message c w) as H.
  destruct (flowStep message (appointmentState c)).
  - destruct H as (? & ? & ? & H & _). rewrite H in E. done.
  - rewrite H in E. by injection E.
Qed.

(** One consultation of the flow controller by [dispatchTurn]: either it
    yields the reply of the turn, or nothing has happened. *)
Lemma flow_stage (b : bool) message c w :
  let y := if b then handleAppointmentFlow rnd message c sid w else (None, c, w) in
  match usableReply y.1.1 with
  | Some flow =>
      repliesAdded c y.1.2 [response flow]
      /\ response flow <> EmptyString /\ quickActions flow <> []
  | None => y.1.2 = c /\ y.2 = w
  end.
Proof.
  destruct b; [|done]. cbv zeta.
  destruct (handleAppointmentFlow rnd message c sid w) as [[flow c'] w'] eqn:E.
  destruct flow as [flow|]; cbn [fst snd usableReply].
  - destruct (handleAppointmentFlow_reply _ _ _ _ _ _ E) as (Ha & Hr & Hq).
    by rewrite (proj2 (String.eqb_neq _ _) Hr).
  - by apply handleAppointmentFlow_silent in E.
Qed.

Lemma dispatch_reply ai userMessage message entities sentiment warns intent c w :
  let x := dispatchTurn ai rnd userMessage message sid entities sentiment warns intent c w in
  (exists texts, texts <> [] /\ repliesAdded c x.1.2 texts)
  /\ response x.1.1 <> EmptyString
  /\ (quickActions x.1.1 = [] -> intent = goodbye).
Proof.
  unfold dispatchTurn.
  pose proof (flow_stage (inAppointmentFlow c) userMessage c w) as H1. cbv zeta in H1.
  destruct (if inAppointmentFlow c then _ else _) as [[flow1 c1] w1].
  cbn [fst snd] in H1.
  destruct (usableReply flow1) as [flow|].
  { destruct H1 as (Ha & Hr & Hq). cbn [fst snd]. split; [by exists [response flow]|done]. }
  destruct H1 as [-> ->].
  pose proof (flow_stage (arrayIncludes bookingTriggers message && isIntent intent appointment)
                userMessage c w) as H2. cbv zeta in H2.
  destruct (if arrayIncludes bookingTriggers message && isIntent intent appointment
            then _ else _) as [[flow2 c2] w2].
  cbn [fst snd] in H2.
  destruct (usableReply flow2) as [flow|].
  { destruct H2 as (Ha & Hr & Hq). cbn [fst snd]. split; [by exists [response flow]|done]. }
  destruct H2 as [-> ->].
  destruct (isIntent intent emergency).
  { destruct (emergencyPath_reply userMessage c w) as (Ha & Hr & Hq).
    split; [by eexists [_]|done]. }
  destruct (askAI ai userMessage c w) as [aiResponse w'] eqn:Eai.
  assert (aiResponse <> Some EmptyString) as Hai.
  { pose proof (askAI_spec ai userMessage c w) as [Hai _]. rewrite Eai in Hai.
    cbn [fst] in Hai. rewrite Hai. unfold aiText.
    destruct (isAIAvailable ai); [|done].
    by destruct (generateAIResponse ai userMessage c) as [[|]|]. }
  destruct (isIntent intent symptom).
  { destruct (symptomPath_reply aiResponse userMessage entities sentiment warns c w')
      as ((text & Ha) & Hr & Hq).
    split; [by exists [text]|done]. }
  destruct (topicPath_reply aiResponse intent entities sentiment userMessage message c w' Hai)
    as (Ha & Hr & Hq).
  split; [exact Ha|]. split; [exact Hr|]. by intros [? _]%Hq.
Qed.

Lemma uniqueFold_In (l acc : list string) x :
  In x (fold_left (fun acc x => if arrayIncludes acc x then acc else acc ++ [x]) l acc)
  <-> In x acc \/ In x l.
Proof.
  revert acc. induction l as [|y l IH]; intros acc; cbn [fold_left].
  { cbn. tauto. }
  rewrite IH. destruct (arrayIncludes acc y) eqn:E.
  - apply arrayIncludes_In in E. cbn [In]. split; [tauto|].
    intros [?|[<-|?]]; tauto.
  - rewrite in_app_iff. cbn [In]. tauto.
Qed.

Lemma uniqueFold_NoDup (l acc : list string) :
  NoDup acc ->
  NoDup (fold_left (fun acc x => if arrayIncludes acc x then acc else acc ++ [x]) l acc).
Proof.
  revert acc. induction l as [|y l IH]; intros acc Hacc; cbn [fold_left]; [done|].
  apply IH. destruct (arrayIncludes acc y) eqn:E; [done|].
  apply NoDup_app. split; [done|]. split; [|apply NoDup_singleton].
  intros z Hz ->%list_elem_of_singleton.
  apply list_elem_of_In, arrayIncludes_In in Hz. congruence.
Qed.

Lemma uniqueStrings_In l x : In x (uniqueStrings l) <-> In x l.
Proof. unfold uniqueStrings. rewrite uniqueFold_In. cbn. tauto. Qed.

Lemma uniqueStrings_NoDup l : NoDup (uniqueStrings l).
Proof. apply uniqueFold_NoDup, NoDup_nil_2. Qed.

(** The context at the flow check, field by field. *)
Lemma contextAtDispatch_fields userMessage c :
  let c1 := contextAtDispatch userMessage sid c in
  conversationHistory c1 = conversationHistory c ++ [userTurn userMessage]
  /\ currentTopic c1 = Some (detectIntent userMessage)
  /\ sessionId c1 = (if truthy (sessionId c) then sessionId c else Some sid)
  /\ ui_symptoms (userInfo c1) = ui_symptoms (userInfo c)
  /\ ui_medications (userInfo c1)
     = match ent_medications (extractEntities userMessage) with
       | [] => ui_medications (userInfo c)
       | meds => Some (uniqueStrings (default [] (ui_medications (userInfo c)) ++ meds))
       end.
Proof.
  unfold contextAtDispatch, userTurn.
  destruct (truthy (sessionId c)) eqn:E,
           (ent_medications (extractEntities userMessage)); cbn; rewrite ?E; done.
Qed.

Lemma composeResponse_reply ai userMessage c w :
  let x := composeResponse ai rnd userMessage sid c w in
  response x.1.1 <> EmptyString
  /\ (quickActions x.1.1 = [] -> detectIntent userMessage = goodbye)
  /\ exists texts,
       texts <> []
       /\ repliesAdded (contextAtDispatch userMessage sid c) x.1.2 texts
       /\ contextOf sid x.2 = Some x.1.2.
Proof.
  pose proof (composeResponse_spec rnd sid sid_truthy ai userMessage c w) as Hspec.
  cbv zeta in Hspec. destruct Hspec as [Hsess _].
  cbv zeta. unfold contextOf. rewrite Hsess. clear Hsess.
  rewrite composeResponse_dispatch.
  destruct (dispatch_reply ai userMessage (trim (toLowerCase userMessage))
              (extractEntities userMessage) (analyzeSentiment userMessage)
              (warningsAtDispatch userMessage sid c) (detectIntent userMessage)
              (contextAtDispatch userMessage sid c) (worldAtDispatch userMessage sid w))
    as ((texts & Hne & Ha) & Hr & Hq).
  split; [exact Hr|]. split; [exact Hq|]. by exists texts.
Qed.

Lemma generateResponse_compose ai userMessage w :
  generateResponse ai rnd userMessage sid w
  = ((composeResponse ai rnd userMessage sid (loadContext sid w).1 (loadContext sid w).2).1.1,
     (composeResponse ai rnd userMessage sid (loadContext sid w).1 (loadContext sid w).2).2).
Proof.
  unfold generateResponse. destruct (loadContext sid w) as [c w0]. cbn [fst snd].
  by destruct (composeResponse ai rnd userMessage sid c w0) as [[r c'] w'].
Qed.

Lemma generateResponse_answered ai userMessage w :
  let x := generateResponse ai rnd userMessage sid w in
  response x.1 <> EmptyString
  /\ (quickActions x.1 = [] -> detectIntent userMessage = goodbye).
Proof.
  cbv zeta. rewrite generateResponse_compose. cbn [fst snd].
  destruct (composeResponse_reply ai userMessage (loadContext sid w).1 (loadContext sid w).2)
    as (Hr & Hq & _).
  done.
Qed.

(** Every turn is answered with a text, and with quick actions unless the
    message is a goodbye. *)
Theorem every_turn_is_answered ai userMessage w :
  let x := generateResponse ai rnd userMessage sid w in
  response x.1 <> EmptyString
  /\ (quickActions x.1 = [] -> detectIntent userMessage = goodbye).
Proof. exact (generateResponse_answered ai userMessage w). Qed.

Lemma generateResponse_history ai userMessage w :
  let c := (loadContext sid w).1 in
  let x := generateResponse ai rnd userMessage sid w in
  exists c' texts,
    contextOf sid x.2 = Some c'
    /\ texts <> []
    /\ conversationHistory c'
       = conversationHistory c ++ userTurn userMessage :: map botTurn texts
    /\ currentTopic c' = Some (detectIntent userMessage)
    /\ sessionId c' = (if truthy (sessionId c) then sessionId c else Some sid).
Proof.
  cbv zeta. rewrite generateResponse_compose. cbn [fst snd].
  destruct (composeResponse_reply ai userMessage (loadContext sid w).1 (loadContext sid w).2)
    as (_ & _ & texts & Hne & (Hh & Hu & Ht & Hs) & Hc).
  destruct (contextAtDispatch_fields userMessage (loadContext sid w).1)
    as (Hh1 & Ht1 & Hs1 & _).
  eexists _, texts. split; [exact Hc|]. split; [exact Hne|].
  rewrite Hh, Ht, Hs, Hh1, Ht1, Hs1, <- app_assoc. done.
Qed.

(** A turn only appends to the history of its session: the user's message,
    then at least one bot turn; the topic becomes the detected intent. *)
Theorem turn_appends_to_history ai userMessage w :
  let c := (loadContext sid w).1 in
  let x := generateResponse ai rnd userMessage sid w in
  exists c' texts,
    contextOf sid x.2 = Some c'
    /\ texts <> []
    /\ conversationHistory c'
       = conversationHistory c ++ userTurn userMessage :: map botTurn texts
    /\ currentTopic c' = Some (detectIntent userMessage)
    /\ sessionId c' = (if truthy (sessionId c) then sessionId c else Some sid).
Proof. exact (generateResponse_history ai userMessage w). Qed.

(** The profile after a turn: the medications are those known before
    together with those named in the message, without duplicates once the
    message names one; the symptoms of the profile are never touched. *)
Theorem turn_accumulates_medications ai userMessage w :
  let c := (loadContext sid w).1 in
  let x := generateResponse ai rnd userMessage sid w in
  exists c',
    contextOf sid x.2 = Some c'
    /\ (forall med,
          In med (default [] (ui_medications (userInfo c')))
          <-> In med (default [] (ui_medications (userInfo c)))
              \/ In med (ent_medications (extractEntities userMessage)))
    /\ (ent_medications (extractEntities userMessage) <> [] ->
        NoDup (default [] (ui_medications (userInfo c'))))
    /\ (ent_medications (extractEntities userMessage) = [] ->
        ui_medications (userInfo c') = ui_medications (userInfo c))
    /\ ui_symptoms (userInfo c') = ui_symptoms (userInfo c).
Proof.
  cbv zeta. rewrite generateResponse_compose. cbn [fst snd].
  destruct (composeResponse_reply ai userMessage (loadContext sid w).1 (loadContext sid w).2)
    as (_ & _ & texts & Hne & (Hh & Hu & Ht & Hs) & Hc).
  destruct (contextAtDispatch_fields userMessage (loadContext sid w).1)
    as (_ & _ & _ & Hsy & Hme).
  eexists. split; [exact Hc|]. rewrite Hu, Hsy, Hme.
  destruct (ent_medications (extractEntities userMessage)) as [|med0 meds].
  - split; [|done]. intros med. cbn [In]. tauto.
  - split; [|split; [|done]].
    + intros med. cbn [from_option id]. by rewrite uniqueStrings_In, in_app_iff.
    + intros _. cbn [from_option id]. apply uniqueStrings_NoDup.
Qed.

End ReplyFacts.

(** ** Sessions do not interfere *)

Section IsolationFacts.

Variable sid : string.

Lemma ou_refl w : othersUntouched sid w w.
Proof. by intros other _. Qed.

Lemma ou_sessions_set w w0 c :
  othersUntouched sid w w0 -> othersUntouched sid w (sessions_set sid c w0).
Proof.
  intros H other Hne. destruct (H other Hne) as (H1 & H2 & H3 & H4).
  unfold contextOf, sessions_set in *. cbn. by rewrite lookup_insert_ne.
Qed.

Lemma ou_saveMessage w w0 r text i e s t :
  othersUntouched sid w w0 ->
  othersUntouched sid w (onDb (database.saveMessage sid r text i e s t) w0).
Proof.
  intros H other Hne. destruct (H other Hne) as (H1 & H2 & H3 & H4).
  unfold contextOf, database.getSession, database.getMessages in *. cbn.
  split; [done|]. split; [done|]. split; [|done].
  rewrite List.filter_app, H3. cbn.
  destruct (String.eqb_spec sid other) as [->|_]; [done|apply app_nil_r].
Qed.

Lemma ou_updateSession w w0 ui md :
  othersUntouched sid w w0 ->
  othersUntouched sid w (onDb (database.updateSession sid ui md) w0).
Proof.
  intros H other Hne. destruct (H other Hne) as (H1 & H2 & H3 & H4).
  unfold contextOf, database.getSession, database.getMessages, onDb,
    database.updateSession in *.
  destruct (tbl_sessions (db w0) !! sid); cbn; [|done].
  by rewrite lookup_insert_ne.
Qed.

Lemma ou_createSession w w0 ui md :
  othersUntouched sid w w0 ->
  othersUntouched sid w (onDb (database.createSession sid ui md) w0).
Proof.
  intros H other Hne. destruct (H other Hne) as (H1 & H2 & H3 & H4).
  unfold contextOf, database.getSession, database.getMessages, onDb,
    database.createSession in *.
  destruct (tbl_sessions (db w0) !! sid); cbn; [done|].
  by rewrite lookup_insert_ne.
Qed.

Lemma ou_saveProfile w w0 meds syms :
  othersUntouched sid w w0 ->
  othersUntouched sid w (onDb (database.saveProfile sid meds syms) w0).
Proof.
  intros H other Hne. destruct (H other Hne) as (H1 & H2 & H3 & H4).
  unfold contextOf, database.getSession, database.getMessages in *. cbn.
  by rewrite lookup_insert_ne.
Qed.

Lemma ou_logEvent w w0 event s :
  othersUntouched sid w w0 -> othersUntouched sid w (onDb (database.logEvent event s) w0).
Proof. intros H other Hne. apply (H other Hne). Qed.

Lemma ou_set_analytics w w0 a :
  othersUntouched sid w w0 -> othersUntouched sid w (set_analytics a w0).
Proof. intros H other Hne. apply (H other Hne). Qed.

Lemma ou_io_emit w w0 a :
  othersUntouched sid w w0 -> othersUntouched sid w (io_emit a w0).
Proof. intros H other Hne. apply (H other Hne). Qed.

Lemma ou_set_aiCalls w w0 n :
  othersUntouched sid w w0 -> othersUntouched sid w (set_aiCalls n w0).
Proof. intros H other Hne. apply (H other Hne). Qed.

Lemma ou_updateAnalytics w w0 :
  othersUntouched sid w w0 -> othersUntouched sid w (updateAnalytics w0).
Proof. apply ou_set_analytics. Qed.

Ltac untouched :=
  repeat first
    [ assumption
    | apply ou_sessions_set | apply ou_saveMessage | apply ou_updateSession
    | apply ou_createSession | apply ou_saveProfile | apply ou_logEvent
    | apply ou_updateAnalytics | apply ou_set_analytics | apply ou_io_emit
    | apply ou_set_aiCalls ].

Hypothesis sid_truthy : sid <> EmptyString.

Lemma ou_handleAppointmentFlow rnd message c w w0 :
  othersUntouched sid w w0 ->
  othersUntouched sid w (handleAppointmentFlow rnd message c sid w0).2.
Proof.
  intros H. unfold handleAppointmentFlow, startAppointmentFlow.
  rewrite (proj2 (String.eqb_neq _ _) sid_truthy). cbn [andb].
  repeat match goal with |- context [if ?b then _ else _] => destruct b end;
    cbn [snd]; untouched.
Qed.

Lemma ou_finishTurn intent sentiment wasAI text actions c w w0 :
  othersUntouched sid w w0 ->
  othersUntouched sid w (finishTurn intent sentiment wasAI text actions sid c w0).2.
Proof.
  intros H. unfold finishTurn. cbn [snd].
  destruct (ui_medications _), (ui_symptoms _); untouched.
Qed.

Lemma ou_emergencyPath rnd userMessage c w w0 :
  othersUntouched sid w w0 ->
  othersUntouched sid w (emergencyPath rnd userMessage sid c w0).2.
Proof. intros H. unfold emergencyPath. cbn [snd]. untouched. Qed.

Lemma ou_symptomPath aiResponse rnd userMessage entities sentiment warns c w w0 :
  othersUntouched sid w w0 ->
  othersUntouched sid w
    (symptomPath aiResponse rnd userMessage sid entities sentiment warns c w0).2.
Proof.
  intros H. unfold symptomPath.
  destruct (generateSymptomAssessment userMessage c (analytics w0)) as [[assessment c'] a'].
  destruct aiResponse; [|destruct assessment]; cbn [snd]; untouched.
Qed.

Lemma ou_standardPath aiResponse rnd intent sentiment userMessage c w w0 :
  othersUntouched sid w w0 ->
  othersUntouched sid w (standardPath aiResponse rnd intent sentiment userMessage sid c w0).2.
Proof.
  intros H. unfold standardPath.
  destruct aiResponse; [by apply ou_finishTurn|].
  destruct intent; try by apply ou_finishTurn.
  pose proof (ou_handleAppointmentFlow rnd userMessage c w w0 H) as Hflow.
  destruct (handleAppointmentFlow rnd userMessage c sid w0) as [[flow c'] w'].
  cbn [snd] in Hflow. destruct flow; [cbn [snd]; untouched|by apply ou_finishTurn].
Qed.

Lemma ou_topicPath aiResponse rnd intent entities sentiment userMessage message c w w0 :
  othersUntouched sid w w0 ->
  othersUntouched sid w
    (topicPath aiResponse rnd intent entities sentiment userMessage message sid c w0).2.
Proof.
  intros H. unfold topicPath.
  repeat match goal with
         | |- context [if ?b then _ else _] => destruct b
         | |- context [match List.find ?f ?l with _ => _ end] => destruct (List.find f l) as [[? ?]|]
         end;
    try (by apply ou_standardPath); cbn [snd]; untouched.
Qed.

Lemma ou_flow_stage (b : bool) rnd message c w w0 :
  othersUntouched sid w w0 ->
  othersUntouched sid w
    (if b then handleAppointmentFlow rnd message c sid w0 else (None, c, w0)).2.
Proof. intros H. destruct b; [by apply ou_handleAppointmentFlow|done]. Qed.

Lemma ou_dispatchTurn ai rnd userMessage message entities sentiment warns intent c w w0 :
  othersUntouched sid w w0 ->
  othersUntouched sid w
    (dispatchTurn ai rnd userMessage message sid entities sentiment warns intent c w0).2.
Proof.
  intros H. unfold dispatchTurn.
  pose proof (ou_flow_stage (inAppointmentFlow c) rnd userMessage c w w0 H) as H1.
  destruct (if inAppointmentFlow c then _ else _) as [[flow1 c1] w1]. cbn [snd] in H1.
  destruct (usableReply flow1); [done|].
  pose proof (ou_flow_stage (arrayIncludes bookingTriggers message
                             && isIntent intent appointment) rnd userMessage c1 w w1 H1) as H2.
  destruct (if arrayIncludes bookingTriggers message && isIntent intent appointment
            then _ else _) as [[flow2 c2] w2]. cbn [snd] in H2.
  destruct (usableReply flow2); [done|].
  destruct (isIntent intent emergency); [by apply ou_emergencyPath|].
  assert (othersUntouched sid w (askAI ai userMessage c2 w2).2) as H3.
  { unfold askAI. destruct (isAIAvailable ai); cbn [snd]; untouched. }
  destruct (askAI ai userMessage c2 w2) as [aiResponse w3]. cbn [snd] in H3.
  destruct (isIntent intent symptom); [by apply ou_symptomPath|by apply ou_topicPath].
Qed.

Lemma ou_generateResponse ai rnd userMessage w w0 :
  othersUntouched sid w w0 ->
  othersUntouched sid w (generateResponse ai rnd userMessage sid w0).2.
Proof.
  intros H. unfold generateResponse.
  assert (othersUntouched sid w (loadContext sid w0).2) as H1.
  { unfold loadContext. destruct (sessions w0 !! sid); [done|].
    destruct (database.getSession sid (db w0)); cbn [snd]; untouched. }
  destruct (loadContext sid w0) as [c w1]. cbn [snd] in H1.
  pose proof (ou_dispatchTurn ai rnd userMessage (trim (toLowerCase userMessage))
                (extractEntities userMessage) (analyzeSentiment userMessage)
                (warningsAtDispatch userMessage sid c) (detectIntent userMessage)
                (contextAtDispatch userMessage sid c) w (worldAtDispatch userMessage sid w1))
    as H2.
  rewrite <- composeResponse_dispatch in H2.
  destruct (composeResponse ai rnd userMessage sid c w1) as [[reply c'] w'].
  cbn [snd] in *. apply H2. unfold worldAtDispatch. untouched.
Qed.

(** Whatever a request to the chat endpoint does for its own session, it
    leaves every other session as it was: the cached context, the stored
    row, the stored messages and the stored profile. *)
Theorem chat_leaves_other_sessions_alone ai rnd userMessage w :
  othersUntouched sid w (chat ai rnd userMessage sid w).2.
Proof.
  unfold chat. destruct (String.eqb (trim userMessage) EmptyString); [apply ou_refl|].
  pose proof (ou_generateResponse ai rnd userMessage w (ensureSession sid w)) as H.
  destruct (generateResponse ai rnd userMessage sid (ensureSession sid w)) as [reply w'].
  cbn [snd] in *. apply H. unfold ensureSession.
  destruct (sessions w !! sid); [apply ou_refl|].
  pose proof (ou_refl w). untouched.
Qed.

End IsolationFacts.

(** ** The cache rebuilt from the store *)

Section RestartFacts.

Lemma sync_fold (l : list (string * DbSession)) w :
  NoDup l.*1 ->
  let w' :=
    fold_left
      (fun w entry =>
         let messages := database.getMessages (fst entry) (db w) in
         sessions_set (fst entry) (hydrate (snd entry) messages) w) l w in
  db w' = db w /\ analytics w' = analytics w /\ emitted w' = emitted w
  /\ aiCalls w' = aiCalls w
  /\ forall sid,
       (forall row, (sid, row) ∈ l ->
          sessions w' !! sid = Some (hydrate row (database.getMessages sid (db w))))
       /\ (sid ∉ l.*1 -> sessions w' !! sid = sessions w !! sid).
Proof.
  revert w. induction l as [|[key row0] l IH]; intros w Hnd; cbn [fold_left fst snd].
  { do 4 (split; [done|]). intros sid. split; [|done]. by intros row ?%elem_of_nil. }
  rewrite fmap_cons in Hnd. apply NoDup_cons in Hnd as [Hkey Hnd].
  destruct (IH (sessions_set key (hydrate row0 (database.getMessages key (db w))) w) Hnd)
    as (Hdb & Ha & He & Hc & Hs).
  cbv zeta in *. cbn [db analytics emitted aiCalls sessions_set set_sessions] in Hdb, Ha, He, Hc.
  do 4 (split; [done|]). intros sid. destruct (Hs sid) as [Hin Hout]. split.
  - intros row [[= -> ->]|Hl]%elem_of_cons.
    + rewrite (Hout Hkey). apply lookup_insert_eq.
    + by apply Hin.
  - rewrite fmap_cons. intros [Hne Hl]%not_elem_of_cons. cbn [fst] in Hne.
    rewrite (Hout Hl). by apply lookup_insert_ne.
Qed.

Lemma syncSessionsFromDB_lookup w sid :
  contextOf sid (syncSessionsFromDB w)
  = match database.getSession sid (db w) with
    | Some row => Some (hydrate row (database.getMessages sid (db w)))
    | None => contextOf sid w
    end
  /\ db (syncSessionsFromDB w) = db w
  /\ analytics (syncSessionsFromDB w) = analytics w
  /\ emitted (syncSessionsFromDB w) = emitted w.
Proof.
  unfold syncSessionsFromDB, database.getAllSessions, database.getSession, contextOf.
  destruct (sync_fold (map_to_list (tbl_sessions (db w))) w
              (NoDup_fst_map_to_list _)) as (Hdb & Ha & He & _ & Hs).
  split; [|done]. destruct (Hs sid) as [Hin Hout].
  destruct (tbl_sessions (db w) !! sid) as [row|] eqn:E.
  - apply Hin. by apply elem_of_map_to_list.
  - apply Hout. intros ([key row] & -> & Hrow%elem_of_map_to_list)%list_elem_of_fmap.
    cbn [fst] in E. congruence.
Qed.

(** After [syncSessionsFromDB] the cache holds, for every stored session, the
    context rebuilt from its row and its messages, whatever it held before;
    the entries of sessions that are not stored stay, and nothing else in the
    process changes. *)
Theorem syncSessionsFromDB_rebuilds_cache w sid :
  contextOf sid (syncSessionsFromDB w)
  = match database.getSession sid (db w) with
    | Some row => Some (hydrate row (database.getMessages sid (db w)))
    | None => contextOf sid w
    end
  /\ db (syncSessionsFromDB w) = db w
  /\ analytics (syncSessionsFromDB w) = analytics w
  /\ emitted (syncSessionsFromDB w) = emitted w.
Proof. exact (syncSessionsFromDB_lookup w sid). Qed.

Lemma restart_context w sid :
  contextOf sid (restart w)
  = (fun row => hydrate row (database.getMessages sid (db w)))
      <$> database.getSession sid (db w).
Proof.
  unfold restart.
  set (w0 := {| sessions := ∅; db := db w; analytics := _; emitted := []; aiCalls := 0 |}).
  destruct (syncSessionsFromDB_lookup w0 sid) as [H _]. rewrite H.
  change (db w0) with (db w).
  destruct (database.getSession sid (db w)); [done|]. unfold contextOf. apply lookup_empty.
Qed.

End RestartFacts.

(** ** What a turn leaves in the store *)

Section PersistenceFacts.

Variables (rnd : nat) (sid : string).
Hypothesis sid_truthy : sid <> EmptyString.

Lemma loadContext_db w : db (loadContext sid w).2 = db w.
Proof.
  unfold loadContext. destruct (sessions w !! sid); [done|].
  by destruct (database.getSession sid (db w)).
Qed.

Lemma worldAtDispatch_rows userMessage w :
  tbl_sessions (db (worldAtDispatch userMessage sid w)) = tbl_sessions (db w).
Proof. reflexivity. Qed.

Lemma askAI_db ai userMessage c w : db (askAI ai userMessage c w).2 = db w.
Proof. unfold askAI. by destruct (isAIAvailable ai). Qed.

Lemma updateSession_stored ui md d :
  database.getSession sid d <> None ->
  database.getSession sid (database.updateSession sid ui md d)
  = Some {| db_userInfo := ui; db_metadata := md |}.
Proof.
  unfold database.getSession, database.updateSession.
  destruct (tbl_sessions d !! sid); [intros _|done]. cbn. apply lookup_insert_eq.
Qed.

Lemma symptomPath_stored aiResponse userMessage entities sentiment warns c w :
  database.getSession sid (db w) <> None ->
  aiResponse <> None \/ symptoms (extractSymptomInfo userMessage) <> [] ->
  let x := symptomPath aiResponse rnd userMessage sid entities sentiment warns c w in
  database.getSession sid (db x.2)
  = Some {| db_userInfo := userInfo x.1.2; db_metadata := symptomMetadata x.1.2 |}.
Proof.
  intros Hrow Hsome. unfold symptomPath.
  pose proof (generateSymptomAssessment_reply userMessage c (analytics w)) as (_ & _ & Hnone).
  destruct (generateSymptomAssessment userMessage c (analytics w)) as [[assessment c'] a'].
  cbn [fst snd] in Hnone.
  destruct aiResponse as [text|]; [|destruct assessment as [asmt|]]; cbn [fst snd].
  - by apply updateSession_stored.
  - by apply updateSession_stored.
  - destruct Hsome as [?|Hsym]; [done|]. by destruct Hsym, (proj1 Hnone).
Qed.

Lemma emergencyPath_stored userMessage c w :
  database.getSession sid (db w) <> None ->
  let x := emergencyPath rnd userMessage sid c w in
  exists md,
    database.getSession sid (db x.2)
    = Some {| db_userInfo := userInfo x.1.2; db_metadata := md |}
    /\ md_currentTopic md = Some emergency
    /\ md_askedDuration md = None /\ md_askedSeverity md = None
    /\ md_askedOtherSymptoms md = None
    /\ symptomFlags x.1.2 = symptomFlags c.
Proof.
  intros Hrow. unfold emergencyPath. cbn [fst snd].
  eexists. split; [by apply updateSession_stored|done].
Qed.

(** The turn of a message taken outside the appointment flow for something
    other than an appointment request goes to the emergency check. *)
Lemma generateResponse_outside_flow ai userMessage w :
  let c := contextAtDispatch userMessage sid (loadContext sid w).1 in
  let w1 := worldAtDispatch userMessage sid (loadContext sid w).2 in
  inAppointmentFlow (loadContext sid w).1 = false ->
  detectIntent userMessage <> appointment ->
  let x :=
    if isIntent (detectIntent userMessage) emergency
    then emergencyPath rnd userMessage sid c w1
    else if isIntent (detectIntent userMessage) symptom then
      symptomPath (askAI ai userMessage c w1).1 rnd userMessage sid
        (extractEntities userMessage) (analyzeSentiment userMessage)
        (warningsAtDispatch userMessage sid (loadContext sid w).1) c
        (askAI ai userMessage c w1).2
    else
      topicPath (askAI ai userMessage c w1).1 rnd (detectIntent userMessage)
        (extractEntities userMessage) (analyzeSentiment userMessage) userMessage
        (trim (toLowerCase userMessage)) sid c (askAI ai userMessage c w1).2 in
  generateResponse ai rnd userMessage sid w = (x.1.1, x.2)
  /\ contextOf sid x.2 = Some x.1.2.
Proof.
  intros c w1 Hin Hint.
  pose proof (composeResponse_spec rnd sid sid_truthy ai userMessage
                (loadContext sid w).1 (loadContext sid w).2) as Hspec.
  cbv zeta in Hspec. destruct Hspec as [Hsess _]. revert Hsess.
  rewrite generateResponse_compose, composeResponse_dispatch.
  rewrite (dispatch_falls_through rnd sid sid_truthy).
  - done.
  - left. by rewrite (proj2 (proj2 (contextAtDispatch_frame sid userMessage _))).
  - left. unfold isIntent. rewrite bool_decide_eq_false_2 by done. apply andb_false_r.
Qed.

(** A symptom report answered outside the appointment flow is persisted in
    full: after a restart the session has the same follow-up flags, the same
    profile and the same topic as the cache had after the turn. *)
Theorem symptom_turn_survives_restart ai userMessage w :
  database.getSession sid (db w) <> None ->
  inAppointmentFlow (loadContext sid w).1 = false ->
  detectIntent userMessage = symptom ->
  symptoms (extractSymptomInfo userMessage) <> [] ->
  let w' := (generateResponse ai rnd userMessage sid w).2 in
  exists c' c'',
    contextOf sid w' = Some c'
    /\ contextOf sid (restart w') = Some c''
    /\ symptomFlags c'' = symptomFlags c'
    /\ userInfo c'' = userInfo c'
    /\ currentTopic c'' = currentTopic c'.
Proof.
  intros Hrow Hin Hint Hsym.
  destruct (generateResponse_outside_flow ai userMessage w Hin) as [Hgen Hctx];
    [by rewrite Hint|].
  cbv zeta. rewrite Hgen. clear Hgen. revert Hctx. rewrite Hint.
  change (isIntent symptom emergency) with false.
  change (isIntent symptom symptom) with true. cbn iota. cbn [snd]. intros Hctx.
  set (c := contextAtDispatch userMessage sid (loadContext sid w).1) in *.
  set (w1 := worldAtDispatch userMessage sid (loadContext sid w).2) in *.
  assert (database.getSession sid (db (askAI ai userMessage c w1).2) <> None) as Hrow1.
  { rewrite askAI_db. unfold database.getSession, w1.
    by rewrite worldAtDispatch_rows, loadContext_db. }
  pose proof (symptomPath_stored (askAI ai userMessage c w1).1 userMessage
                (extractEntities userMessage) (analyzeSentiment userMessage)
                (warningsAtDispatch userMessage sid (loadContext sid w).1) c
                (askAI ai userMessage c w1).2 Hrow1 (or_intror Hsym)) as Hst.
  cbv zeta in Hst.
  set (x := symptomPath _ _ _ _ _ _ _ _ _) in *.
  eexists _, _. split; [exact Hctx|]. rewrite restart_context, Hst.
  split; [reflexivity|].
  assert (currentTopic x.1.2 = Some symptom) as Htopic.
  { destruct (symptomPath_reply rnd sid (askAI ai userMessage c w1).1 userMessage
                (extractEntities userMessage) (analyzeSentiment userMessage)
                (warningsAtDispatch userMessage sid (loadContext sid w).1) c
                (askAI ai userMessage c w1).2) as ((text & _ & _ & Ht & _) & _).
    fold x in Ht. rewrite Ht.
    destruct (contextAtDispatch_fields sid userMessage (loadContext sid w).1)
      as (_ & Ht1 & _).
    fold c in Ht1. by rewrite Ht1, Hint. }
  cbn. rewrite Htopic. done.
Qed.

(** An emergency message answered outside the appointment flow overwrites
    the stored follow-up flags: the cache keeps those of the session, a
    restart brings back none of them. *)
Theorem emergency_turn_forgets_symptom_questions ai userMessage w :
  database.getSession sid (db w) <> None ->
  inAppointmentFlow (loadContext sid w).1 = false ->
  detectIntent userMessage = emergency ->
  let w' := (generateResponse ai rnd userMessage sid w).2 in
  exists c' c'',
    contextOf sid w' = Some c'
    /\ contextOf sid (restart w') = Some c''
    /\ symptomFlags c' = symptomFlags (loadContext sid w).1
    /\ symptomFlags c'' = (false, false, false)
    /\ userInfo c'' = userInfo c'
    /\ currentTopic c'' = Some emergency.
Proof.
  intros Hrow Hin Hint.
  destruct (generateResponse_outside_flow ai userMessage w Hin) as [Hgen Hctx];
    [by rewrite Hint|].
  cbv zeta. rewrite Hgen. clear Hgen. revert Hctx. rewrite Hint.
  change (isIntent emergency emergency) with true. cbn iota. cbn [snd]. intros Hctx.
  set (c := contextAtDispatch userMessage sid (loadContext sid w).1) in *.
  set (w1 := worldAtDispatch userMessage sid (loadContext sid w).2) in *.
  destruct (emergencyPath_stored userMessage c w1)
    as (md & Hst & Htopic & HaD & HaS & HaO & Hflags).
  { unfold database.getSession, w1. by rewrite worldAtDispatch_rows, loadContext_db. }
  set (x := emergencyPath _ _ _ _ _) in *.
  eexists _, _. split; [exact Hctx|]. rewrite restart_context, Hst.
  split; [reflexivity|]. split.
  { rewrite Hflags. apply (contextAtDispatch_frame sid userMessage). }
  unfold symptomFlags. cbn. by rewrite Htopic, HaD, HaS, HaO.
Qed.

End PersistenceFacts.

(** ** Rate limiter *)

Section RateFacts.

Local Open Scope Z_scope.

Lemma checkRateLimit_other now sid other limits :
  other <> sid -> (checkRateLimit now sid limits).2 !! other = limits !! other.
Proof.
  intros Hne. unfold checkRateLimit.
  destruct (limits !! sid) as [l|]; cbn [default from_option id];
    repeat match goal with |- context [if ?b then _ else _] => destruct b end;
    cbn [snd]; rewrite ?lookup_insert_ne by done; done.
Qed.

(** The three outcomes of a check, by what the table holds for the session. *)
Lemma checkRateLimit_cases now sid limits :
  let x := checkRateLimit now sid limits in
  match limits !! sid with
  | Some l =>
      if resetTime l <? now then
        x.1 = {| allowed := true; resetIn := None |}
        /\ x.2 !! sid = Some {| count := 1; resetTime := now + RATE_LIMIT_WINDOW |}
      else if (RATE_LIMIT_MAX_REQUESTS <=? count l)%nat then
        x.1 = {| allowed := false; resetIn := Some (resetTime l - now) |} /\ x.2 = limits
      else
        x.1 = {| allowed := true; resetIn := None |}
        /\ x.2 !! sid = Some {| count := S (count l); resetTime := resetTime l |}
  | None =>
      x.1 = {| allowed := true; resetIn := None |}
      /\ x.2 !! sid = Some {| count := 1; resetTime := now + RATE_LIMIT_WINDOW |}
  end.
Proof.
  unfold checkRateLimit.
  destruct (limits !! sid) as [l|] eqn:E; cbn [default from_option id].
  - destruct (resetTime l <? now); cbn [count resetTime].
    + cbn. by rewrite !lookup_insert_eq.
    + destruct (RATE_LIMIT_MAX_REQUESTS <=? count l)%nat; cbn [fst snd].
      * split; [done|]. by apply insert_id.
      * by rewrite !lookup_insert_eq.
  - cbn [count resetTime].
    assert (((now + RATE_LIMIT_WINDOW) <? now) = false) as ->
      by (apply Z.ltb_ge; unfold RATE_LIMIT_WINDOW; lia).
    cbn. by rewrite lookup_insert_eq.
Qed.

Lemma checkRateLimit_refused now sid limits :
  allowed (checkRateLimit now sid limits).1 = false ->
  (checkRateLimit now sid limits).2 = limits
  /\ exists l,
       limits !! sid = Some l
       /\ (RATE_LIMIT_MAX_REQUESTS <= count l)%nat
       /\ now <= resetTime l
       /\ resetIn (checkRateLimit now sid limits).1 = Some (resetTime l - now).
Proof.
  pose proof (checkRateLimit_cases now sid limits) as H. cbv zeta in H.
  destruct (limits !! sid) as [l|].
  - destruct (resetTime l <? now) eqn:Et.
    { destruct H as [-> _]. done. }
    destruct (RATE_LIMIT_MAX_REQUESTS <=? count l)%nat eqn:Ec.
    + destruct H as [-> ->]. intros _. split; [done|]. exists l.
      split; [done|]. split; [by apply Nat.leb_le|]. split; [by apply Z.ltb_ge|done].
    + destruct H as [-> _]. done.
  - destruct H as [-> _]. done.
Qed.

(** A refused request changes nothing in the table; the session has used up
    its window, which is still open, and the time to wait that is reported is
    what is left of it. *)
Theorem refused_request_leaves_the_table now sid limits :
  allowed (checkRateLimit now sid limits).1 = false ->
  (checkRateLimit now sid limits).2 = limits
  /\ exists l,
       limits !! sid = Some l
       /\ (RATE_LIMIT_MAX_REQUESTS <= count l)%nat
       /\ now <= resetTime l
       /\ resetIn (checkRateLimit now sid limits).1 = Some (resetTime l - now).
Proof. exact (checkRateLimit_refused now sid limits). Qed.

Lemma checkRateLimit_new_window now sid limits :
  (forall l, limits !! sid = Some l -> resetTime l < now) ->
  allowed (checkRateLimit now sid limits).1 = true
  /\ (checkRateLimit now sid limits).2 !! sid
     = Some {| count := 1; resetTime := now + RATE_LIMIT_WINDOW |}.
Proof.
  intros Hexp. pose proof (checkRateLimit_cases now sid limits) as H. cbv zeta in H.
  destruct (limits !! sid) as [l|].
  - rewrite (proj2 (Z.ltb_lt _ _) (Hexp l eq_refl)) in H. by destruct H as [-> ->].
  - by destruct H as [-> ->].
Qed.

(** The first request of a session, and the first one after its window has
    run out, is let through and opens a window of a minute with one request
    used. *)
Theorem new_window_admits now sid limits :
  (forall l, limits !! sid = Some l -> resetTime l < now) ->
  allowed (checkRateLimit now sid limits).1 = true
  /\ (checkRateLimit now sid limits).2 !! sid
     = Some {| count := 1; resetTime := now + RATE_LIMIT_WINDOW |}.
Proof. exact (checkRateLimit_new_window now sid limits). Qed.

Lemma admittedFor_window sid requests limits l :
  limits !! sid = Some l ->
  (count l <= RATE_LIMIT_MAX_REQUESTS)%nat ->
  Forall (fun r => r.2 = sid -> r.1 <= resetTime l) requests ->
  (count l + admittedFor sid requests limits <= RATE_LIMIT_MAX_REQUESTS)%nat.
Proof.
  revert limits l. induction requests as [|[now s] rest IH]; intros limits l Hl Hc Hall.
  { cbn. lia. }
  apply Forall_cons in Hall as [Hnow Hrest]. cbn [fst snd] in Hnow.
  cbn [admittedFor].
  destruct (String.eqb_spec s sid) as [->|Hne].
  - pose proof (checkRateLimit_cases now sid limits) as H. cbv zeta in H.
    rewrite Hl in H. rewrite (proj2 (Z.ltb_ge _ _) (Hnow eq_refl)) in H.
    destruct (checkRateLimit now sid limits) as [check limits'].
    cbn [fst snd] in H.
    destruct (RATE_LIMIT_MAX_REQUESTS <=? count l)%nat eqn:Ec.
    + destruct H as [-> ->]. cbn [allowed andb]. by apply (IH limits l).
    + destruct H as [-> H]. cbn [allowed andb]. apply Nat.leb_gt in Ec.
      pose proof (IH limits' _ H) as IH'. cbn [count resetTime] in IH'.
      specialize (IH' ltac:(lia) Hrest). lia.
  - pose proof (checkRateLimit_other now s sid limits ltac:(congruence)) as H.
    destruct (checkRateLimit now s limits) as [check limits']. cbn [snd] in H.
    rewrite andb_false_r. cbn [Nat.add]. apply (IH limits' l); [congruence|done|done].
Qed.

(** From the request that opens a window of a session on, at most
    [RATE_LIMIT_MAX_REQUESTS] of its requests are let through until the window
    has run out, however the requests of other sessions fall in between. *)
Theorem window_admits_at_most_max now sid rest limits :
  (forall l, limits !! sid = Some l -> resetTime l < now) ->
  Forall (fun r => r.2 = sid -> r.1 <= now + RATE_LIMIT_WINDOW) rest ->
  (admittedFor sid ((now, sid) :: rest) limits <= RATE_LIMIT_MAX_REQUESTS)%nat.
Proof.
  intros Hexp Hrest. cbn [admittedFor].
  destruct (checkRateLimit_new_window now sid limits Hexp) as [Ha Hl].
  destruct (checkRateLimit now sid limits) as [check limits']. cbn [fst snd] in Ha, Hl.
  rewrite Ha, String.eqb_refl. cbn [andb].
  pose proof (admittedFor_window sid rest limits' _ Hl) as H. cbn [count resetTime] in H.
  apply H; [unfold RATE_LIMIT_MAX_REQUESTS; lia|done].
Qed.

End RateFacts.

(** ** The endpoints *)

Section EndpointFacts.

Lemma resolved_sid_truthy (clientSessionId : option string) stamp suffix :
  (if truthy clientSessionId then orElse clientSessionId EmptyString
   else generateSessionId stamp suffix) <> EmptyString.
Proof.
  destruct clientSessionId as [s|]; cbn [truthy orElse]; [|done].
  destruct (String.eqb_spec s EmptyString); done.
Qed.





(** A request that is let through is answered with a body: the error branch
    for an unusable result is never taken.  The body has a text and a session
    id, the client's if it sent one, and counts the turns of the cached
    history, at least the user's and one of the bot. *)
Theorem admitted_request_gets_a_body ai rnd now stamp suffix message clientSessionId srv :
  let x := postChat ai rnd now stamp suffix message clientSessionId srv in
  match x.1 with
  | ServerError => False
  | Ok body =>
      body_response body <> EmptyString
      /\ body_sessionId body <> EmptyString
      /\ (truthy clientSessionId = true -> clientSessionId = Some (body_sessionId body))
      /\ (body_quickActions body = [] -> detectIntent message = goodbye)
      /\ exists history,
           getHistory (body_sessionId body) (world x.2) = Some history
           /\ conversationLength body = List.length history
           /\ 2 <= conversationLength body
  | _ => True
  end.
Proof.
  unfold postChat.
  destruct (String.eqb (trim message) EmptyString); [done|].
  pose proof (resolved_sid_truthy clientSessionId stamp suffix) as Hsid.
  assert (truthy clientSessionId = true ->
          clientSessionId
          = Some (if truthy clientSessionId then orElse clientSessionId EmptyString
                  else generateSessionId stamp suffix)) as Hclient.
  { destruct clientSessionId as [s|]; cbn [truthy orElse]; [|done].
    by destruct (String.eqb s EmptyString). }
  set (sid := if truthy clientSessionId then _ else _) in *.
  destruct (checkRateLimit now sid (rateLimits srv)) as [check limits].
  destruct (allowed check); cbn [negb]; [|done].
  set (w := ensureSession sid (world srv)).
  pose proof (generateResponse_answered rnd sid Hsid ai message w) as [Hr Hq].
  pose proof (generateResponse_history rnd sid Hsid ai message w)
    as (c' & texts & Hc & Hne & Hh & _).
  destruct (generateResponse ai rnd message sid w) as [result w'].
  cbn [fst snd] in *.
  rewrite (proj2 (String.eqb_neq _ _) Hr). cbn [fst snd].
  cbn [body_response body_sessionId body_quickActions conversationLength world].
  split; [done|]. split; [done|]. split; [done|]. split; [done|].
  unfold getHistory. unfold contextOf in Hc. rewrite Hc. cbn [fmap option_fmap option_map].
  eexists. split; [reflexivity|]. split; [done|].
  rewrite Hh, length_app. cbn [List.length]. rewrite length_map.
  destruct texts; [done|]. cbn [List.length]. lia.
Qed.

(** [clear-session] empties the cache entry only: the history endpoint then
    answers 404, the export endpoint still serves the stored conversation of
    a session that has a stored row. *)
Theorem cleared_session_is_still_exported sid w row :
  sid <> EmptyString ->
  database.getSession sid (db w) = Some row ->
  getHistory sid (clearSession (Some sid) w) = None
  /\ exists e,
       exportConversation sid (clearSession (Some sid) w) = Some e
       /\ map (fun t => (role t, message t)) (exp_conversationHistory e)
          = map (fun r => (row_role r, row_message r)) (database.getMessages sid (db w))
       /\ exp_userInfo e = db_userInfo row
       /\ sum_totalMessages e = List.length (database.getMessages sid (db w)).
Proof.
  intros Hsid Hrow.
  assert (sessions (clearSession (Some sid) w) !! sid = None
          /\ db (clearSession (Some sid) w) = db w) as [Hs Hdb].
  { unfold clearSession. rewrite (proj2 (String.eqb_neq _ _) Hsid). cbn [negb andb].
    destruct (bool_decide (is_Some (sessions w !! sid))) eqn:E.
    - cbn. by rewrite lookup_delete_eq.
    - apply bool_decide_eq_false in E. split; [|done].
      destruct (sessions w !! sid); [|done]. by destruct E. }
  unfold getHistory, exportConversation. rewrite Hs, Hdb, Hrow. split; [done|].
  eexists. split; [reflexivity|]. cbn. rewrite map_map, length_map. done.
Qed.

Lemma topics_of_untagged (history : list Turn) :
  noIntents history -> history <> [] ->
  uniqueStrings (map (fun m => match turn_intent m with
                               | Some i => intentName i
                               | None => "general"
                               end) history) = ["general"].
Proof.
  intros Hno Hne. destruct history as [|t history]; [done|].
  apply Forall_cons in Hno as [Ht Hno]. unfold uniqueStrings. cbn [map fold_left].
  rewrite Ht. cbn. clear Ht Hne t.
  induction Hno as [|t history Ht Hno IH]; [done|].
  cbn [map fold_left]. rewrite Ht. exact IH.
Qed.

(** The turns that the process records carry no intent, so the export of a
    session whose history was recorded by this process names the single
    topic [general], whatever was talked about. *)
Theorem export_topics_of_recorded_history ai rnd userMessage sid w :
  sid <> EmptyString ->
  noIntents (conversationHistory (loadContext sid w).1) ->
  let w' := (generateResponse ai rnd userMessage sid w).2 in
  exists e,
    exportConversation sid w' = Some e
    /\ noIntents (exp_conversationHistory e)
    /\ sum_topics e = ["general"]
    /\ sum_totalMessages e
       >= List.length (conversationHistory (loadContext sid w).1) + 2.
Proof.
  intros Hsid Hno.
  pose proof (generateResponse_history rnd sid Hsid ai userMessage w)
    as (c' & texts & Hc & Hne & Hh & _).
  cbv zeta. unfold exportConversation. unfold contextOf in Hc. rewrite Hc.
  eexists. split; [reflexivity|].
  cbn [exp_conversationHistory sum_topics sum_totalMessages].
  assert (noIntents (conversationHistory c')) as Hno'.
  { rewrite Hh. apply Forall_app. split; [done|]. apply Forall_cons. split; [done|].
    clear. induction texts; constructor; done. }
  split; [done|]. split.
  - apply topics_of_untagged; [done|]. rewrite Hh. by destruct (conversationHistory _).
  - rewrite Hh, length_app. cbn [List.length]. rewrite length_map.
    destruct texts; [done|]. cbn [List.length]. lia.
Qed.

End EndpointFacts.

(** ** Counters and alerts *)

Section CounterFacts.

Variables (rnd : nat) (sid : string).
Hypothesis sid_truthy : sid <> EmptyString.

Lemma sameChannels_moves userMessage w w' : sameChannels w w' -> movesCounters sid userMessage w w'.
Proof.
  intros (He & Hc & Ha). unfold movesCounters. rewrite He, Hc, Ha.
  repeat split; by auto.
Qed.

Lemma flow_stage_moves (b : bool) userMessage message c w :
  let y := if b then handleAppointmentFlow rnd message c sid w else (None, c, w) in
  match usableReply y.1.1 with
  | Some _ => movesCounters sid userMessage w y.2
  | None => y.1.2 = c /\ y.2 = w
  end.
Proof.
  destruct b; [|done]. cbv zeta.
  pose proof (handleAppointmentFlow_spec rnd sid sid_truthy message c w) as H.
  destruct (flowStep message (appointmentState c)).
  - destruct H as (reply & c' & w' & -> & Huse & _ & _ & _ & _ & _ & Hch).
    cbn [fst snd]. rewrite Huse. by apply sameChannels_moves.
  - by rewrite H.
Qed.

Lemma generateSymptomAssessment_analytics message c a :
  (generateSymptomAssessment message c a).2
  = (performTriage message (extractSymptomInfo message) a).2.
Proof.
  unfold generateSymptomAssessment.
  destruct (performTriage message (extractSymptomInfo message) a) as [t a'].
  destruct (symptoms (extractSymptomInfo message)) as [|symptom0 rest]; [done|].
  destruct c as [h topic aD aS aO aT aDt aR ty da re si ui].
  cbn [askedDuration askedSeverity askedOtherSymptoms].
  destruct (truthy (duration (extractSymptomInfo message))),
           (truthy (severity (extractSymptomInfo message))), aD, aS, aO;
    cbn [negb andb]; done.
Qed.

Lemma symptomPath_analytics aiResponse userMessage entities sentiment warns c w :
  let x := symptomPath aiResponse rnd userMessage sid entities sentiment warns c w in
  analytics x.2 = analytics w \/ analytics x.2 = bumpEmergency (analytics w).
Proof.
  unfold symptomPath.
  pose proof (generateSymptomAssessment_analytics userMessage c (analytics w)) as Hgen.
  pose proof (performTriage_rungs userMessage (extractSymptomInfo userMessage) (analytics w))
    as H. cbv zeta in H.
  destruct (generateSymptomAssessment userMessage c (analytics w)) as [[assessment c'] a'].
  cbn [snd] in Hgen.
  assert (a' = analytics w \/ a' = bumpEmergency (analytics w)) as Ha.
  { rewrite Hgen. destruct H as [[_ ->]|(_ & -> & _)]; by auto. }
  destruct aiResponse; [|destruct assessment]; exact Ha.
Qed.

Lemma dispatch_moves ai userMessage message entities sentiment warns intent c w :
  movesCounters sid userMessage w
    (dispatchTurn ai rnd userMessage message sid entities sentiment warns intent c w).2.
Proof.
  unfold dispatchTurn.
  pose proof (flow_stage_moves (inAppointmentFlow c) userMessage userMessage c w) as H1.
  cbv zeta in H1.
  destruct (if inAppointmentFlow c then _ else _) as [[flow1 c1] w1]. cbn [fst snd] in H1.
  destruct (usableReply flow1); [done|]. destruct H1 as [-> ->].
  pose proof (flow_stage_moves (arrayIncludes bookingTriggers message
                                && isIntent intent appointment)
                userMessage userMessage c w) as H2.
  cbv zeta in H2.
  destruct (if arrayIncludes bookingTriggers message && isIntent intent appointment
            then _ else _) as [[flow2 c2] w2]. cbn [fst snd] in H2.
  destruct (usableReply flow2); [done|]. destruct H2 as [-> ->].
  destruct (isIntent intent emergency).
  { unfold movesCounters, emergencyPath, emergencyAlert. cbn [fst snd].
    split; [reflexivity|]. split; [reflexivity|]. split; [right; reflexivity|].
    split; [right; repeat split; reflexivity|left; reflexivity]. }
  destruct (askAI_spec ai userMessage c w) as (_ & _ & He & Ha & Hc).
  destruct (askAI ai userMessage c w) as [aiResponse w']. cbn [fst snd] in *.
  assert (aiCalls w' = aiCalls w \/ aiCalls w' = S (aiCalls w)) as Hcalls
    by (destruct (isAIAvailable ai); auto).
  destruct (isIntent intent symptom).
  - destruct (symptomPath_spec rnd sid aiResponse userMessage entities sentiment warns c w')
      as (_ & _ & _ & He' & Hc').
    pose proof (symptomPath_analytics aiResponse userMessage entities sentiment warns c w')
      as Ha'. cbv zeta in Ha'.
    unfold movesCounters. rewrite He', Hc', He, <- Ha.
    destruct Ha' as [->| ->]; repeat split; by auto.
  - destruct (topicPath_spec rnd sid sid_truthy aiResponse intent entities sentiment
                userMessage message c w') as [(_ & (He' & Hc' & Ha') & _) _].
    unfold movesCounters. rewrite He', Hc', Ha', He, Ha. repeat split; by auto.
Qed.

(** Every turn counts as one message and as no conversation.  It raises the
    emergency counter by one at most; the alert of the message goes out only
    together with such a count and without a call of the generative service,
    of which there is at most one. *)
Theorem turn_counters ai userMessage w :
  let w' := (generateResponse ai rnd userMessage sid w).2 in
  totalMessages (analytics w') = S (totalMessages (analytics w))
  /\ totalConversations (analytics w') = totalConversations (analytics w)
  /\ (emergencyCount (analytics w') = emergencyCount (analytics w)
      \/ emergencyCount (analytics w') = S (emergencyCount (analytics w)))
  /\ (emitted w' = emitted w
      \/ emitted w' = emitted w ++ [emergencyAlert userMessage sid]
         /\ emergencyCount (analytics w') = S (emergencyCount (analytics w))
         /\ aiCalls w' = aiCalls w)
  /\ (aiCalls w' = aiCalls w \/ aiCalls w' = S (aiCalls w)).
Proof.
  cbv zeta. rewrite generateResponse_compose, composeResponse_dispatch. cbn [snd].
  assert (totalMessages (analytics (worldAtDispatch userMessage sid (loadContext sid w).2))
          = S (totalMessages (analytics w))
          /\ totalConversations
               (analytics (worldAtDispatch userMessage sid (loadContext sid w).2))
             = totalConversations (analytics w)
          /\ emergencyCount
               (analytics (worldAtDispatch userMessage sid (loadContext sid w).2))
             = emergencyCount (analytics w)
          /\ emitted (worldAtDispatch userMessage sid (loadContext sid w).2) = emitted w
          /\ aiCalls (worldAtDispatch userMessage sid (loadContext sid w).2) = aiCalls w)
    as (Hm & Hn & Hg & He & Hc).
  { unfold loadContext. destruct (sessions w !! sid); [done|].
    by destruct (database.getSession sid (db w)). }
  set (w1 := worldAtDispatch userMessage sid (loadContext sid w).2) in *.
  pose proof (dispatch_moves ai userMessage (trim (toLowerCase userMessage))
                (extractEntities userMessage) (analyzeSentiment userMessage)
                (warningsAtDispatch userMessage sid (loadContext sid w).1)
                (detectIntent userMessage)
                (contextAtDispatch userMessage sid (loadContext sid w).1) w1) as H.
  unfold movesCounters in H. rewrite Hm, Hn, Hg, He, Hc in H. exact H.
Qed.

End CounterFacts.

(** ** Extracted symptom information *)

Section ExtractionFacts.

Lemma wordFind_In alts before s a : wordFind alts before s = Some a -> In a alts.
Proof.
  revert before. induction s as [|c s IH]; intros before; cbn [wordFind].
  - destruct (boundary before (firstChar EmptyString)); [|done].
    destruct (firstAlt _ alts) eqn:E; [|done]. intros [= <-].
    by apply find_some in E as [? _].
  - destruct (if boundary before (firstChar (String c s)) then _ else None) eqn:E.
    + intros [= <-]. destruct (boundary before _); [|done].
      by apply find_some in E as [? _].
    + apply IH.
Qed.

Lemma takeWhile_all p s : allChars p (takeWhile p s) = true.
Proof. induction s as [|c s IH]; [done|]. simpl. destruct (p c) eqn:E; [|done]. simpl. by rewrite E. Qed.

Lemma lowered_prefix_substring p s :
  String.prefix p (toLowerCase s) = true ->
  toLowerCase (String.substring 0 (String.length p) s) = p.
Proof.
  revert s. induction p as [|c p IH]; intros s.
  - by destruct s.
  - destruct s as [|d s]; [done|]. simpl.
    destruct (ascii_dec c (lowerChar d)) as [->|]; [|done].
    intros H. by rewrite (IH s H).
Qed.

Lemma durationFind_shape before s digits unit :
  durationFind before s = Some (digits, unit) ->
  digits <> EmptyString
  /\ allChars isDigit digits = true
  /\ In (toLowerCase unit) timeUnits.
Proof.
  revert before. induction s as [|c s IH]; intros before; [done|].
  cbn [durationFind].
  destruct (isDigit c && boundary before (Some c)) eqn:Ec; [|apply IH].
  destruct (firstAlt _ timeUnits) as [unit0|] eqn:Ef; [|apply IH].
  intros Heq. apply (inj Some) in Heq. apply pair_equal_spec in Heq as [<- <-].
  apply andb_prop in Ec as [Ec _].
  apply find_some in Ef as [Hin Hm]. apply andb_prop in Hm as [Hp _].
  split; [simpl; by rewrite Ec|]. split; [apply takeWhile_all|].
  by rewrite (lowered_prefix_substring _ _ Hp).
Qed.

(** What [extractSymptomInfo] returns has a fixed shape: the symptoms are
    catalogue names that occur in the lower-cased message; the duration is a
    number in digits, one space and a time unit; the severity is one of the
    six severity words, in lower case. *)
Theorem extractSymptomInfo_shape (message : string) :
  let info := extractSymptomInfo message in
  (forall name, In name (symptoms info) <->
                In name (map fst commonSymptoms)
                /\ includes (toLowerCase message) name = true)
  /\ (forall d, duration info = Some d ->
        exists digits unit,
          d = digits +:+ " " +:+ unit
          /\ digits <> EmptyString
          /\ allChars isDigit digits = true
          /\ In (toLowerCase unit) timeUnits)
  /\ (forall s, severity info = Some s ->
        In s ["severe"; "mild"; "moderate"; "intense"; "extreme"; "slight"]).
Proof.
  cbv zeta. unfold extractSymptomInfo. cbn [symptoms duration severity].
  split; [intros name; apply filter_In|]. split.
  - intros d. destruct (durationFind None message) as [[digits unit]|] eqn:E; [|done].
    intros [= <-]. exists digits, unit. split; [done|]. by apply (durationFind_shape None message).
  - intros s. apply wordFind_In.
Qed.

End ExtractionFacts.

(** ** The composer's reading of the interaction check

    The composer goes on with [checkedInteractions].  A profile that holds
    names of [medicationPatterns] only, as that of a new session does, holds
    such names after every turn, and on the list that the composer checks the
    interaction check returns: on these sessions nothing is lost by that
    reading. *)

Section ComposerCheck.

Variables (rnd : nat) (sid : string).
Hypothesis sid_truthy : sid <> EmptyString.

Local Abbreviation knownNames c :=
  (Forall (fun m => In m medicationPatterns) (default [] (ui_medications (userInfo c)))).

Lemma freshContext_names_known : knownNames (freshContext sid).
Proof. constructor. Qed.

Lemma contextAtDispatch_names_known userMessage c :
  knownNames c -> knownNames (contextAtDispatch userMessage sid c).
Proof.
  intros Hc. destruct (contextAtDispatch_fields sid userMessage c) as (_ & _ & _ & _ & Hm).
  rewrite Hm. destruct (ent_medications (extractEntities userMessage)) as [|m meds] eqn:E;
    [done|].
  cbn [from_option id]. apply Forall_forall. intros x Hx.
  apply list_elem_of_In in Hx. apply (proj1 (uniqueStrings_In _ _)) in Hx.
  apply in_app_iff in Hx as [Hx|Hx].
  - rewrite Forall_forall in Hc. by apply Hc, list_elem_of_In.
  - rewrite <- E in Hx. unfold extractEntities in Hx. cbn [ent_medications] in Hx.
    by apply filter_In in Hx as [? _].
Qed.

Lemma composer_check_returns userMessage c meds :
  knownNames c ->
  ui_medications (userInfo (contextAtDispatch userMessage sid c)) = Some meds ->
  checkMedicationInteractions meds = Some (checkedInteractions meds).
Proof.
  intros Hc Hm. apply known_names_are_checked.
  pose proof (contextAtDispatch_names_known userMessage c Hc) as H. by rewrite Hm in H.
Qed.

Lemma generateResponse_names_known ai userMessage w :
  knownNames (loadContext sid w).1 ->
  exists c',
    contextOf sid (generateResponse ai rnd userMessage sid w).2 = Some c'
    /\ knownNames c'.
Proof.
  intros Hc. rewrite (generateResponse_compose rnd sid). cbn [snd].
  destruct (composeResponse_reply rnd sid sid_truthy ai userMessage
              (loadContext sid w).1 (loadContext sid w).2)
    as (_ & _ & texts & _ & (_ & Hu & _) & Hctx).
  eexists. split; [exact Hctx|]. rewrite Hu. by apply contextAtDispatch_names_known.
Qed.

End ComposerCheck.

(** ** Runs of the further properties on sample sessions *)

Lemma every_turn_is_answered_witness :
  response (generateResponse noAI 0 "thanks, bye" "s1" idleWorld).1 <> EmptyString
  /\ detectIntent "thanks, bye" = goodbye.
Proof.
  destruct (every_turn_is_answered 0 "s1" sample_sid_truthy noAI "thanks, bye" idleWorld)
    as [Hr Hq].
  split; [exact Hr|]. apply Hq. by vm_compute.
Defined.

Lemma turn_appends_to_history_witness :
  let c := (loadContext "s1" idleWorld).1 in
  let x := generateResponse noAI 0 "hello" "s1" idleWorld in
  exists c' texts,
    contextOf "s1" x.2 = Some c'
    /\ texts <> []
    /\ conversationHistory c'
       = conversationHistory c ++ userTurn "hello" :: map botTurn texts
    /\ currentTopic c' = Some (detectIntent "hello")
    /\ sessionId c' = (if truthy (sessionId c) then sessionId c else Some "s1").
Proof. exact (turn_appends_to_history 0 "s1" sample_sid_truthy noAI "hello" idleWorld). Defined.

Lemma turn_accumulates_medications_witness :
  let c := (loadContext "s1" idleWorld).1 in
  let x := generateResponse noAI 0 "I take aspirin and warfarin" "s1" idleWorld in
  exists c',
    contextOf "s1" x.2 = Some c'
    /\ (forall med,
          In med (default [] (ui_medications (userInfo c')))
          <-> In med (default [] (ui_medications (userInfo c)))
              \/ In med (ent_medications (extractEntities "I take aspirin and warfarin")))
    /\ NoDup (default [] (ui_medications (userInfo c')))
    /\ ui_symptoms (userInfo c') = ui_symptoms (userInfo c).
Proof.
  destruct (turn_accumulates_medications 0 "s1" sample_sid_truthy noAI
              "I take aspirin and warfarin" idleWorld) as (c' & Hc & Hin & Hnd & _ & Hs).
  exists c'. split; [exact Hc|]. split; [exact Hin|]. split; [|exact Hs].
  apply Hnd. by vm_compute.
Defined.

Lemma chat_leaves_other_sessions_alone_witness :
  othersUntouched "s1" typePendingWorld
    (chat noAI 0 "General Checkup" "s1" typePendingWorld).2.
Proof.
  exact (chat_leaves_other_sessions_alone "s1" sample_sid_truthy noAI 0 "General Checkup"
           typePendingWorld).
Defined.

Lemma symptom_turn_survives_restart_witness :
  let w' := (generateResponse noAI 0 "I have a headache" "s1" greetedWorld).2 in
  exists c' c'',
    contextOf "s1" w' = Some c'
    /\ contextOf "s1" (restart w') = Some c''
    /\ symptomFlags c'' = symptomFlags c'
    /\ userInfo c'' = userInfo c'
    /\ currentTopic c'' = currentTopic c'.
Proof.
  apply (symptom_turn_survives_restart 0 "s1" sample_sid_truthy noAI "I have a headache"
           greetedWorld); by vm_compute.
Defined.

Lemma emergency_turn_forgets_symptom_questions_witness :
  let w0 := (generateResponse noAI 0 "I have a headache" "s1" greetedWorld).2 in
  let w' := (generateResponse noAI 0 "I have chest pain" "s1" w0).2 in
  exists c' c'',
    contextOf "s1" w' = Some c'
    /\ contextOf "s1" (restart w') = Some c''
    /\ symptomFlags c' = symptomFlags (loadContext "s1" w0).1
    /\ symptomFlags c'' = (false, false, false)
    /\ userInfo c'' = userInfo c'
    /\ currentTopic c'' = Some emergency.
Proof.
  apply (emergency_turn_forgets_symptom_questions 0 "s1" sample_sid_truthy noAI
           "I have chest pain"
           (generateResponse noAI 0 "I have a headache" "s1" greetedWorld).2);
    by vm_compute.
Defined.

Lemma refused_request_leaves_the_table_witness :
  (checkRateLimit 1000 "s1" usedUpTable).2 = usedUpTable
  /\ exists l,
       usedUpTable !! "s1" = Some l
       /\ (RATE_LIMIT_MAX_REQUESTS <= count l)%nat
       /\ (1000 <= resetTime l)%Z
       /\ resetIn (checkRateLimit 1000 "s1" usedUpTable).1 = Some (resetTime l - 1000)%Z.
Proof. apply (refused_request_leaves_the_table 1000 "s1" usedUpTable). by vm_compute. Defined.

Lemma new_window_admits_witness :
  allowed (checkRateLimit 7000 "s1" usedUpTable).1 = true
  /\ (checkRateLimit 7000 "s1" usedUpTable).2 !! "s1"
     = Some {| count := 1; resetTime := 7000 + RATE_LIMIT_WINDOW |}.
Proof.
  apply (new_window_admits 7000 "s1" usedUpTable).
  intros l Hl. vm_compute in Hl. injection Hl as <-. reflexivity.
Defined.

Lemma window_admits_at_most_max_witness :
  (admittedFor "s1" [(7000, "s1"); (8000, "s2"); (9000, "s1")]%Z usedUpTable
   <= RATE_LIMIT_MAX_REQUESTS)%nat.
Proof.
  apply (window_admits_at_most_max 7000 "s1" [(8000, "s2"); (9000, "s1")]%Z usedUpTable).
  - intros l Hl. vm_compute in Hl. injection Hl as <-. reflexivity.
  - repeat constructor; cbn; intros _; by vm_compute.
Defined.

Lemma cleared_session_is_still_exported_witness :
  getHistory "s1" (clearSession (Some "s1") greetedWorld) = None
  /\ exists e,
       exportConversation "s1" (clearSession (Some "s1") greetedWorld) = Some e
       /\ map (fun t => (role t, message t)) (exp_conversationHistory e)
          = map (fun r => (row_role r, row_message r))
              (database.getMessages "s1" (db greetedWorld))
       /\ exp_userInfo e = db_userInfo greetedRow
       /\ sum_totalMessages e = List.length (database.getMessages "s1" (db greetedWorld)).
Proof.
  apply (cleared_session_is_still_exported "s1" greetedWorld greetedRow sample_sid_truthy).
  by vm_compute.
Defined.

Lemma export_topics_of_recorded_history_witness :
  let w' := (generateResponse noAI 0 "I have a headache" "s1" idleWorld).2 in
  exists e,
    exportConversation "s1" w' = Some e
    /\ noIntents (exp_conversationHistory e)
    /\ sum_topics e = ["general"]
    /\ sum_totalMessages e
       >= List.length (conversationHistory (loadContext "s1" idleWorld).1) + 2.
Proof.
  apply (export_topics_of_recorded_history noAI 0 "I have a headache" "s1" idleWorld
           sample_sid_truthy).
  vm_compute. constructor.
Defined.

Lemma turn_counters_witness :
  let w' := (generateResponse noAI 0 "I have chest pain" "s1" idleWorld).2 in
  totalMessages (analytics w') = S (totalMessages (analytics idleWorld))
  /\ totalConversations (analytics w') = totalConversations (analytics idleWorld)
  /\ (emergencyCount (analytics w') = emergencyCount (analytics idleWorld)
      \/ emergencyCount (analytics w') = S (emergencyCount (analytics idleWorld)))
  /\ (emitted w' = emitted idleWorld
      \/ emitted w' = emitted idleWorld ++ [emergencyAlert "I have chest pain" "s1"]
         /\ emergencyCount (analytics w') = S (emergencyCount (analytics idleWorld))
         /\ aiCalls w' = aiCalls idleWorld)
  /\ (aiCalls w' = aiCalls idleWorld \/ aiCalls w' = S (aiCalls idleWorld)).
Proof. exact (turn_counters 0 "s1" sample_sid_truthy noAI "I have chest pain" idleWorld). Defined.
